(** * BasisMind decision engine: a shallow embedding and its properties

    The Python sources embedded here are [src/config.py], [src/scoring.py],
    [src/overrides.py], [src/book.py], [src/engine.py], [src/premium.py],
    [src/auxiliaries.py], [src/lineup.py] and the spread classification of
    [src/competitiveness.py]; what needs a mean or a standard deviation is
    left out.

    Numbers.  Python [float] values are modelled as rationals ([Q]): every
    decision of the engine is a comparison against a constant, a [min], a
    [max], or a rounding to a fixed number of decimals, all of which are
    exact on rationals.  The two percentile functions, whose result is
    reported to two decimals, round every operation to binary64.  NaN and
    the infinities have no counterpart.  Integers ([int]) are [Z].

    Text.  An f-string is kept as the list of its literal segments and
    formatted holes ([text]), so that no float-to-decimal rendering has to
    be reproduced. *)

From Stdlib Require Import QArith Qpower Qminmax ZArith List String Ascii Bool.
From Stdlib Require Import Lia Lqa.
From Stdlib Require Import Sorting.Sorted Sorting.Permutation.
Import ListNotations.

Local Open Scope Q_scope.

(* ===================================================================== *)
(** * Python built-ins used by the sources                                 *)
(* ===================================================================== *)

Module Py.

(** [a < b], [a <= b], [a == b] on floats. *)
Definition ltb (a b : Q) : bool := negb (Qle_bool b a).
Definition leb (a b : Q) : bool := Qle_bool a b.
Definition eqb (a b : Q) : bool := Qeq_bool a b.
Definition gtb (a b : Q) : bool := ltb b a.
Definition geb (a b : Q) : bool := leb b a.

(** [max(a, b)] keeps its first argument unless the second is strictly
    greater; [min(a, b)] keeps its first unless the second is strictly
    smaller. *)
Definition max (a b : Q) : Q := if gtb b a then b else a.
Definition min (a b : Q) : Q := if ltb b a then b else a.

(** [abs(x)]. *)
Definition abs (x : Q) : Q := if ltb x 0 then - x else x.

(** Nearest integer, ties to the even one. *)
Definition round_half_even (x : Q) : Z :=
  let n := Qnum x in
  let d := Zpos (Qden x) in
  let fl := (n / d)%Z in
  match (2 * (n mod d) ?= d)%Z with
  | Lt => fl
  | Gt => (fl + 1)%Z
  | Eq => if Z.even fl then fl else (fl + 1)%Z
  end.

(** [round(x, ndigits)]. *)
Definition round (x : Q) (ndigits : nat) : Q :=
  let p := Z.to_pos (10 ^ Z.of_nat ndigits) in
  round_half_even (x * inject_Z (Zpos p)) # p.

(** [datetime.date]. *)
Record date : Type := mkDate { year : Z; month : Z; day : Z }.

(** Pieces of an f-string or of a logging format: a literal (a hole
    holding a string is spliced in as a literal), or a hole holding a
    float, an integer or a date together with its format specification
    (the empty specification is [str(x)]). *)
Inductive piece : Type :=
| Lit (s : string)
| Fmt (spec : string) (x : Q)
| FmtZ (spec : string) (n : Z)
| FmtD (spec : string) (d : date).

Definition text := list piece.

(** [sep.join(parts)]. *)
Fixpoint join (sep : text) (parts : list text) : text :=
  match parts with
  | [] => []
  | [p] => p
  | p :: rest => p ++ sep ++ join sep rest
  end.

(** [s.upper()] on ASCII letters. *)
Definition upper_ascii (c : ascii) : ascii :=
  let n := nat_of_ascii c in
  if (andb (Nat.leb 97 n) (Nat.leb n 122)) then ascii_of_nat (n - 32) else c.

Fixpoint upper (s : string) : string :=
  match s with
  | EmptyString => EmptyString
  | String c r => String (upper_ascii c) (upper r)
  end.

(** Stable sort by an integer key, ascending: [list.sort(key=...)]. *)
Section SortZ.
Context {A : Type} (key : A -> Z).

Fixpoint insert_by (x : A) (l : list A) : list A :=
    match l with
    | [] => [x]
    | y :: r => if (key y <? key x)%Z then y :: insert_by x r else x :: y :: r
    end.

Fixpoint sort_by (l : list A) : list A :=
    match l with
    | [] => []
    | x :: r => insert_by x (sort_by r)
    end.
End SortZ.

(** Stable sort by a float key, descending:
    [sorted(..., key=..., reverse=True)]. *)
Section SortQDesc.
Context {A : Type} (key : A -> Q).

Fixpoint insert_desc (x : A) (l : list A) : list A :=
    match l with
    | [] => [x]
    | y :: r => if gtb (key y) (key x) then y :: insert_desc x r
                else x :: y :: r
    end.

Fixpoint sorted_desc (l : list A) : list A :=
    match l with
    | [] => []
    | x :: r => insert_desc x (sorted_desc r)
    end.
End SortQDesc.

(** [sum(1 for h in l if cond(h))] and [len(l)]. *)
Definition count_if {A : Type} (cond : A -> bool) (l : list A) : Z :=
  fold_left (fun acc h => if cond h then (acc + 1)%Z else acc) l 0%Z.

Definition len {A : Type} (l : list A) : Z := Z.of_nat (List.length l).

(** Exceptions raised by the sources. *)
Inductive exn : Type :=
| ValueError (msg : text).

Inductive result (A : Type) : Type :=
| Ok (a : A)
| Raise (e : exn).
Arguments Ok {A} a.
Arguments Raise {A} e.

(** Records handed to the [logging] module. *)
Inductive log_record : Type :=
| LogWarning (msg : text).

(** A float that may be [float("-inf")] or [float("inf")], as in the
    threshold tables, with [a < b] and [a <= b] on such values. *)
Inductive xfloat : Type :=
| NegInf
| Fin (x : Q)
| PosInf.

Definition xltb (a b : xfloat) : bool :=
  match a, b with
  | NegInf, NegInf => false
  | NegInf, _ => true
  | Fin x, Fin y => ltb x y
  | Fin _, PosInf => true
  | _, _ => false
  end.

Definition xleb (a b : xfloat) : bool :=
  match a, b with
  | NegInf, _ => true
  | Fin x, Fin y => leb x y
  | _, PosInf => true
  | _, _ => false
  end.

(** [lower <= x < upper] for a finite [x]. *)
Definition in_band (lower : xfloat) (x : Q) (upper : xfloat) : bool :=
  xleb lower (Fin x) && xltb (Fin x) upper.

(** First key of a threshold dictionary, in insertion order, whose band
    holds [x]; [default] when there is none. *)
Fixpoint first_band {K : Type} (table : list (K * (xfloat * xfloat)))
    (x : Q) (default : K) : K :=
  match table with
  | [] => default
  | (k, (lower, upper)) :: rest =>
      if in_band lower x upper then k else first_band rest x default
  end.

(** Binary64 arithmetic, for the one computation whose result depends on
    it at the precision it is reported with (the percentile, rounded to two
    decimals).  [binade x] is the exponent [e] with [2^e <= x < 2^(e+1)] of
    a positive [x]; [fl x] is the float nearest to [x], with a significand
    of 53 bits and ties to the even one (the exponent range is not
    limited: no overflow, no subnormals). *)
Definition binade (x : Q) : Z :=
  let c := (Z.log2 (Qnum x) - Z.log2 (Zpos (Qden x)))%Z in
  if Qle_bool (2 ^ c) x then c else (c - 1)%Z.

Definition fl_pos (x : Q) : Q :=
  let k := (binade x - 52)%Z in
  inject_Z (round_half_even (x / 2 ^ k)) * 2 ^ k.

Definition fl (x : Q) : Q :=
  if Qeq_bool x 0 then 0
  else if Qle_bool 0 x then fl_pos x
  else - fl_pos (- x).

(** [float(n)], and [a + b], [a * b], [a / b] on floats. *)
Definition float_of_int (n : Z) : Q := fl (inject_Z n).
Definition fadd (a b : Q) : Q := fl (a + b).
Definition fmul (a b : Q) : Q := fl (a * b).
Definition fdiv (a b : Q) : Q := fl (a / b).

(** [max(a, b)] and [min(a, b)] on integers. *)
Definition zmax (a b : Z) : Z := if (a <? b)%Z then b else a.
Definition zmin (a b : Z) : Z := if (b <? a)%Z then b else a.

End Py.

(* ===================================================================== *)
(** * config.py                                                            *)
(* ===================================================================== *)

Module Config.

Definition SAFRA_MONTHS : list Z := [3; 4; 5; 6; 7]%Z.
Definition ENTRESSAFRA_MONTHS : list Z := [1; 2; 8; 9; 10; 11; 12]%Z.

Definition MIN_HISTORICAL_SAMPLES : Z := 30.

Definition PREMIUM_THRESHOLD_BAIXO : Q := 40.
Definition PREMIUM_THRESHOLD_ALTO : Q := 80.

Definition LINEUP_DROP_OVERRIDE_THRESHOLD : Q := -10.

Definition LINEUP_TREND_FORTE_QUEDA : Q := -15.
Definition LINEUP_TREND_FORTE_ALTA : Q := 15.

Definition CRITICAL_SPREAD_THRESHOLD : Q := 15.

Definition COMPETITIVENESS_MUITO_BARATO : Q := -20.
Definition COMPETITIVENESS_MUITO_CARO : Q := 20.

Definition CAMBIO_FORTE_THRESHOLD : Q := 3.
Definition DEMAND_Z_FORTE : Q := 3 # 2.

Definition SCORING_WEIGHT_LINEUP : Q := 30 # 100.
Definition SCORING_WEIGHT_PREMIUM : Q := 25 # 100.
Definition SCORING_WEIGHT_COMPETITIVENESS : Q := 20 # 100.
Definition SCORING_WEIGHT_DEMAND : Q := 15 # 100.
Definition SCORING_WEIGHT_CAMBIO : Q := 10 # 100.

Definition SCORING_FISICO_MUITO_FORTE : Q := 80.
Definition SCORING_FISICO_FORTE : Q := 65.
Definition SCORING_FISICO_FRACO : Q := 35.
Definition SCORING_FISICO_MUITO_FRACO : Q := 20.

Definition HEDGE_PERCENTIL_MUITO_ALTO : Q := 80.
Definition HEDGE_PERCENTIL_ALTO : Q := 65.
Definition HEDGE_PERCENTIL_BAIXO : Q := 35.
Definition HEDGE_PERCENTIL_MUITO_BAIXO : Q := 20.

Definition BOOK_HEDGE_TOLERANCE_PP : Q := 20.

Definition TRIGGER_LINEUP_CHANGE_PCT : Q := 20.
Definition TRIGGER_PREMIUM_STD : Q := 2.
Definition TRIGGER_CHICAGO_CHANGE_PCT : Q := 5.

Definition DEFAULT_LIMITE_LONG_PCT : Q := 80.
Definition DEFAULT_LIMITE_SHORT_PCT : Q := -50.
Definition DEFAULT_HEDGE_META_PCT : Q := 60.

End Config.

(* ===================================================================== *)
(** * scoring.py                                                           *)
(* ===================================================================== *)

Module Scoring.
Import Config.

Module PhysicalRecommendation.
Inductive t : Type :=
  | REDUZIR_FORTE | REDUZIR | MANTER | AUMENTAR | AUMENTAR_FORTE.

Definition value (r : t) : string :=
    match r with
    | REDUZIR_FORTE => "reduzir_forte"
    | REDUZIR => "reduzir"
    | MANTER => "manter"
    | AUMENTAR => "aumentar"
    | AUMENTAR_FORTE => "aumentar_forte"
    end.
End PhysicalRecommendation.

Module HedgeRecommendation.
Inductive t : Type :=
  | REDUZIR_FORTE | REDUZIR | MANTER | AUMENTAR | AUMENTAR_FORTE.

Definition value (r : t) : string :=
    match r with
    | REDUZIR_FORTE => "reduzir_forte"
    | REDUZIR => "reduzir"
    | MANTER => "manter"
    | AUMENTAR => "aumentar"
    | AUMENTAR_FORTE => "aumentar_forte"
    end.
End HedgeRecommendation.

Module Intensity.
Inductive t : Type := FORTE | MODERADA | NEUTRA.

Definition value (i : t) : string :=
    match i with
    | FORTE => "forte"
    | MODERADA => "moderada"
    | NEUTRA => "neutra"
    end.
End Intensity.

Module PhysicalClassification.
Inductive t : Type := MUITO_FRACO | FRACO | NEUTRO | FORTE | MUITO_FORTE.

Definition value (c : t) : string :=
    match c with
    | MUITO_FRACO => "muito_fraco"
    | FRACO => "fraco"
    | NEUTRO => "neutro"
    | FORTE => "forte"
    | MUITO_FORTE => "muito_forte"
    end.
End PhysicalClassification.

Module ComponentScores.
Record t : Type := mk {
    lineup : Q;
    premium : Q;
    competitiveness : Q;
    demand : Q;
    cambio : Q
  }.
End ComponentScores.

Module PhysicalResult.
Record t : Type := mk {
    recommendation : PhysicalRecommendation.t;
    intensity : Intensity.t;
    sizing_pct : Q
  }.
End PhysicalResult.

Module HedgeResult.
Record t : Type := mk {
    recommendation : HedgeRecommendation.t;
    intensity : Intensity.t;
    delta_pp : Q
  }.
End HedgeResult.

Module ScoringResult.
Record t : Type := mk {
    date : Py.date;
    score_fisico : Q;
    classification : PhysicalClassification.t;
    components : ComponentScores.t;
    physical : PhysicalResult.t;
    hedge : HedgeResult.t;
    chicago_percentile : Q;
    chicago_is_spike : bool
  }.
End ScoringResult.

Definition _clamp (value min_val max_val : Q) : Q :=
  Py.max min_val (Py.min max_val value).

Definition _linear_map (value in_min in_max out_min out_max : Q) : Q :=
  if Py.eqb in_max in_min then (out_min + out_max) / 2
  else
    let ratio := (value - in_min) / (in_max - in_min) in
    let result := out_min + ratio * (out_max - out_min) in
    _clamp result (Py.min out_min out_max) (Py.max out_min out_max).

Definition score_lineup (var_semanal : option Q) : Q :=
  match var_semanal with
  | None => 50
  | Some v =>
      _linear_map v LINEUP_TREND_FORTE_QUEDA LINEUP_TREND_FORTE_ALTA 0 100
  end.

Definition score_premium (percentile : Q) : Q := _clamp percentile 0 100.

Definition score_competitiveness (spread_adjusted : Q) : Q :=
  _linear_map spread_adjusted
    COMPETITIVENESS_MUITO_CARO COMPETITIVENESS_MUITO_BARATO 0 100.

Definition score_demand (z_pace : option Q) : Q :=
  match z_pace with
  | None => 50
  | Some z => _linear_map z (- DEMAND_Z_FORTE) DEMAND_Z_FORTE 0 100
  end.

Definition score_cambio (var_5d : option Q) : Q :=
  match var_5d with
  | None => 50
  | Some v =>
      _linear_map v CAMBIO_FORTE_THRESHOLD (- CAMBIO_FORTE_THRESHOLD) 0 100
  end.

Definition compute_component_scores
    (var_semanal_lineup : option Q) (percentil_premium spread_adjusted : Q)
    (z_pace var_cambio_5d : option Q) : ComponentScores.t :=
  ComponentScores.mk
    (score_lineup var_semanal_lineup)
    (score_premium percentil_premium)
    (score_competitiveness spread_adjusted)
    (score_demand z_pace)
    (score_cambio var_cambio_5d).

Definition compute_score_fisico (components : ComponentScores.t) : Q :=
  let score :=
    SCORING_WEIGHT_LINEUP * ComponentScores.lineup components
    + SCORING_WEIGHT_PREMIUM * ComponentScores.premium components
    + SCORING_WEIGHT_COMPETITIVENESS
      * ComponentScores.competitiveness components
    + SCORING_WEIGHT_DEMAND * ComponentScores.demand components
    + SCORING_WEIGHT_CAMBIO * ComponentScores.cambio components in
  _clamp score 0 100.

Definition classify_score_fisico (score : Q) : PhysicalClassification.t :=
  if Py.geb score SCORING_FISICO_MUITO_FORTE
  then PhysicalClassification.MUITO_FORTE
  else if Py.geb score SCORING_FISICO_FORTE
  then PhysicalClassification.FORTE
  else if Py.leb score SCORING_FISICO_MUITO_FRACO
  then PhysicalClassification.MUITO_FRACO
  else if Py.leb score SCORING_FISICO_FRACO
  then PhysicalClassification.FRACO
  else PhysicalClassification.NEUTRO.

Definition determine_intensity (score : Q) : Intensity.t :=
  if Py.gtb score 80 || Py.ltb score 20 then Intensity.FORTE
  else if Py.gtb score 65 || Py.ltb score 35 then Intensity.MODERADA
  else Intensity.NEUTRA.

Definition compute_physical_recommendation (score : Q) : PhysicalResult.t :=
  let intensity := determine_intensity score in
  if Py.geb score SCORING_FISICO_MUITO_FORTE then
    PhysicalResult.mk PhysicalRecommendation.AUMENTAR_FORTE
      Intensity.FORTE 25
  else if Py.geb score SCORING_FISICO_FORTE then
    PhysicalResult.mk PhysicalRecommendation.AUMENTAR intensity 15
  else if Py.leb score SCORING_FISICO_MUITO_FRACO then
    PhysicalResult.mk PhysicalRecommendation.REDUZIR_FORTE
      Intensity.FORTE (-25)
  else if Py.leb score SCORING_FISICO_FRACO then
    PhysicalResult.mk PhysicalRecommendation.REDUZIR intensity (-15)
  else
    PhysicalResult.mk PhysicalRecommendation.MANTER Intensity.NEUTRA 0.

Definition compute_hedge_recommendation
    (chicago_percentile : Q) (is_speculative_spike : bool) : HedgeResult.t :=
  if is_speculative_spike && Py.geb chicago_percentile 50 then
    HedgeResult.mk HedgeRecommendation.AUMENTAR Intensity.MODERADA 10
  else if Py.geb chicago_percentile HEDGE_PERCENTIL_MUITO_ALTO then
    HedgeResult.mk HedgeRecommendation.AUMENTAR_FORTE Intensity.FORTE 20
  else if Py.geb chicago_percentile HEDGE_PERCENTIL_ALTO then
    HedgeResult.mk HedgeRecommendation.AUMENTAR Intensity.MODERADA 10
  else if Py.leb chicago_percentile HEDGE_PERCENTIL_MUITO_BAIXO then
    HedgeResult.mk HedgeRecommendation.REDUZIR_FORTE Intensity.FORTE (-20)
  else if Py.leb chicago_percentile HEDGE_PERCENTIL_BAIXO then
    HedgeResult.mk HedgeRecommendation.REDUZIR Intensity.MODERADA (-10)
  else
    HedgeResult.mk HedgeRecommendation.MANTER Intensity.NEUTRA 0.

Definition compute_scoring
    (dt : Py.date) (var_semanal_lineup : option Q)
    (percentil_premium spread_adjusted : Q)
    (z_pace var_cambio_5d : option Q)
    (chicago_percentile : Q) (chicago_is_spike : bool) : ScoringResult.t :=
  let components :=
    compute_component_scores var_semanal_lineup percentil_premium
      spread_adjusted z_pace var_cambio_5d in
  let score_fisico := compute_score_fisico components in
  let classification := classify_score_fisico score_fisico in
  let physical := compute_physical_recommendation score_fisico in
  let hedge :=
    compute_hedge_recommendation chicago_percentile chicago_is_spike in
  ScoringResult.mk dt score_fisico classification components physical hedge
    chicago_percentile chicago_is_spike.

End Scoring.

(* ===================================================================== *)
(** * overrides.py                                                         *)
(* ===================================================================== *)

Module Overrides.
Import Config Scoring.

Module OverrideType.
Inductive t : Type :=
  | LOGISTICA
  | QUEDA_CONJUNTA
  | ARMADILHA_PREMIO
  | COMPETITIVIDADE_CRITICA
  | CHICAGO_ESPECULATIVO.

Definition value (o : t) : string :=
    match o with
    | LOGISTICA => "logistica"
    | QUEDA_CONJUNTA => "queda_conjunta"
    | ARMADILHA_PREMIO => "armadilha_premio"
    | COMPETITIVIDADE_CRITICA => "competitividade_critica"
    | CHICAGO_ESPECULATIVO => "chicago_especulativo"
    end.
End OverrideType.

Definition OVERRIDE_PRIORITY (o : OverrideType.t) : Z :=
  match o with
  | OverrideType.LOGISTICA => 1
  | OverrideType.QUEDA_CONJUNTA => 2
  | OverrideType.ARMADILHA_PREMIO => 3
  | OverrideType.COMPETITIVIDADE_CRITICA => 4
  | OverrideType.CHICAGO_ESPECULATIVO => 5
  end.

Module Override.
Record t : Type := mk {
    type : OverrideType.t;
    reason : Py.text;
    physical_action : option PhysicalResult.t;
    hedge_action : option HedgeResult.t;
    priority : Z
  }.

Definition affects_physical (o : t) : bool :=
    match physical_action o with Some _ => true | None => false end.

Definition affects_hedge (o : t) : bool :=
    match hedge_action o with Some _ => true | None => false end.
End Override.

Module OverrideEvaluation.
Record t : Type := mk {
    active_overrides : list Override.t;
    dominant_override : option Override.t;
    original_physical : PhysicalResult.t;
    original_hedge : HedgeResult.t;
    final_physical : PhysicalResult.t;
    final_hedge : HedgeResult.t
  }.

Definition has_override (e : t) : bool :=
    match dominant_override e with Some _ => true | None => false end.
End OverrideEvaluation.

Definition check_queda_conjunta
    (var_semanal_lineup : option Q) (percentil_premium : Q)
    : option Override.t :=
  match var_semanal_lineup with
  | None => None
  | Some var =>
      let lineup_caindo := Py.ltb var LINEUP_DROP_OVERRIDE_THRESHOLD in
      let premio_baixo := Py.ltb percentil_premium PREMIUM_THRESHOLD_BAIXO in
      if lineup_caindo && premio_baixo then
        Some (Override.mk
                OverrideType.QUEDA_CONJUNTA
                [Py.Lit "Line-up caindo ("; Py.Fmt ".1f" var;
                 Py.Lit "%) e premio baixo (percentil ";
                 Py.Fmt ".0f" percentil_premium; Py.Lit ")"]
                (Some (PhysicalResult.mk PhysicalRecommendation.REDUZIR
                         Intensity.FORTE (-20)))
                None
                (OVERRIDE_PRIORITY OverrideType.QUEDA_CONJUNTA))
      else None
  end.

Definition check_armadilha_premio
    (var_semanal_lineup : option Q) (percentil_premium : Q)
    : option Override.t :=
  match var_semanal_lineup with
  | None => None
  | Some var =>
      let lineup_caindo := Py.ltb var LINEUP_DROP_OVERRIDE_THRESHOLD in
      let premio_alto := Py.gtb percentil_premium PREMIUM_THRESHOLD_ALTO in
      if lineup_caindo && premio_alto then
        Some (Override.mk
                OverrideType.ARMADILHA_PREMIO
                [Py.Lit "Premio alto (percentil ";
                 Py.Fmt ".0f" percentil_premium;
                 Py.Lit ") mas line-up caindo ("; Py.Fmt ".1f" var;
                 Py.Lit "%)"]
                (Some (PhysicalResult.mk PhysicalRecommendation.REDUZIR_FORTE
                         Intensity.FORTE (-25)))
                None
                (OVERRIDE_PRIORITY OverrideType.ARMADILHA_PREMIO))
      else None
  end.

Definition check_logistica
    (logistics_flag_active : bool) (logistics_reason : option string)
    : option Override.t :=
  if logistics_flag_active then
    let reason :=
      match logistics_reason with
      | None | Some EmptyString => "Restricao logistica ativa"%string
      | Some r => r
      end in
    Some (Override.mk
            OverrideType.LOGISTICA
            [Py.Lit reason]
            (Some (PhysicalResult.mk PhysicalRecommendation.REDUZIR_FORTE
                     Intensity.FORTE (-30)))
            None
            (OVERRIDE_PRIORITY OverrideType.LOGISTICA))
  else None.

Definition check_chicago_especulativo
    (is_speculative_spike narrativa_confirmada : bool)
    : option Override.t :=
  if is_speculative_spike && negb narrativa_confirmada then
    Some (Override.mk
            OverrideType.CHICAGO_ESPECULATIVO
            [Py.Lit "Spike especulativo em Chicago (>5% em 5d) sem narrativa confirmada"]
            (Some (PhysicalResult.mk PhysicalRecommendation.MANTER
                     Intensity.MODERADA 0))
            (Some (HedgeResult.mk HedgeRecommendation.AUMENTAR_FORTE
                     Intensity.FORTE 20))
            (OVERRIDE_PRIORITY OverrideType.CHICAGO_ESPECULATIVO))
  else None.

Definition check_competitividade_critica (spread_adjusted : Q)
    : option Override.t :=
  if Py.gtb spread_adjusted CRITICAL_SPREAD_THRESHOLD then
    Some (Override.mk
            OverrideType.COMPETITIVIDADE_CRITICA
            [Py.Lit "Brasil nao-competitivo (spread +";
             Py.Fmt ".1f" spread_adjusted; Py.Lit " USD/ton)"]
            (Some (PhysicalResult.mk PhysicalRecommendation.REDUZIR
                     Intensity.MODERADA (-15)))
            None
            (OVERRIDE_PRIORITY OverrideType.COMPETITIVIDADE_CRITICA))
  else None.

(** [if override := check(...): active.append(override)]. *)
Definition append_if (checked : option Override.t) (active : list Override.t)
    : list Override.t :=
  match checked with
  | Some override => active ++ [override]
  | None => active
  end.

Definition evaluate_overrides
    (var_semanal_lineup : option Q)
    (percentil_premium spread_adjusted : Q)
    (logistics_flag_active : bool) (logistics_reason : option string)
    (is_speculative_spike narrativa_confirmada : bool)
    (original_physical : PhysicalResult.t)
    (original_hedge : HedgeResult.t) : OverrideEvaluation.t :=
  let active : list Override.t := [] in
  let active :=
    append_if (check_logistica logistics_flag_active logistics_reason)
      active in
  let active :=
    append_if (check_queda_conjunta var_semanal_lineup percentil_premium)
      active in
  let active :=
    append_if (check_armadilha_premio var_semanal_lineup percentil_premium)
      active in
  let active :=
    append_if (check_competitividade_critica spread_adjusted) active in
  let active :=
    append_if
      (check_chicago_especulativo is_speculative_spike narrativa_confirmada)
      active in
  let active := Py.sort_by Override.priority active in
  let dominant : option Override.t :=
    match active with
    | d :: _ => Some d
    | [] => None
    end in
  let final_physical := original_physical in
  let final_hedge := original_hedge in
  let final_physical :=
    match dominant with
    | Some d =>
        match Override.physical_action d with
        | Some p => p
        | None => final_physical
        end
    | None => final_physical
    end in
  let final_hedge :=
    match dominant with
    | Some d =>
        match Override.hedge_action d with
        | Some h => h
        | None => final_hedge
        end
    | None => final_hedge
    end in
  OverrideEvaluation.mk active dominant original_physical original_hedge
    final_physical final_hedge.

Definition get_override_justification (evaluation : OverrideEvaluation.t)
    : Py.text :=
  match OverrideEvaluation.dominant_override evaluation with
  | None => [Py.Lit "Nenhum override ativo. Recomendacao baseada no score."]
  | Some dominant =>
      let lines : list Py.text :=
        [[Py.Lit "OVERRIDE ATIVO: ";
          Py.Lit (Py.upper (OverrideType.value (Override.type dominant)))]] in
      let lines :=
        lines ++ [Py.Lit "Motivo: " :: Override.reason dominant] in
      let lines :=
        if (1 <? Py.len (OverrideEvaluation.active_overrides evaluation))%Z then
          let others :=
            map (fun o => [Py.Lit (OverrideType.value (Override.type o))])
              (tl (OverrideEvaluation.active_overrides evaluation)) in
          lines ++
            [Py.Lit "Outros overrides ativos (menor prioridade): "
             :: Py.join [Py.Lit ", "] others]
        else lines in
      let lines :=
        if Override.affects_physical dominant then
          lines ++
            [[Py.Lit "Acao fisica: ";
              Py.Lit (PhysicalRecommendation.value
                        (PhysicalResult.recommendation
                           (OverrideEvaluation.final_physical evaluation)));
              Py.Lit " (era: ";
              Py.Lit (PhysicalRecommendation.value
                        (PhysicalResult.recommendation
                           (OverrideEvaluation.original_physical
                              evaluation)));
              Py.Lit ")"]]
        else lines in
      let lines :=
        if Override.affects_hedge dominant then
          lines ++
            [[Py.Lit "Acao hedge: ";
              Py.Lit (HedgeRecommendation.value
                        (HedgeResult.recommendation
                           (OverrideEvaluation.final_hedge evaluation)));
              Py.Lit " (era: ";
              Py.Lit (HedgeRecommendation.value
                        (HedgeResult.recommendation
                           (OverrideEvaluation.original_hedge evaluation)));
              Py.Lit ")"]]
        else lines in
      Py.join [Py.Lit " | "] lines
  end.

End Overrides.

(* ===================================================================== *)
(** * book.py                                                              *)
(* ===================================================================== *)

Module Book.
Import Config Scoring.

Module BookState.
Record t : Type := mk {
    exposicao_fisica_pct : Q;
    limite_long_pct : Q;
    limite_short_pct : Q;
    hedge_atual_pct : Q;
    hedge_meta_pct : Q
  }.

Definition exposicao_disponivel_long (b : t) : Q :=
    Py.max 0 (limite_long_pct b - exposicao_fisica_pct b).

Definition exposicao_disponivel_short (b : t) : Q :=
    Py.max 0 (exposicao_fisica_pct b - limite_short_pct b).

Definition hedge_vs_meta (b : t) : Q :=
    hedge_atual_pct b - hedge_meta_pct b.

Definition is_at_long_limit (b : t) : bool :=
    Py.geb (exposicao_fisica_pct b) (limite_long_pct b).

Definition is_at_short_limit (b : t) : bool :=
    Py.leb (exposicao_fisica_pct b) (limite_short_pct b).

Definition is_overhedged (b : t) : bool :=
    Py.geb (hedge_atual_pct b) (hedge_meta_pct b + BOOK_HEDGE_TOLERANCE_PP).
End BookState.

Module ModulatedResult.
Record t : Type := mk {
    physical : PhysicalResult.t;
    hedge : HedgeResult.t;
    physical_was_modulated : bool;
    hedge_was_modulated : bool;
    modulation_reason : option Py.text
  }.
End ModulatedResult.

(** [r in (AUMENTAR, AUMENTAR_FORTE)] and [r in (REDUZIR, REDUZIR_FORTE)]. *)
Definition physical_in_aumentar (r : PhysicalRecommendation.t) : bool :=
  match r with
  | PhysicalRecommendation.AUMENTAR
  | PhysicalRecommendation.AUMENTAR_FORTE => true
  | _ => false
  end.

Definition physical_in_reduzir (r : PhysicalRecommendation.t) : bool :=
  match r with
  | PhysicalRecommendation.REDUZIR
  | PhysicalRecommendation.REDUZIR_FORTE => true
  | _ => false
  end.

Definition hedge_in_aumentar (r : HedgeRecommendation.t) : bool :=
  match r with
  | HedgeRecommendation.AUMENTAR
  | HedgeRecommendation.AUMENTAR_FORTE => true
  | _ => false
  end.

(** The function's mutable locals, threaded through its three guards. *)
Record locals : Type := mkLocals {
  new_physical : PhysicalResult.t;
  new_hedge : HedgeResult.t;
  physical_modulated : bool;
  hedge_modulated : bool;
  reasons : list Py.text
}.

Definition modulate_by_book
    (physical : PhysicalResult.t) (hedge : HedgeResult.t)
    (book : BookState.t) : ModulatedResult.t :=
  let st := mkLocals physical hedge false false [] in
  let st :=
    if physical_in_aumentar (PhysicalResult.recommendation physical) then
      if BookState.is_at_long_limit book then
        mkLocals
          (PhysicalResult.mk PhysicalRecommendation.MANTER Intensity.NEUTRA 0)
          (new_hedge st)
          true
          (hedge_modulated st)
          (reasons st ++
             [[Py.Lit "Exposicao no limite long (";
               Py.Fmt "" (BookState.limite_long_pct book); Py.Lit "%)"]])
      else st
    else st in
  let st :=
    if physical_in_reduzir (PhysicalResult.recommendation physical) then
      if BookState.is_at_short_limit book then
        mkLocals
          (PhysicalResult.mk PhysicalRecommendation.MANTER Intensity.NEUTRA 0)
          (new_hedge st)
          true
          (hedge_modulated st)
          (reasons st ++
             [[Py.Lit "Exposicao no limite short (";
               Py.Fmt "" (BookState.limite_short_pct book); Py.Lit "%)"]])
      else st
    else st in
  let st :=
    if hedge_in_aumentar (HedgeResult.recommendation hedge) then
      if BookState.is_overhedged book then
        mkLocals
          (new_physical st)
          (HedgeResult.mk HedgeRecommendation.MANTER Intensity.NEUTRA 0)
          (physical_modulated st)
          true
          (reasons st ++
             [[Py.Lit "Hedge acima da meta + tolerancia (";
               Py.Fmt "" (BookState.hedge_atual_pct book);
               Py.Lit "% vs meta ";
               Py.Fmt "" (BookState.hedge_meta_pct book); Py.Lit "%)"]])
      else st
    else st in
  ModulatedResult.mk
    (new_physical st)
    (new_hedge st)
    (physical_modulated st)
    (hedge_modulated st)
    (match reasons st with
     | [] => None
     | _ :: _ => Some (Py.join [Py.Lit " | "] (reasons st))
     end).

Definition calculate_effective_sizing (sizing_pct : Q) (book : BookState.t)
    : Q :=
  if Py.gtb sizing_pct 0 then
    Py.min sizing_pct (BookState.exposicao_disponivel_long book)
  else if Py.ltb sizing_pct 0 then
    Py.max sizing_pct (- BookState.exposicao_disponivel_short book)
  else 0.

End Book.

(* ===================================================================== *)
(** * engine.py                                                            *)
(* ===================================================================== *)

Module Engine.
Import Config Scoring Overrides Book.

Module MarketInputs.
Record t : Type := mk {
    dt : Py.date;
    var_semanal_lineup : option Q;
    percentil_premium : Q;
    spread_adjusted : Q;
    z_pace : option Q;
    var_cambio_5d : option Q;
    chicago_percentile : Q;
    chicago_is_spike : bool;
    logistics_flag_active : bool;
    logistics_reason : option string;
    narrativa_confirmada : bool
  }.
End MarketInputs.

(** The two recommendation dictionaries of the report, with their keys
    ["acao"], ["intensidade"] and ["sizing_pct"] / ["delta_pp"]. *)
Module RecomendacaoFisica.
Record t : Type := mk {
    acao : string;
    intensidade : string;
    sizing_pct : Q
  }.
End RecomendacaoFisica.

Module RecomendacaoHedge.
Record t : Type := mk {
    acao : string;
    intensidade : string;
    delta_pp : Q
  }.
End RecomendacaoHedge.

Module DecisionReport.
Record t : Type := mk {
    data_referencia : Py.date;
    score_fisico : Q;
    classificacao : string;
    recomendacao_fisica : RecomendacaoFisica.t;
    recomendacao_hedge : RecomendacaoHedge.t;
    componentes : list (string * list (string * Q));
    overrides_ativos : list string;
    override_dominante : option string;
    modulacao_aplicada : bool;
    modulacao_razao : option Py.text;
    justificativa : Py.text
  }.
End DecisionReport.

(** [x or 0.0] on an optional float: [None] and zero are both falsy. *)
Definition or_zero (x : option Q) : Q :=
  match x with
  | None => 0
  | Some v => if Py.eqb v 0 then 0 else v
  end.

Definition _build_justificativa
    (scoring : ScoringResult.t)
    (override_eval : OverrideEvaluation.t)
    (modulated : ModulatedResult.t) : Py.text :=
  let parts : list Py.text :=
    [[Py.Lit "Fisico ";
      Py.Lit (PhysicalClassification.value
                (ScoringResult.classification scoring));
      Py.Lit " (score ";
      Py.Fmt ".0f" (ScoringResult.score_fisico scoring); Py.Lit ")"]] in
  let comp := ScoringResult.components scoring in
  let top_components :=
    firstn 2
      (Py.sorted_desc (fun x : string * Q => Py.abs (snd x - 50))
         [("lineup"%string, ComponentScores.lineup comp);
          ("premio"%string, ComponentScores.premium comp);
          ("competitividade"%string,
           ComponentScores.competitiveness comp)]) in
  let drivers : list Py.text :=
    map (fun x : string * Q =>
           let (name, score) := x in
           let direction :=
             if Py.gtb score 65 then "forte"%string
             else if Py.ltb score 35 then "fraco"%string
             else "neutro"%string in
           [Py.Lit name; Py.Lit " "; Py.Lit direction])
      top_components in
  let parts :=
    parts ++ [Py.Lit "Drivers: " :: Py.join [Py.Lit ", "] drivers] in
  let parts :=
    if OverrideEvaluation.has_override override_eval
    then parts ++ [get_override_justification override_eval]
    else parts in
  let parts :=
    match ModulatedResult.modulation_reason modulated with
    | Some (_ :: _ as r) => parts ++ [Py.Lit "Modulacao: " :: r]
    | _ => parts
    end in
  let parts :=
    parts ++
      [[Py.Lit "Recomendacao: ";
        Py.Lit (PhysicalRecommendation.value
                  (PhysicalResult.recommendation
                     (ModulatedResult.physical modulated)));
        Py.Lit " (fisica), ";
        Py.Lit (HedgeRecommendation.value
                  (HedgeResult.recommendation
                     (ModulatedResult.hedge modulated)));
        Py.Lit " (hedge)"]] in
  Py.join [Py.Lit " | "] parts.

Definition default_book : BookState.t :=
  BookState.mk 0 DEFAULT_LIMITE_LONG_PCT DEFAULT_LIMITE_SHORT_PCT 0
    DEFAULT_HEDGE_META_PCT.

Definition run_decision_engine
    (inputs : MarketInputs.t) (book : option BookState.t)
    : DecisionReport.t :=
  let book :=
    match book with
    | None => default_book
    | Some b => b
    end in
  let scoring :=
    compute_scoring
      (MarketInputs.dt inputs)
      (MarketInputs.var_semanal_lineup inputs)
      (MarketInputs.percentil_premium inputs)
      (MarketInputs.spread_adjusted inputs)
      (MarketInputs.z_pace inputs)
      (MarketInputs.var_cambio_5d inputs)
      (MarketInputs.chicago_percentile inputs)
      (MarketInputs.chicago_is_spike inputs) in
  let override_eval :=
    evaluate_overrides
      (MarketInputs.var_semanal_lineup inputs)
      (MarketInputs.percentil_premium inputs)
      (MarketInputs.spread_adjusted inputs)
      (MarketInputs.logistics_flag_active inputs)
      (MarketInputs.logistics_reason inputs)
      (MarketInputs.chicago_is_spike inputs)
      (MarketInputs.narrativa_confirmada inputs)
      (ScoringResult.physical scoring)
      (ScoringResult.hedge scoring) in
  let modulated :=
    modulate_by_book
      (OverrideEvaluation.final_physical override_eval)
      (OverrideEvaluation.final_hedge override_eval)
      book in
  let effective_sizing :=
    calculate_effective_sizing
      (PhysicalResult.sizing_pct (ModulatedResult.physical modulated))
      book in
  let justificativa := _build_justificativa scoring override_eval modulated in
  DecisionReport.mk
    (MarketInputs.dt inputs)
    (ScoringResult.score_fisico scoring)
    (PhysicalClassification.value (ScoringResult.classification scoring))
    (RecomendacaoFisica.mk
       (PhysicalRecommendation.value
          (PhysicalResult.recommendation
             (ModulatedResult.physical modulated)))
       (Intensity.value
          (PhysicalResult.intensity (ModulatedResult.physical modulated)))
       (Py.round effective_sizing 1))
    (RecomendacaoHedge.mk
       (HedgeRecommendation.value
          (HedgeResult.recommendation (ModulatedResult.hedge modulated)))
       (Intensity.value
          (HedgeResult.intensity (ModulatedResult.hedge modulated)))
       (Py.round (HedgeResult.delta_pp (ModulatedResult.hedge modulated)) 1))
    [("lineup"%string,
      [("score"%string,
        Py.round (ComponentScores.lineup (ScoringResult.components scoring)) 1);
       ("var_semanal"%string,
        or_zero (MarketInputs.var_semanal_lineup inputs))]);
     ("premio"%string,
      [("score"%string,
        Py.round
          (ComponentScores.premium (ScoringResult.components scoring)) 1);
       ("percentil"%string, MarketInputs.percentil_premium inputs)]);
     ("competitividade"%string,
      [("score"%string,
        Py.round
          (ComponentScores.competitiveness
             (ScoringResult.components scoring)) 1);
       ("spread"%string, MarketInputs.spread_adjusted inputs)]);
     ("demanda"%string,
      [("score"%string,
        Py.round (ComponentScores.demand (ScoringResult.components scoring)) 1);
       ("z_pace"%string, or_zero (MarketInputs.z_pace inputs))]);
     ("cambio"%string,
      [("score"%string,
        Py.round (ComponentScores.cambio (ScoringResult.components scoring)) 1);
       ("var_5d"%string, or_zero (MarketInputs.var_cambio_5d inputs))])]
    (map (fun o => OverrideType.value (Override.type o))
       (OverrideEvaluation.active_overrides override_eval))
    (match OverrideEvaluation.dominant_override override_eval with
     | Some d => Some (OverrideType.value (Override.type d))
     | None => None
     end)
    (ModulatedResult.physical_was_modulated modulated
     || ModulatedResult.hedge_was_modulated modulated)
    (ModulatedResult.modulation_reason modulated)
    justificativa.

Module TriggerCheck.
Record t : Type := mk {
  lineup_triggered : bool;
  premium_triggered : bool;
  logistics_triggered : bool;
  chicago_triggered : bool
}.

(** [any([...])]. *)
Definition any_triggered (c : t) : bool :=
  existsb (fun b : bool => b)
    [lineup_triggered c; premium_triggered c; logistics_triggered c;
     chicago_triggered c].

Definition triggered_reasons (c : t) : list Py.text :=
  let reasons : list Py.text := [] in
  let reasons :=
    if lineup_triggered c then
      reasons ++ [[Py.Lit "Line-up mudou > ";
                   Py.Fmt "" TRIGGER_LINEUP_CHANGE_PCT; Py.Lit "%"]]
    else reasons in
  let reasons :=
    if premium_triggered c then
      reasons ++ [[Py.Lit "Premio moveu > ";
                   Py.Fmt "" TRIGGER_PREMIUM_STD; Py.Lit " std"]]
    else reasons in
  let reasons :=
    if logistics_triggered c then
      reasons ++ [[Py.Lit "Flag de logistica ativado"]]
    else reasons in
  let reasons :=
    if chicago_triggered c then
      reasons ++ [[Py.Lit "Chicago moveu > ";
                   Py.Fmt "" TRIGGER_CHICAGO_CHANGE_PCT; Py.Lit "%"]]
    else reasons in
  reasons.
End TriggerCheck.

Definition check_triggers
    (var_lineup_atual var_lineup_anterior premium_zscore_move : option Q)
    (logistics_flag_active : bool) (var_chicago_semanal : option Q)
    : TriggerCheck.t :=
  let lineup_triggered :=
    match var_lineup_atual, var_lineup_anterior with
    | Some atual, Some anterior =>
        let delta := Py.abs (atual - anterior) in
        Py.gtb delta TRIGGER_LINEUP_CHANGE_PCT
    | _, _ => false
    end in
  let premium_triggered :=
    match premium_zscore_move with
    | Some move => Py.gtb (Py.abs move) TRIGGER_PREMIUM_STD
    | None => false
    end in
  let chicago_triggered :=
    match var_chicago_semanal with
    | Some var => Py.gtb (Py.abs var) TRIGGER_CHICAGO_CHANGE_PCT
    | None => false
    end in
  TriggerCheck.mk lineup_triggered premium_triggered logistics_flag_active
    chicago_triggered.

End Engine.

(* ===================================================================== *)
(** * premium.py                                                           *)
(* ===================================================================== *)

Module Premium.
Import Config.

Inductive Regime : Type := safra | entressafra.

Definition regime_str (r : Regime) : string :=
  match r with
  | safra => "safra"
  | entressafra => "entressafra"
  end.

Module PremiumClassification.
Inductive t : Type := MUITO_BAIXO | BAIXO | NEUTRO | ALTO | MUITO_ALTO.

Definition value (c : t) : string :=
    match c with
    | MUITO_BAIXO => "muito_baixo"
    | BAIXO => "baixo"
    | NEUTRO => "neutro"
    | ALTO => "alto"
    | MUITO_ALTO => "muito_alto"
    end.
End PremiumClassification.

Module PremiumResult.
Record t : Type := mk {
    date : Py.date;
    premium_raw : Q;
    regime : Regime;
    percentile : Q;
    classification : PremiumClassification.t;
    historical_count : Z
  }.
End PremiumResult.

(** The dictionary, in insertion order. *)
Definition CLASSIFICATION_THRESHOLDS
    : list (PremiumClassification.t * (Q * Q)) :=
  [(PremiumClassification.MUITO_BAIXO, (0, 20));
   (PremiumClassification.BAIXO, (20, 40));
   (PremiumClassification.NEUTRO, (40, 60));
   (PremiumClassification.ALTO, (60, 80));
   (PremiumClassification.MUITO_ALTO, (80, 100))].

Definition MIN_HISTORICAL_SAMPLES : Z := 30.

Definition get_regime (dt : Py.date) : Regime :=
  if existsb (Z.eqb (Py.month dt)) SAFRA_MONTHS then safra else entressafra.

Definition calculate_percentile (value : Q) (historical : list Q)
    : Py.result Q :=
  match historical with
  | [] => Py.Raise (Py.ValueError
                      [Py.Lit "Histórico vazio para cálculo de percentil"])
  | _ :: _ =>
      let count_below := Py.count_if (fun h => Py.ltb h value) historical in
      let count_equal := Py.count_if (fun h => Py.eqb h value) historical in
      let percentile :=
        Py.fmul
          (Py.fdiv
             (Py.fadd (Py.float_of_int count_below)
                (Py.fmul (1 # 2) (Py.float_of_int count_equal)))
             (Py.float_of_int (Py.len historical)))
          100 in
      Py.Ok (Py.round percentile 2)
  end.

Fixpoint classify_in
    (table : list (PremiumClassification.t * (Q * Q))) (percentile : Q)
    : PremiumClassification.t :=
  match table with
  | [] => PremiumClassification.MUITO_ALTO
  | (classification, (lower, upper)) :: rest =>
      if Py.leb lower percentile && Py.ltb percentile upper
      then classification
      else classify_in rest percentile
  end.

Definition classify_premium (percentile : Q) : PremiumClassification.t :=
  classify_in CLASSIFICATION_THRESHOLDS percentile.

(** The result is paired with the records the call hands to the logger. *)
Definition normalize_premium
    (dt : Py.date) (premium : option Q) (historical_by_regime : list Q)
    : list Py.log_record * Py.result PremiumResult.t :=
  match premium with
  | None =>
      ([], Py.Raise (Py.ValueError
                       [Py.Lit "Prêmio nulo para data "; Py.FmtD "" dt]))
  | Some premium =>
      let regime := get_regime dt in
      let log :=
        if (Py.len historical_by_regime <? MIN_HISTORICAL_SAMPLES)%Z then
          [Py.LogWarning
             [Py.Lit "Histórico insuficiente para regime ";
              Py.Lit (regime_str regime); Py.Lit ": ";
              Py.FmtZ "d" (Py.len historical_by_regime);
              Py.Lit " amostras (mínimo: ";
              Py.FmtZ "d" MIN_HISTORICAL_SAMPLES; Py.Lit ")"]]
        else [] in
      match calculate_percentile premium historical_by_regime with
      | Py.Raise e => (log, Py.Raise e)
      | Py.Ok percentile =>
          let classification := classify_premium percentile in
          (log,
           Py.Ok (PremiumResult.mk dt premium regime percentile
                    classification (Py.len historical_by_regime)))
      end
  end.

Definition get_regime_months (regime : Regime) : list Z :=
  match regime with
  | safra => SAFRA_MONTHS
  | entressafra => ENTRESSAFRA_MONTHS
  end.

End Premium.

(* ===================================================================== *)
(** * auxiliaries.py                                                       *)
(* ===================================================================== *)

Module Auxiliaries.

Definition calculate_percentile (value : Q) (historical : list Q) : Q :=
  match historical with
  | [] => 50
  | _ :: _ =>
      let count_below := Py.count_if (fun h => Py.ltb h value) historical in
      let count_equal := Py.count_if (fun h => Py.eqb h value) historical in
      let percentile :=
        Py.fmul
          (Py.fdiv
             (Py.fadd (Py.float_of_int count_below)
                (Py.fmul (1 # 2) (Py.float_of_int count_equal)))
             (Py.float_of_int (Py.len historical)))
          100 in
      Py.round percentile 2
  end.

Module CambioSignal.
Inductive t : Type := FORTE_ALTA | ALTA | NEUTRO | QUEDA | FORTE_QUEDA.
End CambioSignal.

Module CambioMetrics.
Record t : Type := mk {
  date : Py.date;
  usd_brl : Q;
  var_5d : option Q;
  var_20d : option Q;
  signal : option CambioSignal.t;
  modulation : Q
}.
End CambioMetrics.

Definition CAMBIO_THRESHOLDS
    : list (CambioSignal.t * (Py.xfloat * Py.xfloat)) :=
  [(CambioSignal.FORTE_QUEDA, (Py.NegInf, Py.Fin (-3)));
   (CambioSignal.QUEDA, (Py.Fin (-3), Py.Fin (-1)));
   (CambioSignal.NEUTRO, (Py.Fin (-1), Py.Fin 1));
   (CambioSignal.ALTA, (Py.Fin 1, Py.Fin 3));
   (CambioSignal.FORTE_ALTA, (Py.Fin 3, Py.PosInf))].

Definition calculate_var_percent (current : Q) (previous : option Q)
    : option Q :=
  match previous with
  | None => None
  | Some previous =>
      if Py.eqb previous 0 then None
      else Some (Py.round ((current - previous) / previous * 100) 2)
  end.

Definition classify_cambio_signal (var_5d : option Q)
    : option CambioSignal.t :=
  match var_5d with
  | None => None
  | Some var => Some (Py.first_band CAMBIO_THRESHOLDS var
                        CambioSignal.FORTE_ALTA)
  end.

Definition get_cambio_modulation (signal : option CambioSignal.t) : Q :=
  match signal with
  | None => 1
  | Some CambioSignal.FORTE_ALTA => 12 # 10
  | Some CambioSignal.ALTA => 11 # 10
  | Some CambioSignal.NEUTRO => 1
  | Some CambioSignal.QUEDA => 9 # 10
  | Some CambioSignal.FORTE_QUEDA => 8 # 10
  end.

Definition compute_cambio_metrics
    (dt : Py.date) (usd_brl : Q) (usd_brl_5d_ago usd_brl_20d_ago : option Q)
    : CambioMetrics.t :=
  let var_5d := calculate_var_percent usd_brl usd_brl_5d_ago in
  let var_20d := calculate_var_percent usd_brl usd_brl_20d_ago in
  let signal := classify_cambio_signal var_5d in
  let modulation := get_cambio_modulation signal in
  CambioMetrics.mk dt usd_brl var_5d var_20d signal modulation.

Module DemandSignal.
Inductive t : Type := MUITO_FRACA | FRACA | NORMAL | FORTE | MUITO_FORTE.
End DemandSignal.

Definition DEMAND_Z_THRESHOLDS
    : list (DemandSignal.t * (Py.xfloat * Py.xfloat)) :=
  [(DemandSignal.MUITO_FRACA, (Py.NegInf, Py.Fin (-(3 # 2))));
   (DemandSignal.FRACA, (Py.Fin (-(3 # 2)), Py.Fin (-(1 # 2))));
   (DemandSignal.NORMAL, (Py.Fin (-(1 # 2)), Py.Fin (1 # 2)));
   (DemandSignal.FORTE, (Py.Fin (1 # 2), Py.Fin (3 # 2)));
   (DemandSignal.MUITO_FORTE, (Py.Fin (3 # 2), Py.PosInf))].

Definition classify_demand_signal (z_pace : option Q)
    : option DemandSignal.t :=
  match z_pace with
  | None => None
  | Some z => Some (Py.first_band DEMAND_Z_THRESHOLDS z
                      DemandSignal.MUITO_FORTE)
  end.

Module LogisticsFlag.
Record t : Type := mk {
  is_active : bool;
  reason : option Py.text;
  manual_event : option string
}.
End LogisticsFlag.

Definition WAIT_TIME_THRESHOLD_DAYS : Z := 15.
Definition WAIT_TIME_CONSECUTIVE_WEEKS : Z := 2.
Definition LOADING_RATE_THRESHOLD : Q := 70 # 100.

(** Truth value of an optional string: [None] and the empty string are
    falsy. *)
Definition truthy (s : option string) : bool :=
  match s with
  | None | Some EmptyString => false
  | Some _ => true
  end.

Definition compute_logistics_flag
    (wait_time_days : option Q) (wait_time_weeks_above : Z)
    (loading_rate : option Q) (manual_event : option string)
    : LogisticsFlag.t :=
  let reasons : list Py.text := [] in
  let reasons :=
    match wait_time_days with
    | Some days =>
        if Py.gtb days (inject_Z WAIT_TIME_THRESHOLD_DAYS)
           && (WAIT_TIME_CONSECUTIVE_WEEKS <=? wait_time_weeks_above)%Z
        then
          reasons ++ [[Py.Lit "espera_navios>";
                       Py.FmtZ "" WAIT_TIME_THRESHOLD_DAYS;
                       Py.Lit "d_por_"; Py.FmtZ "" wait_time_weeks_above;
                       Py.Lit "sem"]]
        else reasons
    | None => reasons
    end in
  let reasons :=
    match loading_rate with
    | Some rate =>
        if Py.ltb rate LOADING_RATE_THRESHOLD then
          reasons ++ [[Py.Lit "taxa_embarque="; Py.Fmt ".0f" (rate * 100);
                       Py.Lit "%<70%"]]
        else reasons
    | None => reasons
    end in
  let reasons :=
    if truthy manual_event then
      reasons ++ [[Py.Lit "evento_manual:";
                   Py.Lit (match manual_event with
                           | Some e => e
                           | None => EmptyString
                           end)]]
    else reasons in
  let is_active := (0 <? Py.len reasons)%Z in
  LogisticsFlag.mk
    is_active
    (match reasons with
     | [] => None
     | _ :: _ => Some (Py.join [Py.Lit "; "] reasons)
     end)
    manual_event.

Module ChicagoSignal.
Inductive t : Type := MUITO_BAIXO | BAIXO | NEUTRO | ALTO | MUITO_ALTO.
End ChicagoSignal.

Module ChicagoMetrics.
Record t : Type := mk {
  date : Py.date;
  chicago_front : Q;
  percentile : Q;
  signal : ChicagoSignal.t;
  var_5d : option Q;
  is_speculative_spike : bool
}.
End ChicagoMetrics.

Definition CHICAGO_PERCENTILE_THRESHOLDS
    : list (ChicagoSignal.t * (Py.xfloat * Py.xfloat)) :=
  [(ChicagoSignal.MUITO_BAIXO, (Py.Fin 0, Py.Fin 20));
   (ChicagoSignal.BAIXO, (Py.Fin 20, Py.Fin 40));
   (ChicagoSignal.NEUTRO, (Py.Fin 40, Py.Fin 60));
   (ChicagoSignal.ALTO, (Py.Fin 60, Py.Fin 80));
   (ChicagoSignal.MUITO_ALTO, (Py.Fin 80, Py.Fin 100))].

Definition CHICAGO_SPECULATIVE_SPIKE_THRESHOLD : Q := 5.

Definition classify_chicago_signal (percentile : Q) : ChicagoSignal.t :=
  Py.first_band CHICAGO_PERCENTILE_THRESHOLDS percentile
    ChicagoSignal.MUITO_ALTO.

(** The result is paired with the records the call hands to the logger. *)
Definition compute_chicago_metrics
    (dt : Py.date) (chicago_front : Q) (historical_180d : list Q)
    (chicago_5d_ago : option Q)
    : list Py.log_record * ChicagoMetrics.t :=
  let percentile := calculate_percentile chicago_front historical_180d in
  let signal := classify_chicago_signal percentile in
  let var_5d := calculate_var_percent chicago_front chicago_5d_ago in
  let spike :=
    match var_5d with
    | Some var => Py.gtb var CHICAGO_SPECULATIVE_SPIKE_THRESHOLD
    | None => false
    end in
  let log :=
    match var_5d with
    | Some var =>
        if spike then
          [Py.LogWarning
             [Py.Lit "Spike especulativo detectado em Chicago: +";
              Py.Fmt ".1f" var; Py.Lit "% em 5d"]]
        else []
    | None => []
    end in
  (log, ChicagoMetrics.mk dt chicago_front percentile signal var_5d spike).

End Auxiliaries.

(* ===================================================================== *)
(** * lineup.py                                                            *)
(* ===================================================================== *)

Module Lineup.

Module LineupTrend.
Inductive t : Type := FORTE_QUEDA | QUEDA | ESTAVEL | ALTA | FORTE_ALTA.
End LineupTrend.

Module LineupMetrics.
Record t : Type := mk {
  date : Py.date;
  lineup_bruto : Z;
  lineup_liquido : Z;
  cancelamentos_7d : Z;
  taxa_cancelamento : Q;
  var_semanal : option Q;
  trend : option LineupTrend.t;
  is_valid : bool;
  validation_errors : list Py.text
}.
End LineupMetrics.

Definition TREND_THRESHOLDS
    : list (LineupTrend.t * (Py.xfloat * Py.xfloat)) :=
  [(LineupTrend.FORTE_QUEDA, (Py.NegInf, Py.Fin (-15)));
   (LineupTrend.QUEDA, (Py.Fin (-15), Py.Fin (-5)));
   (LineupTrend.ESTAVEL, (Py.Fin (-5), Py.Fin 5));
   (LineupTrend.ALTA, (Py.Fin 5, Py.Fin 15));
   (LineupTrend.FORTE_ALTA, (Py.Fin 15, Py.PosInf))].

Definition LINEUP_DROP_OVERRIDE_THRESHOLD : Q := -10.

Definition calculate_lineup_liquido (lineup_bruto cancelados adiados_14d : Z)
    : Z :=
  Py.zmax 0 (lineup_bruto - cancelados - adiados_14d).

Definition calculate_taxa_cancelamento
    (cancelados_7d adiados_14d_7d lineup_bruto_7d_atras : Z) : Q :=
  if (lineup_bruto_7d_atras <=? 0)%Z then 0
  else
    let taxa :=
      inject_Z (cancelados_7d + adiados_14d_7d)
      / inject_Z lineup_bruto_7d_atras * 100 in
    Py.round (Py.min 100 (Py.max 0 taxa)) 2.

Definition calculate_var_semanal
    (lineup_liquido_atual : Z) (lineup_liquido_7d_atras : option Z)
    : option Q :=
  match lineup_liquido_7d_atras with
  | None => None
  | Some atras =>
      if (atras <=? 0)%Z then None
      else
        let var :=
          inject_Z (lineup_liquido_atual - atras) / inject_Z atras * 100 in
        Some (Py.round var 2)
  end.

Definition classify_trend (var_semanal : option Q) : option LineupTrend.t :=
  match var_semanal with
  | None => None
  | Some var => Some (Py.first_band TREND_THRESHOLDS var
                        LineupTrend.FORTE_ALTA)
  end.

Definition validate_lineup (lineup_bruto lineup_liquido : Z)
    : list Py.text :=
  let errors : list Py.text := [] in
  let errors :=
    if (lineup_bruto <? lineup_liquido)%Z then
      errors ++ [[Py.Lit "lineup_liquido ("; Py.FmtZ "" lineup_liquido;
                  Py.Lit ") > lineup_bruto ("; Py.FmtZ "" lineup_bruto;
                  Py.Lit ")"]]
    else errors in
  let errors :=
    if (lineup_bruto <? 0)%Z then
      errors ++ [[Py.Lit "lineup_bruto negativo: "; Py.FmtZ "" lineup_bruto]]
    else errors in
  let errors :=
    if (lineup_liquido <? 0)%Z then
      errors ++ [[Py.Lit "lineup_liquido negativo: ";
                  Py.FmtZ "" lineup_liquido]]
    else errors in
  errors.

Definition compute_lineup_metrics
    (dt : Py.date) (lineup_bruto lineup_liquido cancelamentos_7d : Z)
    (lineup_bruto_7d_atras lineup_liquido_7d_atras : option Z)
    (adiados_14d_7d : Z) : LineupMetrics.t :=
  let validation_errors := validate_lineup lineup_bruto lineup_liquido in
  let taxa_cancelamento :=
    match lineup_bruto_7d_atras with
    | Some atras =>
        calculate_taxa_cancelamento cancelamentos_7d adiados_14d_7d atras
    | None => 0
    end in
  let validation_errors :=
    match lineup_bruto_7d_atras with
    | Some _ =>
        if negb (Py.leb 0 taxa_cancelamento && Py.leb taxa_cancelamento 100)
        then
          validation_errors ++
            [[Py.Lit "taxa_cancelamento fora de range: ";
              Py.Fmt "" taxa_cancelamento]]
        else validation_errors
    | None => validation_errors
    end in
  let var_semanal :=
    calculate_var_semanal lineup_liquido lineup_liquido_7d_atras in
  let trend := classify_trend var_semanal in
  LineupMetrics.mk dt lineup_bruto lineup_liquido cancelamentos_7d
    taxa_cancelamento var_semanal trend
    (Py.len validation_errors =? 0)%Z
    validation_errors.

Definition is_lineup_dropping (var_semanal : option Q) : bool :=
  match var_semanal with
  | None => false
  | Some var => Py.ltb var LINEUP_DROP_OVERRIDE_THRESHOLD
  end.

End Lineup.

(* ===================================================================== *)
(** * competitiveness.py (spread and classification)                       *)
(* ===================================================================== *)

Module Competitiveness.

Module CompetitivenessClass.
Inductive t : Type :=
| BRASIL_MUITO_BARATO | BRASIL_BARATO | NEUTRO | BRASIL_CARO
| BRASIL_MUITO_CARO.
End CompetitivenessClass.

(** The dictionary, as an association list in insertion order. *)
Definition FREIGHT_DIFFERENTIAL_MONTHLY : list (Z * Q) :=
  [(1%Z, -8); (2%Z, -10); (3%Z, -12); (4%Z, -10); (5%Z, -6); (6%Z, -2);
   (7%Z, 2); (8%Z, 5); (9%Z, 8); (10%Z, 10); (11%Z, 6); (12%Z, 0)].

Definition COMPETITIVENESS_THRESHOLDS
    : list (CompetitivenessClass.t * (Py.xfloat * Py.xfloat)) :=
  [(CompetitivenessClass.BRASIL_MUITO_BARATO, (Py.NegInf, Py.Fin (-20)));
   (CompetitivenessClass.BRASIL_BARATO, (Py.Fin (-20), Py.Fin (-10)));
   (CompetitivenessClass.NEUTRO, (Py.Fin (-10), Py.Fin 10));
   (CompetitivenessClass.BRASIL_CARO, (Py.Fin 10, Py.Fin 20));
   (CompetitivenessClass.BRASIL_MUITO_CARO, (Py.Fin 20, Py.PosInf))].

Definition CRITICAL_SPREAD_THRESHOLD : Q := 15.

(** [d.get(key, default)]. *)
Fixpoint dict_get (d : list (Z * Q)) (key : Z) (default : Q) : Q :=
  match d with
  | [] => default
  | (k, v) :: rest => if (k =? key)%Z then v else dict_get rest key default
  end.

Definition get_freight_adjustment (month : Z) : Q :=
  dict_get FREIGHT_DIFFERENTIAL_MONTHLY month 0.

Definition calculate_spread_fob (fob_paranagua fob_us_gulf : Q) : Q :=
  Py.round (fob_paranagua - fob_us_gulf) 2.

Definition calculate_spread_adjusted (spread_fob freight_adjustment : Q) : Q :=
  Py.round (spread_fob + freight_adjustment) 2.

Definition classify_competitiveness (spread_adjusted : Q)
    : CompetitivenessClass.t :=
  Py.first_band COMPETITIVENESS_THRESHOLDS spread_adjusted
    CompetitivenessClass.BRASIL_MUITO_CARO.

Definition is_brazil_not_competitive (spread_adjusted : Q) : bool :=
  Py.gtb spread_adjusted CRITICAL_SPREAD_THRESHOLD.

End Competitiveness.

(* ===================================================================== *)
(** * Vocabulary of the properties                                         *)
(* ===================================================================== *)

Import Config Scoring Overrides Book Engine.

Definition option_to_list {A : Type} (o : option A) : list A :=
  match o with
  | Some a => [a]
  | None => []
  end.

(** The overrides whose rule fires on the given inputs, listed in the order
    in which [evaluate_overrides] checks the rules. *)
Definition triggered_overrides
    (var_semanal_lineup : option Q) (percentil_premium spread_adjusted : Q)
    (logistics_flag_active : bool) (logistics_reason : option string)
    (is_speculative_spike narrativa_confirmada : bool) : list Override.t :=
  option_to_list (check_logistica logistics_flag_active logistics_reason)
  ++ option_to_list (check_queda_conjunta var_semanal_lineup percentil_premium)
  ++ option_to_list
       (check_armadilha_premio var_semanal_lineup percentil_premium)
  ++ option_to_list (check_competitividade_critica spread_adjusted)
  ++ option_to_list
       (check_chicago_especulativo is_speculative_spike narrativa_confirmada).

(** What an override prescribes for a recommendation it may or may not
    replace. *)
Definition replaced_by {A : Type} (replacement : option A) (original : A) : A :=
  match replacement with
  | Some r => r
  | None => original
  end.

(** Ascending order of priority values. *)
Definition by_priority (a b : Override.t) : Prop :=
  (Override.priority a <= Override.priority b)%Z.

(** The intermediate values of [run_decision_engine]: the book it works
    with, its scoring result, its override evaluation and its modulated
    result. *)
Definition engine_book (book : option BookState.t) : BookState.t :=
  match book with
  | None => default_book
  | Some b => b
  end.

Definition engine_scoring (inputs : MarketInputs.t) : ScoringResult.t :=
  compute_scoring
    (MarketInputs.dt inputs)
    (MarketInputs.var_semanal_lineup inputs)
    (MarketInputs.percentil_premium inputs)
    (MarketInputs.spread_adjusted inputs)
    (MarketInputs.z_pace inputs)
    (MarketInputs.var_cambio_5d inputs)
    (MarketInputs.chicago_percentile inputs)
    (MarketInputs.chicago_is_spike inputs).

Definition engine_overrides (inputs : MarketInputs.t) : OverrideEvaluation.t :=
  evaluate_overrides
    (MarketInputs.var_semanal_lineup inputs)
    (MarketInputs.percentil_premium inputs)
    (MarketInputs.spread_adjusted inputs)
    (MarketInputs.logistics_flag_active inputs)
    (MarketInputs.logistics_reason inputs)
    (MarketInputs.chicago_is_spike inputs)
    (MarketInputs.narrativa_confirmada inputs)
    (ScoringResult.physical (engine_scoring inputs))
    (ScoringResult.hedge (engine_scoring inputs)).

Definition engine_modulated
    (inputs : MarketInputs.t) (book : option BookState.t) : ModulatedResult.t :=
  modulate_by_book
    (OverrideEvaluation.final_physical (engine_overrides inputs))
    (OverrideEvaluation.final_hedge (engine_overrides inputs))
    (engine_book book).

(** The effective sizing of a run, before the report rounds it. *)
Definition engine_effective_sizing
    (inputs : MarketInputs.t) (book : option BookState.t) : Q :=
  calculate_effective_sizing
    (PhysicalResult.sizing_pct
       (ModulatedResult.physical (engine_modulated inputs book)))
    (engine_book book).

(** Direction of an action name of the report. *)
Definition is_increase (acao : string) : Prop :=
  acao = "aumentar"%string \/ acao = "aumentar_forte"%string.

Definition is_decrease (acao : string) : Prop :=
  acao = "reduzir"%string \/ acao = "reduzir_forte"%string.

Definition is_hold (acao : string) : Prop := acao = "manter"%string.

(** Sign discipline of a physical result: an increase has a positive sizing,
    a decrease a negative one, a hold none. *)
Definition physical_sign_ok (p : PhysicalResult.t) : Prop :=
  match PhysicalResult.recommendation p with
  | PhysicalRecommendation.AUMENTAR
  | PhysicalRecommendation.AUMENTAR_FORTE => 0 < PhysicalResult.sizing_pct p
  | PhysicalRecommendation.REDUZIR
  | PhysicalRecommendation.REDUZIR_FORTE => PhysicalResult.sizing_pct p < 0
  | PhysicalRecommendation.MANTER => PhysicalResult.sizing_pct p = 0
  end.

(** The one delta each hedge action comes with. *)
Definition hedge_delta_of (r : HedgeRecommendation.t) : Q :=
  match r with
  | HedgeRecommendation.AUMENTAR_FORTE => 20
  | HedgeRecommendation.AUMENTAR => 10
  | HedgeRecommendation.MANTER => 0
  | HedgeRecommendation.REDUZIR => -10
  | HedgeRecommendation.REDUZIR_FORTE => -20
  end.

Definition hedge_sign_ok (h : HedgeResult.t) : Prop :=
  HedgeResult.delta_pp h = hedge_delta_of (HedgeResult.recommendation h).

(** The market inputs and the book of the examples below: every component
    at its best, no override condition, and an exposure just under the long
    limit. *)
Definition bullish_inputs : MarketInputs.t :=
  MarketInputs.mk (Py.mkDate 2024 3 1) (Some 15) 100 (-20) (Some (3 # 2))
    (Some (-3)) 50 false false None false.

Definition nearly_full_book : BookState.t :=
  BookState.mk (7996 # 100) 80 (-50) 0 60.

(** Inputs on which the logistics rule and the joint-drop rule both fire. *)
Definition strike_inputs : MarketInputs.t :=
  MarketInputs.mk (Py.mkDate 2024 3 1) (Some (-15)) 25 5 None None 50 false
    true (Some "strike"%string) false.

Definition short_book : BookState.t :=
  BookState.mk (-40) 80 (-50) 0 60.

(** The rank percentile with tie-splitting in the specification's words:
    the number of samples strictly below the value plus half the number of
    samples equal to it, divided by the sample size, times 100. *)
Definition strictly_below (value h : Q) : bool :=
  match h ?= value with Lt => true | _ => false end.

Definition equal_to (value h : Q) : bool :=
  match h ?= value with Eq => true | _ => false end.

Definition rank_percentile (value : Q) (sample : list Q) : Q :=
  (inject_Z (Z.of_nat (List.length (filter (strictly_below value) sample)))
   + (1 # 2)
     * inject_Z (Z.of_nat (List.length (filter (equal_to value) sample))))
  / inject_Z (Z.of_nat (List.length sample)) * 100.

(** The same quantity as the code evaluates it, in binary64 arithmetic. *)
Definition rank_percentile_double (value : Q) (sample : list Q) : Q :=
  Py.fmul
    (Py.fdiv
       (Py.fadd
          (Py.float_of_int
             (Z.of_nat (List.length (filter (strictly_below value) sample))))
          (Py.fmul (1 # 2)
             (Py.float_of_int
                (Z.of_nat (List.length (filter (equal_to value) sample))))))
       (Py.float_of_int (Z.of_nat (List.length sample))))
    100.

(** The unit roundoff of binary64, [2^-53]. *)
Definition unit_roundoff : Q := 1 # 9007199254740992.

(** How far the reported percentile can be from the exact one: half a
    unit of the second decimal, and the rounding of the float operations
    before it. *)
Definition percentile_tolerance : Q := (1 # 200) + (1 # 1000000000000).

(** Eighty samples of which, for the value 2, eleven are below and one is
    equal (exact percentile 14.375), and eighty of which 24 are below and
    one is equal (exact percentile 30.625). *)
Definition tie_sample_11 : list Q := repeat 1 11 ++ [2] ++ repeat 3 68.
Definition tie_sample_24 : list Q := repeat 1 24 ++ [2] ++ repeat 3 55.

(** A call of the functions above has raised. *)
Definition raises {A : Type} (r : Py.result A) : Prop :=
  exists e, r = Py.Raise e.

Definition harvest_day : Py.date := Py.mkDate 2024 3 1.

(** The logistics override and the baseline recommendations of
    [strike_inputs]. *)
Definition strike_override : Override.t :=
  Override.mk OverrideType.LOGISTICA [Py.Lit "strike"]
    (Some (PhysicalResult.mk PhysicalRecommendation.REDUZIR_FORTE
             Intensity.FORTE (-30)))
    None 1.

Definition strike_physical : PhysicalResult.t :=
  ScoringResult.physical (engine_scoring strike_inputs).

Definition strike_hedge : HedgeResult.t :=
  ScoringResult.hedge (engine_scoring strike_inputs).

(** The action and the sizing that go with each band of the physical
    score. *)
Definition recommendation_of_class (c : PhysicalClassification.t)
    : PhysicalRecommendation.t :=
  match c with
  | PhysicalClassification.MUITO_FORTE => PhysicalRecommendation.AUMENTAR_FORTE
  | PhysicalClassification.FORTE => PhysicalRecommendation.AUMENTAR
  | PhysicalClassification.NEUTRO => PhysicalRecommendation.MANTER
  | PhysicalClassification.FRACO => PhysicalRecommendation.REDUZIR
  | PhysicalClassification.MUITO_FRACO => PhysicalRecommendation.REDUZIR_FORTE
  end.

Definition sizing_of_class (c : PhysicalClassification.t) : Q :=
  match c with
  | PhysicalClassification.MUITO_FORTE => 25
  | PhysicalClassification.FORTE => 15
  | PhysicalClassification.NEUTRO => 0
  | PhysicalClassification.FRACO => -15
  | PhysicalClassification.MUITO_FRACO => -25
  end.

(** A score between 0 and 100. *)
Definition in_0_100 (x : Q) : Prop := 0 <= x /\ x <= 100.

(** The five rules in the order of their priorities, and the condition
    under which each one fires. *)
Definition all_rules : list OverrideType.t :=
  [OverrideType.LOGISTICA; OverrideType.QUEDA_CONJUNTA;
   OverrideType.ARMADILHA_PREMIO; OverrideType.COMPETITIVIDADE_CRITICA;
   OverrideType.CHICAGO_ESPECULATIVO].

Definition lineup_drops (var : option Q) : bool :=
  match var with
  | Some v => Py.ltb v (-10)
  | None => false
  end.

Definition rule_fires
    (var : option Q) (pp spread : Q) (flag spike narr : bool)
    (rule : OverrideType.t) : bool :=
  match rule with
  | OverrideType.LOGISTICA => flag
  | OverrideType.QUEDA_CONJUNTA => lineup_drops var && Py.ltb pp 40
  | OverrideType.ARMADILHA_PREMIO => lineup_drops var && Py.gtb pp 80
  | OverrideType.COMPETITIVIDADE_CRITICA => Py.gtb spread 15
  | OverrideType.CHICAGO_ESPECULATIVO => spike && negb narr
  end.

(** What each rule prescribes for the physical recommendation. *)
Definition prescribed_physical (rule : OverrideType.t) : PhysicalResult.t :=
  match rule with
  | OverrideType.LOGISTICA =>
      PhysicalResult.mk PhysicalRecommendation.REDUZIR_FORTE Intensity.FORTE
        (-30)
  | OverrideType.QUEDA_CONJUNTA =>
      PhysicalResult.mk PhysicalRecommendation.REDUZIR Intensity.FORTE (-20)
  | OverrideType.ARMADILHA_PREMIO =>
      PhysicalResult.mk PhysicalRecommendation.REDUZIR_FORTE Intensity.FORTE
        (-25)
  | OverrideType.COMPETITIVIDADE_CRITICA =>
      PhysicalResult.mk PhysicalRecommendation.REDUZIR Intensity.MODERADA
        (-15)
  | OverrideType.CHICAGO_ESPECULATIVO =>
      PhysicalResult.mk PhysicalRecommendation.MANTER Intensity.MODERADA 0
  end.

(** The hold that a guard of [modulate_by_book] puts in place of a
    recommendation. *)
Definition physical_hold : PhysicalResult.t :=
  PhysicalResult.mk PhysicalRecommendation.MANTER Intensity.NEUTRA 0.

Definition hedge_hold : HedgeResult.t :=
  HedgeResult.mk HedgeRecommendation.MANTER Intensity.NEUTRA 0.

(** Number of flags that are set. *)
Definition count_true (flags : list bool) : nat :=
  List.length (filter (fun b : bool => b) flags).

(* ===================================================================== *)
(** * Properties                                                           *)
(* ===================================================================== *)

(** ** Comparisons, [min], [max] and [round] *)

Lemma ltb_reflect (a b : Q) : reflect (a < b) (Py.ltb a b).
Proof.
  unfold Py.ltb. destruct (Qle_bool b a) eqn:E; simpl; constructor.
  - apply Qle_bool_iff in E. now apply Qle_not_lt.
  - apply Qnot_le_lt. intro H. apply Qle_bool_iff in H. congruence.
Qed.

Lemma leb_reflect (a b : Q) : reflect (a <= b) (Py.leb a b).
Proof.
  unfold Py.leb. destruct (Qle_bool a b) eqn:E; constructor.
  - now apply Qle_bool_iff.
  - intro H. apply Qle_bool_iff in H. congruence.
Qed.

Lemma eqb_reflect (a b : Q) : reflect (a == b) (Py.eqb a b).
Proof.
  unfold Py.eqb. destruct (Qeq_bool a b) eqn:E; constructor.
  - now apply Qeq_bool_iff.
  - now apply Qeq_bool_neq.
Qed.

(** Case analysis on every float comparison in the goal. *)
Ltac cmp_cases :=
  unfold Py.gtb, Py.geb in *;
  repeat match goal with
  | |- context [Py.ltb ?a ?b] => destruct (ltb_reflect a b)
  | |- context [Py.leb ?a ?b] => destruct (leb_reflect a b)
  | |- context [Py.eqb ?a ?b] => destruct (eqb_reflect a b)
  end.



(** ** scoring.py: intensity and hedge bands *)

(** [determine_intensity] on its own follows the strict thresholds. *)
Lemma determine_intensity_bands (s : Q) :
  (determine_intensity s = Intensity.FORTE <-> (80 < s \/ s < 20)) /\
  (determine_intensity s = Intensity.MODERADA <->
     ((65 < s \/ s < 35) /\ ~ (80 < s \/ s < 20))) /\
  (determine_intensity s = Intensity.NEUTRA <->
     (~ (65 < s \/ s < 35) /\ ~ (80 < s \/ s < 20))).
Proof.
  unfold determine_intensity. cmp_cases; simpl;
    repeat split; intros; try discriminate; try lra; try tauto;
    try (intuition lra).
Qed.

(** C2, as stated, fails at the band boundary: at score 80 the baseline
    physical recommendation is tagged strong although 80 is neither above
    80 nor below 20. *)
Lemma physical_intensity_strict_bands_fail :
  ~ (PhysicalResult.intensity (compute_physical_recommendation 80)
       = Intensity.FORTE
     <-> (80 < 80 \/ 80 < 20)).
Proof.
  intros [H _].
  assert (E : PhysicalResult.intensity (compute_physical_recommendation 80)
              = Intensity.FORTE) by reflexivity.
  destruct (H E) as [H1 | H1]; revert H1; apply Qle_not_lt; discriminate.
Qed.

(** C2 (amended): the intensity tag of the baseline physical recommendation
    is strong exactly when the score is at least 80 or at most 20, moderate
    exactly when it is above 65 or below 35 and not strong, and neutral
    otherwise. *)
Theorem physical_intensity_bands (s : Q) :
  let i := PhysicalResult.intensity (compute_physical_recommendation s) in
  (i = Intensity.FORTE <-> (80 <= s \/ s <= 20)) /\
  (i = Intensity.MODERADA <->
     ((65 < s \/ s < 35) /\ ~ (80 <= s \/ s <= 20))) /\
  (i = Intensity.NEUTRA <->
     (~ (65 < s \/ s < 35) /\ ~ (80 <= s \/ s <= 20))).
Proof.
  unfold compute_physical_recommendation, determine_intensity,
    SCORING_FISICO_MUITO_FORTE, SCORING_FISICO_FORTE,
    SCORING_FISICO_MUITO_FRACO, SCORING_FISICO_FRACO.
  cmp_cases; simpl;
    repeat split; intros; try discriminate; try lra; try tauto;
    try (intuition lra).
Qed.

(** C3: with the spike flag set and a percentile of at least 50 the
    baseline hedge recommendation is a moderate +10pp increase; otherwise it
    follows the band table, read top to bottom. *)
Theorem hedge_recommendation_bands (p : Q) (spike : bool) :
  let r := compute_hedge_recommendation p spike in
  (spike = true /\ 50 <= p ->
     r = HedgeResult.mk HedgeRecommendation.AUMENTAR Intensity.MODERADA 10) /\
  (~ (spike = true /\ 50 <= p) ->
     (80 <= p ->
        r = HedgeResult.mk HedgeRecommendation.AUMENTAR_FORTE
              Intensity.FORTE 20) /\
     (65 <= p < 80 ->
        r = HedgeResult.mk HedgeRecommendation.AUMENTAR
              Intensity.MODERADA 10) /\
     (p <= 20 ->
        r = HedgeResult.mk HedgeRecommendation.REDUZIR_FORTE
              Intensity.FORTE (-20)) /\
     (20 < p <= 35 ->
        r = HedgeResult.mk HedgeRecommendation.REDUZIR
              Intensity.MODERADA (-10)) /\
     (35 < p < 65 ->
        r = HedgeResult.mk HedgeRecommendation.MANTER Intensity.NEUTRA 0)).
Proof.
  unfold compute_hedge_recommendation, HEDGE_PERCENTIL_MUITO_ALTO,
    HEDGE_PERCENTIL_ALTO, HEDGE_PERCENTIL_MUITO_BAIXO, HEDGE_PERCENTIL_BAIXO.
  destruct spike; cmp_cases; simpl;
    repeat split; intros; try reflexivity; try lra;
    try (exfalso; intuition lra).
Qed.

(** ** overrides.py: the stable sort and the dominant override *)

Section SortFacts.
Context {A : Type} (key : A -> Z).

Let le_key (a b : A) : Prop := (key a <= key b)%Z.

Lemma insert_by_perm (x : A) (l : list A) :
    Permutation (x :: l) (Py.insert_by key x l).
  Proof.
    induction l as [| y r IH]; simpl.
    - reflexivity.
    - destruct (key y <? key x)%Z.
      + rewrite perm_swap. now constructor.
      + reflexivity.
  Qed.

Lemma sort_by_perm (l : list A) : Permutation l (Py.sort_by key l).
  Proof.
    induction l as [| x r IH]; simpl.
    - constructor.
    - rewrite <- insert_by_perm. now constructor.
  Qed.

Lemma insert_by_sorted (x : A) (l : list A) :
    StronglySorted le_key l -> StronglySorted le_key (Py.insert_by key x l).
  Proof.
    induction 1 as [| y r Hr IH Hy]; simpl.
    - repeat constructor.
    - destruct (Z.ltb_spec (key y) (key x)) as [Hlt | Hge].
      + constructor; [exact IH |].
        eapply Permutation_Forall; [apply insert_by_perm |].
        constructor; [unfold le_key; lia | exact Hy].
      + constructor; [now constructor |].
        constructor; [exact Hge |].
        eapply Forall_impl; [| exact Hy].
        unfold le_key. intros a Ha. lia.
  Qed.

Lemma sort_by_sorted (l : list A) : StronglySorted le_key (Py.sort_by key l).
  Proof.
    induction l as [| x r IH]; simpl.
    - constructor.
    - now apply insert_by_sorted.
  Qed.

  (** The sort leaves a list that is already in order as it is. *)
Lemma sort_by_id (l : list A) :
    StronglySorted le_key l -> Py.sort_by key l = l.
  Proof.
    induction 1 as [| x r Hr IH Hx]; simpl.
    - reflexivity.
    - rewrite IH. destruct r as [| y r']; simpl; [reflexivity |].
      inversion Hx as [| ? ? Hxy _]; subst.
      destruct (Z.ltb_spec (key y) (key x)) as [Hlt | _].
      + unfold le_key in Hxy. lia.
      + reflexivity.
  Qed.
End SortFacts.

Lemma StronglySorted_weaken {A : Type} (R S : A -> A -> Prop) (l : list A) :
  (forall a b, R a b -> S a b) -> StronglySorted R l -> StronglySorted S l.
Proof.
  intros HRS. induction 1 as [| x r Hr IH Hx]; constructor.
  - exact IH.
  - eapply Forall_impl; [| exact Hx]. intros a. apply HRS.
Qed.

Lemma check_logistica_some (flag : bool) (reason : option string)
    (o : Override.t) :
  check_logistica flag reason = Some o ->
  Override.type o = OverrideType.LOGISTICA /\ Override.priority o = 1%Z.
Proof.
  unfold check_logistica. destruct flag; intros H; inversion H. now split.
Qed.

Lemma check_queda_conjunta_some (var : option Q) (pp : Q) (o : Override.t) :
  check_queda_conjunta var pp = Some o ->
  Override.type o = OverrideType.QUEDA_CONJUNTA /\ Override.priority o = 2%Z.
Proof.
  unfold check_queda_conjunta. destruct var as [v |]; [| discriminate].
  cbv zeta. destruct (_ && _); intros H; inversion H. now split.
Qed.

Lemma check_armadilha_premio_some (var : option Q) (pp : Q) (o : Override.t) :
  check_armadilha_premio var pp = Some o ->
  Override.type o = OverrideType.ARMADILHA_PREMIO /\ Override.priority o = 3%Z.
Proof.
  unfold check_armadilha_premio. destruct var as [v |]; [| discriminate].
  cbv zeta. destruct (_ && _); intros H; inversion H. now split.
Qed.

Lemma check_competitividade_critica_some (spread : Q) (o : Override.t) :
  check_competitividade_critica spread = Some o ->
  Override.type o = OverrideType.COMPETITIVIDADE_CRITICA
  /\ Override.priority o = 4%Z.
Proof.
  unfold check_competitividade_critica.
  destruct (Py.gtb _ _); intros H; inversion H. now split.
Qed.

Lemma check_chicago_especulativo_some (spike narr : bool) (o : Override.t) :
  check_chicago_especulativo spike narr = Some o ->
  Override.type o = OverrideType.CHICAGO_ESPECULATIVO
  /\ Override.priority o = 5%Z.
Proof.
  unfold check_chicago_especulativo.
  destruct (_ && _); intros H; inversion H. now split.
Qed.

(** Names the result of each of the five checks and records, for those that
    fired, the rule and the priority of the override. *)
Ltac name_checks :=
  repeat match goal with
  | |- context [check_logistica ?f ?r] =>
      let E := fresh "E" in
      destruct (check_logistica f r) eqn:E;
      [apply check_logistica_some in E; destruct E |]
  | |- context [check_queda_conjunta ?v ?p] =>
      let E := fresh "E" in
      destruct (check_queda_conjunta v p) eqn:E;
      [apply check_queda_conjunta_some in E; destruct E |]
  | |- context [check_armadilha_premio ?v ?p] =>
      let E := fresh "E" in
      destruct (check_armadilha_premio v p) eqn:E;
      [apply check_armadilha_premio_some in E; destruct E |]
  | |- context [check_competitividade_critica ?s] =>
      let E := fresh "E" in
      destruct (check_competitividade_critica s) eqn:E;
      [apply check_competitividade_critica_some in E; destruct E |]
  | |- context [check_chicago_especulativo ?s ?n] =>
      let E := fresh "E" in
      destruct (check_chicago_especulativo s n) eqn:E;
      [apply check_chicago_especulativo_some in E; destruct E |]
  end.

(** The rules are checked in the order of their priorities, so the list of
    triggered overrides is strictly increasing in priority. *)
Lemma triggered_overrides_increasing
    (var : option Q) (pp spread : Q) (flag : bool) (reason : option string)
    (spike narr : bool) :
  StronglySorted
    (fun a b => (Override.priority a < Override.priority b)%Z)
    (triggered_overrides var pp spread flag reason spike narr).
Proof.
  unfold triggered_overrides. name_checks; simpl;
    repeat (constructor; simpl); lia.
Qed.

Lemma triggered_overrides_priority
    (var : option Q) (pp spread : Q) (flag : bool) (reason : option string)
    (spike narr : bool) :
  Forall (fun o => Override.priority o = OVERRIDE_PRIORITY (Override.type o))
    (triggered_overrides var pp spread flag reason spike narr).
Proof.
  unfold triggered_overrides. name_checks; simpl;
    repeat (constructor; simpl);
    repeat match goal with H : Override.type _ = _ |- _ => rewrite H end;
    simpl; assumption.
Qed.

(** The list collected by [evaluate_overrides] before it sorts. *)
Lemma collected_is_triggered
    (var : option Q) (pp spread : Q) (flag : bool) (reason : option string)
    (spike narr : bool) :
  append_if (check_chicago_especulativo spike narr)
    (append_if (check_competitividade_critica spread)
       (append_if (check_armadilha_premio var pp)
          (append_if (check_queda_conjunta var pp)
             (append_if (check_logistica flag reason) []))))
  = triggered_overrides var pp spread flag reason spike narr.
Proof.
  unfold triggered_overrides, append_if, option_to_list.
  destruct (check_logistica flag reason), (check_queda_conjunta var pp),
    (check_armadilha_premio var pp), (check_competitividade_critica spread),
    (check_chicago_especulativo spike narr); reflexivity.
Qed.

Lemma active_overrides_sorted
    (var : option Q) (pp spread : Q) (flag : bool) (reason : option string)
    (spike narr : bool) (op : PhysicalResult.t) (oh : HedgeResult.t) :
  OverrideEvaluation.active_overrides
    (evaluate_overrides var pp spread flag reason spike narr op oh)
  = Py.sort_by Override.priority
      (triggered_overrides var pp spread flag reason spike narr).
Proof.
  unfold evaluate_overrides. cbv zeta. simpl.
  now rewrite collected_is_triggered.
Qed.

(** On the overrides the five rules can produce, the sort changes nothing:
    the active set is the list of triggered overrides itself. *)
Lemma active_overrides_triggered
    (var : option Q) (pp spread : Q) (flag : bool) (reason : option string)
    (spike narr : bool) (op : PhysicalResult.t) (oh : HedgeResult.t) :
  OverrideEvaluation.active_overrides
    (evaluate_overrides var pp spread flag reason spike narr op oh)
  = triggered_overrides var pp spread flag reason spike narr.
Proof.
  rewrite active_overrides_sorted. apply sort_by_id.
  eapply StronglySorted_weaken; [| apply triggered_overrides_increasing].
  intros a b. simpl. lia.
Qed.

Lemma dominant_is_head (ev : OverrideEvaluation.t)
    (var : option Q) (pp spread : Q) (flag : bool) (reason : option string)
    (spike narr : bool) (op : PhysicalResult.t) (oh : HedgeResult.t) :
  ev = evaluate_overrides var pp spread flag reason spike narr op oh ->
  OverrideEvaluation.dominant_override ev
  = hd_error (OverrideEvaluation.active_overrides ev).
Proof.
  intros ->. unfold evaluate_overrides. cbv zeta. simpl.
  now destruct (Py.sort_by _ _).
Qed.

Lemma final_from_dominant (ev : OverrideEvaluation.t)
    (var : option Q) (pp spread : Q) (flag : bool) (reason : option string)
    (spike narr : bool) (op : PhysicalResult.t) (oh : HedgeResult.t) :
  ev = evaluate_overrides var pp spread flag reason spike narr op oh ->
  OverrideEvaluation.original_physical ev = op
  /\ OverrideEvaluation.original_hedge ev = oh
  /\ OverrideEvaluation.final_physical ev
     = match OverrideEvaluation.dominant_override ev with
       | Some d => replaced_by (Override.physical_action d) op
       | None => op
       end
  /\ OverrideEvaluation.final_hedge ev
     = match OverrideEvaluation.dominant_override ev with
       | Some d => replaced_by (Override.hedge_action d) oh
       | None => oh
       end.
Proof.
  intros ->. unfold evaluate_overrides. cbv zeta. simpl.
  destruct (Py.sort_by _ _); simpl; repeat split; reflexivity.
Qed.

(** C1: when some override is triggered, the dominant override is the
    triggered one with the lowest priority value (every other triggered
    override has a strictly larger one); the final physical and hedge
    recommendations are the dominant override's replacements where it
    supplies them and the originals where it does not, whatever the other
    triggered overrides are; the active set holds exactly the triggered
    overrides, in ascending order of priority. *)
Theorem evaluate_overrides_dominant
    (var : option Q) (pp spread : Q) (flag : bool) (reason : option string)
    (spike narr : bool) (op : PhysicalResult.t) (oh : HedgeResult.t) :
  let ev := evaluate_overrides var pp spread flag reason spike narr op oh in
  let trig := triggered_overrides var pp spread flag reason spike narr in
  trig <> [] ->
  exists d,
    OverrideEvaluation.dominant_override ev = Some d
    /\ In d trig
    /\ (forall o, In o trig -> o <> d ->
          (Override.priority d < Override.priority o)%Z)
    /\ OverrideEvaluation.final_physical ev
       = replaced_by (Override.physical_action d) op
    /\ OverrideEvaluation.final_hedge ev
       = replaced_by (Override.hedge_action d) oh
    /\ Permutation trig (OverrideEvaluation.active_overrides ev)
    /\ StronglySorted by_priority (OverrideEvaluation.active_overrides ev).
Proof.
  intros ev trig Hne.
  pose proof (active_overrides_sorted var pp spread flag reason spike narr
                op oh) as Hsort.
  pose proof (active_overrides_triggered var pp spread flag reason spike narr
                op oh) as Hact.
  pose proof (triggered_overrides_increasing var pp spread flag reason spike
                narr) as Hinc.
  fold ev in Hsort, Hact. fold trig in Hsort, Hact, Hinc.
  pose proof (dominant_is_head ev _ _ _ _ _ _ _ _ _ eq_refl) as Hdom.
  pose proof (final_from_dominant ev _ _ _ _ _ _ _ _ _ eq_refl)
    as (_ & _ & Hp & Hh).
  clearbody ev. rewrite Hact in Hdom.
  destruct trig as [| d rest] eqn:Etrig; [contradiction |].
  change (hd_error (d :: rest)) with (Some d) in Hdom.
  rewrite Hdom in Hp, Hh.
  exists d. repeat split; try assumption.
  - now left.
  - intros o [Ho | Ho] Hod; [congruence |].
    inversion Hinc as [| ? ? _ Hall]; subst.
    rewrite Forall_forall in Hall. now apply Hall.
  - rewrite Hsort. apply sort_by_perm.
  - rewrite Hsort. apply (sort_by_sorted Override.priority).
Qed.

(** C7: a dominant override without a hedge replacement leaves the original
    hedge recommendation as the final one, one without a physical
    replacement leaves the original physical recommendation, and when no
    override is triggered both pass through unchanged. *)
Theorem evaluate_overrides_frame
    (var : option Q) (pp spread : Q) (flag : bool) (reason : option string)
    (spike narr : bool) (op : PhysicalResult.t) (oh : HedgeResult.t) :
  let ev := evaluate_overrides var pp spread flag reason spike narr op oh in
  (forall d, OverrideEvaluation.dominant_override ev = Some d ->
             Override.hedge_action d = None ->
             OverrideEvaluation.final_hedge ev = oh)
  /\ (forall d, OverrideEvaluation.dominant_override ev = Some d ->
                Override.physical_action d = None ->
                OverrideEvaluation.final_physical ev = op)
  /\ (triggered_overrides var pp spread flag reason spike narr = [] ->
      OverrideEvaluation.dominant_override ev = None
      /\ OverrideEvaluation.final_physical ev = op
      /\ OverrideEvaluation.final_hedge ev = oh)
  /\ OverrideEvaluation.original_physical ev = op
  /\ OverrideEvaluation.original_hedge ev = oh.
Proof.
  intros ev.
  pose proof (active_overrides_triggered var pp spread flag reason spike narr
                op oh) as Hact.
  fold ev in Hact.
  pose proof (final_from_dominant ev _ _ _ _ _ _ _ _ _ eq_refl)
    as (Hop & Hoh & Hp & Hh).
  pose proof (dominant_is_head ev _ _ _ _ _ _ _ _ _ eq_refl) as Hdom.
  clearbody ev.
  split; [| split; [| split; [| split; assumption]]].
  - intros d Hd Hnone. rewrite Hh, Hd, Hnone. reflexivity.
  - intros d Hd Hnone. rewrite Hp, Hd, Hnone. reflexivity.
  - intros Hnil. rewrite Hp, Hh, Hdom, Hact, Hnil. now repeat split.
Qed.

(** C9: without a weekly line-up change neither the joint-drop rule nor the
    premium-trap rule fires, whatever the premium percentile, and the active
    set holds neither override. *)
Theorem lineup_absent_no_joint_drop_no_trap
    (pp spread : Q) (flag : bool) (reason : option string)
    (spike narr : bool) (op : PhysicalResult.t) (oh : HedgeResult.t) :
  check_queda_conjunta None pp = None
  /\ check_armadilha_premio None pp = None
  /\ Forall
       (fun o => Override.type o <> OverrideType.QUEDA_CONJUNTA
                 /\ Override.type o <> OverrideType.ARMADILHA_PREMIO)
       (OverrideEvaluation.active_overrides
          (evaluate_overrides None pp spread flag reason spike narr op oh)).
Proof.
  split; [reflexivity |]. split; [reflexivity |].
  rewrite active_overrides_triggered. unfold triggered_overrides. simpl.
  name_checks; simpl; repeat constructor;
    match goal with H : Override.type ?o = _ |- Override.type ?o <> _ =>
      rewrite H; discriminate
    end.
Qed.

(** ** book.py: modulation *)

(** The guards of [modulate_by_book], read off its code: the physical
    recommendation is replaced by a hold exactly when it is an increase at
    the long limit or a decrease at the short limit, the hedge one exactly
    when it is an increase of an over-hedged book. *)
Lemma modulate_by_book_guards
    (physical : PhysicalResult.t) (hedge : HedgeResult.t)
    (book : BookState.t) :
  let m := modulate_by_book physical hedge book in
  let pm :=
    physical_in_aumentar (PhysicalResult.recommendation physical)
    && BookState.is_at_long_limit book
    || physical_in_reduzir (PhysicalResult.recommendation physical)
       && BookState.is_at_short_limit book in
  let hm :=
    hedge_in_aumentar (HedgeResult.recommendation hedge)
    && BookState.is_overhedged book in
  ModulatedResult.physical m
  = (if pm
     then PhysicalResult.mk PhysicalRecommendation.MANTER Intensity.NEUTRA 0
     else physical)
  /\ ModulatedResult.hedge m
     = (if hm
        then HedgeResult.mk HedgeRecommendation.MANTER Intensity.NEUTRA 0
        else hedge)
  /\ ModulatedResult.physical_was_modulated m = pm
  /\ ModulatedResult.hedge_was_modulated m = hm
  /\ (pm = false -> hm = false -> ModulatedResult.modulation_reason m = None).
Proof.
  cbv delta [modulate_by_book] beta.
  destruct (physical_in_aumentar (PhysicalResult.recommendation physical)),
           (physical_in_reduzir (PhysicalResult.recommendation physical)),
           (hedge_in_aumentar (HedgeResult.recommendation hedge)),
           (BookState.is_at_long_limit book),
           (BookState.is_at_short_limit book),
           (BookState.is_overhedged book);
    repeat split; intros; try reflexivity; discriminate.
Qed.

(** C8: modulating an already modulated pair of recommendations with the
    same book returns the same physical and hedge recommendations and
    reports no modulation; a hold produced by a guard is therefore never
    altered again. *)
Theorem modulate_by_book_idempotent
    (physical : PhysicalResult.t) (hedge : HedgeResult.t)
    (book : BookState.t) :
  let m := modulate_by_book physical hedge book in
  let m' :=
    modulate_by_book (ModulatedResult.physical m) (ModulatedResult.hedge m)
      book in
  ModulatedResult.physical m' = ModulatedResult.physical m
  /\ ModulatedResult.hedge m' = ModulatedResult.hedge m
  /\ ModulatedResult.physical_was_modulated m' = false
  /\ ModulatedResult.hedge_was_modulated m' = false
  /\ ModulatedResult.modulation_reason m' = None.
Proof.
  intros m m'.
  destruct (modulate_by_book_guards physical hedge book)
    as (Hp & Hh & _ & _ & _).
  fold m in Hp, Hh.
  destruct (modulate_by_book_guards (ModulatedResult.physical m)
              (ModulatedResult.hedge m) book)
    as (Hp' & Hh' & Hpm' & Hhm' & Hr').
  fold m' in Hp', Hh', Hpm', Hhm', Hr'.
  clearbody m m'.
  assert (Hpm : physical_in_aumentar
                  (PhysicalResult.recommendation (ModulatedResult.physical m))
                && BookState.is_at_long_limit book
                || physical_in_reduzir
                     (PhysicalResult.recommendation
                        (ModulatedResult.physical m))
                   && BookState.is_at_short_limit book = false).
  { rewrite Hp. destruct physical as [[] i s]; simpl;
      destruct (BookState.is_at_long_limit book),
               (BookState.is_at_short_limit book); reflexivity. }
  assert (Hhm : hedge_in_aumentar
                  (HedgeResult.recommendation (ModulatedResult.hedge m))
                && BookState.is_overhedged book = false).
  { rewrite Hh. destruct hedge as [[] i d]; simpl;
      destruct (BookState.is_overhedged book); reflexivity. }
  rewrite Hpm in Hp', Hpm', Hr'. rewrite Hhm in Hh', Hhm', Hr'.
  repeat split; auto.
Qed.

(** What modulation guarantees about the physical recommendation it
    returns. *)
Lemma modulate_by_book_physical
    (physical : PhysicalResult.t) (hedge : HedgeResult.t)
    (book : BookState.t) :
  let m := modulate_by_book physical hedge book in
  (ModulatedResult.physical_was_modulated m = false ->
   ModulatedResult.physical m = physical)
  /\ (physical_sign_ok physical -> physical_sign_ok (ModulatedResult.physical m))
  /\ (physical_in_aumentar
        (PhysicalResult.recommendation (ModulatedResult.physical m)) = true ->
      BookState.exposicao_fisica_pct book < BookState.limite_long_pct book)
  /\ (physical_in_reduzir
        (PhysicalResult.recommendation (ModulatedResult.physical m)) = true ->
      BookState.limite_short_pct book < BookState.exposicao_fisica_pct book).
Proof.
  intros m.
  destruct (modulate_by_book_guards physical hedge book)
    as (Hp & _ & Hpm & _ & _).
  fold m in Hp, Hpm. clearbody m. rewrite Hp, Hpm. clear Hp Hpm.
  unfold BookState.is_at_long_limit, BookState.is_at_short_limit,
    physical_sign_ok.
  destruct physical as [[] i s]; simpl; cmp_cases; simpl;
    repeat split; intros; try discriminate; try assumption; try reflexivity;
    try lra.
Qed.

Lemma modulate_by_book_hedge
    (physical : PhysicalResult.t) (hedge : HedgeResult.t)
    (book : BookState.t) :
  hedge_sign_ok hedge ->
  hedge_sign_ok (ModulatedResult.hedge (modulate_by_book physical hedge book)).
Proof.
  destruct (modulate_by_book_guards physical hedge book)
    as (_ & Hh & _ & _ & _).
  rewrite Hh. unfold hedge_sign_ok.
  destruct (_ && _); [reflexivity | auto].
Qed.

(** ** Rounding keeps the sign, weakly *)

Lemma round_half_even_nonneg (x : Q) :
  0 <= x -> (0 <= Py.round_half_even x)%Z.
Proof.
  destruct x as [n d]. unfold Qle, Py.round_half_even. cbn [Qnum Qden].
  intros Hn.
  assert (Hfl : (0 <= n / Zpos d)%Z) by (apply Z.div_pos; lia).
  destruct (2 * (n mod Zpos d) ?= Zpos d)%Z; [destruct (Z.even _) | |]; lia.
Qed.

Lemma round_half_even_nonpos (x : Q) :
  x <= 0 -> (Py.round_half_even x <= 0)%Z.
Proof.
  destruct x as [n d]. unfold Qle, Py.round_half_even. cbn [Qnum Qden].
  intros Hn.
  pose proof (Z.div_mod n (Zpos d) ltac:(lia)) as Hdm.
  pose proof (Z.mod_pos_bound n (Zpos d) ltac:(lia)) as Hr.
  destruct (Z.compare_spec (2 * (n mod Zpos d)) (Zpos d)) as [He | Hl | Hg];
    [destruct (Z.even _) | |]; nia.
Qed.

Lemma round_nonneg (x : Q) (k : nat) : 0 <= x -> 0 <= Py.round x k.
Proof.
  intros Hx. unfold Py.round.
  set (p := Z.to_pos (10 ^ Z.of_nat k)).
  assert (H : (0 <= Py.round_half_even (x * inject_Z (Zpos p)))%Z).
  { apply round_half_even_nonneg. apply Qmult_le_0_compat; [exact Hx |].
    unfold Qle. cbn [Qnum Qden inject_Z]. lia. }
  unfold Qle. cbn [Qnum Qden]. lia.
Qed.

Lemma round_nonpos (x : Q) (k : nat) : x <= 0 -> Py.round x k <= 0.
Proof.
  intros Hx. unfold Py.round.
  set (p := Z.to_pos (10 ^ Z.of_nat k)).
  assert (H : (Py.round_half_even (x * inject_Z (Zpos p)) <= 0)%Z).
  { apply round_half_even_nonpos.
    destruct x as [n d]. unfold Qle, Qmult in *.
    cbn [Qnum Qden inject_Z] in *. nia. }
  unfold Qle. cbn [Qnum Qden]. lia.
Qed.

Lemma round_zero (x : Q) (k : nat) : x == 0 -> Py.round x k == 0.
Proof.
  intros Hx. apply Qle_antisym.
  - apply round_nonpos. rewrite Hx. apply Qle_refl.
  - apply round_nonneg. rewrite Hx. apply Qle_refl.
Qed.

(** ** book.py: the headroom clamp *)

Lemma effective_sizing_positive (s : Q) (b : BookState.t) :
  0 < s ->
  BookState.exposicao_fisica_pct b < BookState.limite_long_pct b ->
  0 < calculate_effective_sizing s b.
Proof.
  intros Hs Hb.
  unfold calculate_effective_sizing, BookState.exposicao_disponivel_long,
    Py.min, Py.max.
  cmp_cases; lra.
Qed.

Lemma effective_sizing_negative (s : Q) (b : BookState.t) :
  s < 0 ->
  BookState.limite_short_pct b < BookState.exposicao_fisica_pct b ->
  calculate_effective_sizing s b < 0.
Proof.
  intros Hs Hb.
  unfold calculate_effective_sizing, BookState.exposicao_disponivel_short,
    Py.min, Py.max.
  cmp_cases; lra.
Qed.

Lemma effective_sizing_zero (b : BookState.t) :
  calculate_effective_sizing 0 b = 0.
Proof. reflexivity. Qed.

(** ** engine.py: what the report holds *)

Lemma report_recomendacao_fisica
    (inputs : MarketInputs.t) (book : option BookState.t) :
  DecisionReport.recomendacao_fisica (run_decision_engine inputs book)
  = RecomendacaoFisica.mk
      (PhysicalRecommendation.value
         (PhysicalResult.recommendation
            (ModulatedResult.physical (engine_modulated inputs book))))
      (Intensity.value
         (PhysicalResult.intensity
            (ModulatedResult.physical (engine_modulated inputs book))))
      (Py.round (engine_effective_sizing inputs book) 1).
Proof. destruct book; reflexivity. Qed.

Lemma report_recomendacao_hedge
    (inputs : MarketInputs.t) (book : option BookState.t) :
  DecisionReport.recomendacao_hedge (run_decision_engine inputs book)
  = RecomendacaoHedge.mk
      (HedgeRecommendation.value
         (HedgeResult.recommendation
            (ModulatedResult.hedge (engine_modulated inputs book))))
      (Intensity.value
         (HedgeResult.intensity
            (ModulatedResult.hedge (engine_modulated inputs book))))
      (Py.round
         (HedgeResult.delta_pp
            (ModulatedResult.hedge (engine_modulated inputs book))) 1).
Proof. destruct book; reflexivity. Qed.


(** ** The sign discipline along the pipeline *)

Lemma compute_physical_recommendation_sign (s : Q) :
  physical_sign_ok (compute_physical_recommendation s).
Proof.
  unfold compute_physical_recommendation, physical_sign_ok.
  cmp_cases; simpl; reflexivity.
Qed.

Lemma compute_hedge_recommendation_sign (p : Q) (spike : bool) :
  hedge_sign_ok (compute_hedge_recommendation p spike).
Proof.
  unfold compute_hedge_recommendation, hedge_sign_ok.
  destruct spike; cmp_cases; simpl; reflexivity.
Qed.

Lemma triggered_overrides_sign
    (var : option Q) (pp spread : Q) (flag : bool) (reason : option string)
    (spike narr : bool) :
  Forall
    (fun o =>
       (forall pa, Override.physical_action o = Some pa -> physical_sign_ok pa)
       /\ (forall ha, Override.hedge_action o = Some ha -> hedge_sign_ok ha))
    (triggered_overrides var pp spread flag reason spike narr).
Proof.
  unfold triggered_overrides, check_logistica, check_queda_conjunta,
    check_armadilha_premio, check_competitividade_critica,
    check_chicago_especulativo.
  destruct flag, var as [v |], (spike && negb narr); cbv zeta;
    repeat match goal with
    | |- context [if ?c then _ else _] => destruct c
    end;
    simpl; repeat constructor; simpl; intros x Hx; inversion Hx;
    reflexivity.
Qed.

Lemma evaluate_overrides_sign
    (var : option Q) (pp spread : Q) (flag : bool) (reason : option string)
    (spike narr : bool) (op : PhysicalResult.t) (oh : HedgeResult.t) :
  let ev := evaluate_overrides var pp spread flag reason spike narr op oh in
  (physical_sign_ok op ->
   physical_sign_ok (OverrideEvaluation.final_physical ev))
  /\ (hedge_sign_ok oh -> hedge_sign_ok (OverrideEvaluation.final_hedge ev)).
Proof.
  intros ev.
  pose proof (active_overrides_triggered var pp spread flag reason spike narr
                op oh) as Hact.
  fold ev in Hact.
  pose proof (final_from_dominant ev _ _ _ _ _ _ _ _ _ eq_refl)
    as (_ & _ & Hp & Hh).
  pose proof (dominant_is_head ev _ _ _ _ _ _ _ _ _ eq_refl) as Hdom.
  pose proof (triggered_overrides_sign var pp spread flag reason spike narr)
    as Hsign.
  clearbody ev. rewrite Hact in Hdom. rewrite Hp, Hh, Hdom.
  destruct (triggered_overrides var pp spread flag reason spike narr)
    as [| d rest]; simpl; [tauto |].
  inversion Hsign as [| ? ? [Hdp Hdh] _]; subst.
  unfold replaced_by.
  destruct (Override.physical_action d) as [pa |],
           (Override.hedge_action d) as [ha |]; split; intros; auto.
Qed.

Lemma engine_modulated_sign
    (inputs : MarketInputs.t) (book : option BookState.t) :
  let m := engine_modulated inputs book in
  let b := engine_book book in
  physical_sign_ok (ModulatedResult.physical m)
  /\ hedge_sign_ok (ModulatedResult.hedge m)
  /\ (physical_in_aumentar
        (PhysicalResult.recommendation (ModulatedResult.physical m)) = true ->
      BookState.exposicao_fisica_pct b < BookState.limite_long_pct b)
  /\ (physical_in_reduzir
        (PhysicalResult.recommendation (ModulatedResult.physical m)) = true ->
      BookState.limite_short_pct b < BookState.exposicao_fisica_pct b).
Proof.
  intros m b. subst m b. unfold engine_modulated.
  destruct (modulate_by_book_physical
              (OverrideEvaluation.final_physical (engine_overrides inputs))
              (OverrideEvaluation.final_hedge (engine_overrides inputs))
              (engine_book book)) as (_ & Hsign & Hlong & Hshort).
  destruct (evaluate_overrides_sign
              (MarketInputs.var_semanal_lineup inputs)
              (MarketInputs.percentil_premium inputs)
              (MarketInputs.spread_adjusted inputs)
              (MarketInputs.logistics_flag_active inputs)
              (MarketInputs.logistics_reason inputs)
              (MarketInputs.chicago_is_spike inputs)
              (MarketInputs.narrativa_confirmada inputs)
              (ScoringResult.physical (engine_scoring inputs))
              (ScoringResult.hedge (engine_scoring inputs))) as (Hp & Hh).
  fold (engine_overrides inputs) in Hp, Hh.
  repeat split.
  - apply Hsign, Hp. apply compute_physical_recommendation_sign.
  - apply modulate_by_book_hedge, Hh. apply compute_hedge_recommendation_sign.
  - exact Hlong.
  - exact Hshort.
Qed.

(** The effective sizing of a run has the sign of the reported action,
    strictly, before it is rounded. *)
Lemma engine_effective_sizing_sign
    (inputs : MarketInputs.t) (book : option BookState.t) :
  match PhysicalResult.recommendation
          (ModulatedResult.physical (engine_modulated inputs book)) with
  | PhysicalRecommendation.AUMENTAR
  | PhysicalRecommendation.AUMENTAR_FORTE =>
      0 < engine_effective_sizing inputs book
  | PhysicalRecommendation.REDUZIR
  | PhysicalRecommendation.REDUZIR_FORTE =>
      engine_effective_sizing inputs book < 0
  | PhysicalRecommendation.MANTER =>
      engine_effective_sizing inputs book = 0
  end.
Proof.
  destruct (engine_modulated_sign inputs book) as (Hp & _ & Hlong & Hshort).
  unfold engine_effective_sizing, physical_sign_ok in *.
  destruct (PhysicalResult.recommendation
              (ModulatedResult.physical (engine_modulated inputs book)));
    simpl in Hlong, Hshort.
  - apply effective_sizing_negative; auto.
  - apply effective_sizing_negative; auto.
  - rewrite Hp. reflexivity.
  - apply effective_sizing_positive; auto.
  - apply effective_sizing_positive; auto.
Qed.

(** C5, as stated, fails on the physical side: with every component at its
    best and an exposure of 79.96 against a long limit of 80 the report
    recommends a strong increase with a sizing of 0.0, the headroom of 0.04
    being rounded to one decimal. *)
Lemma report_strict_sign_fails :
  let fisica :=
    DecisionReport.recomendacao_fisica
      (run_decision_engine bullish_inputs (Some nearly_full_book)) in
  is_increase (RecomendacaoFisica.acao fisica)
  /\ ~ 0 < RecomendacaoFisica.sizing_pct fisica.
Proof.
  split.
  - right. reflexivity.
  - apply Qle_not_lt. vm_compute. discriminate.
Qed.

(** C5 (amended): in the report an increase has a sizing that is not
    negative, a decrease a sizing that is not positive, and a hold a zero
    sizing, the reported sizing being the one-decimal rounding of an
    effective sizing that is strictly positive for an increase and strictly
    negative for a decrease; the hedge delta is strictly positive for an
    increase, strictly negative for a decrease and zero for a hold. *)
Theorem report_sign_consistency
    (inputs : MarketInputs.t) (book : option BookState.t) :
  let report := run_decision_engine inputs book in
  let fisica := DecisionReport.recomendacao_fisica report in
  let hedge := DecisionReport.recomendacao_hedge report in
  let effective := engine_effective_sizing inputs book in
  RecomendacaoFisica.sizing_pct fisica = Py.round effective 1
  /\ (is_increase (RecomendacaoFisica.acao fisica) ->
      0 < effective /\ 0 <= RecomendacaoFisica.sizing_pct fisica)
  /\ (is_decrease (RecomendacaoFisica.acao fisica) ->
      effective < 0 /\ RecomendacaoFisica.sizing_pct fisica <= 0)
  /\ (is_hold (RecomendacaoFisica.acao fisica) ->
      effective == 0 /\ RecomendacaoFisica.sizing_pct fisica == 0)
  /\ (is_increase (RecomendacaoHedge.acao hedge) ->
      0 < RecomendacaoHedge.delta_pp hedge)
  /\ (is_decrease (RecomendacaoHedge.acao hedge) ->
      RecomendacaoHedge.delta_pp hedge < 0)
  /\ (is_hold (RecomendacaoHedge.acao hedge) ->
      RecomendacaoHedge.delta_pp hedge == 0).
Proof.
  intros report fisica hedge effective. subst report fisica hedge effective.
  rewrite report_recomendacao_fisica, report_recomendacao_hedge.
  cbn [RecomendacaoFisica.sizing_pct RecomendacaoFisica.acao
       RecomendacaoHedge.delta_pp RecomendacaoHedge.acao].
  pose proof (engine_effective_sizing_sign inputs book) as Heff.
  destruct (engine_modulated_sign inputs book) as (_ & Hh & _ & _).
  unfold hedge_sign_ok in Hh. rewrite Hh. clear Hh.
  unfold is_increase, is_decrease, is_hold.
  split; [reflexivity |].
  split; [| split; [| split; [| split; [| split]]]].
  - intros Hact.
    destruct (PhysicalResult.recommendation
                (ModulatedResult.physical (engine_modulated inputs book)));
      simpl in Hact; try (destruct Hact; discriminate);
      (split; [exact Heff | apply round_nonneg; lra]).
  - intros Hact.
    destruct (PhysicalResult.recommendation
                (ModulatedResult.physical (engine_modulated inputs book)));
      simpl in Hact; try (destruct Hact; discriminate);
      (split; [exact Heff | apply round_nonpos; lra]).
  - intros Hact.
    destruct (PhysicalResult.recommendation
                (ModulatedResult.physical (engine_modulated inputs book)));
      simpl in Hact; try discriminate.
    rewrite Heff. split; [reflexivity | now apply round_zero].
  - intros Hact.
    destruct (HedgeResult.recommendation
                (ModulatedResult.hedge (engine_modulated inputs book)));
      simpl in Hact; try (destruct Hact; discriminate); reflexivity.
  - intros Hact.
    destruct (HedgeResult.recommendation
                (ModulatedResult.hedge (engine_modulated inputs book)));
      simpl in Hact; try (destruct Hact; discriminate); reflexivity.
  - intros Hact.
    destruct (HedgeResult.recommendation
                (ModulatedResult.hedge (engine_modulated inputs book)));
      simpl in Hact; try discriminate; reflexivity.
Qed.

(** ** premium.py and auxiliaries.py: percentiles *)

Lemma count_if_filter {A : Type} (cond : A -> bool) (l : list A) :
  Py.count_if cond l = Z.of_nat (List.length (filter cond l)).
Proof.
  unfold Py.count_if.
  assert (H : forall acc,
             fold_left (fun a h => if cond h then (a + 1)%Z else a) l acc
             = (acc + Z.of_nat (List.length (filter cond l)))%Z).
  { induction l as [| x r IH]; intros acc; simpl.
    - lia.
    - rewrite IH. destruct (cond x); simpl List.length; lia. }
  now rewrite H.
Qed.

Lemma ltb_strictly_below (value : Q) (l : list Q) :
  filter (fun h => Py.ltb h value) l = filter (strictly_below value) l.
Proof.
  apply filter_ext. intros h. unfold strictly_below.
  destruct (ltb_reflect h value) as [H | H];
    destruct (Qcompare_spec h value) as [E | E | E];
    try reflexivity; exfalso; lra.
Qed.

Lemma eqb_equal_to (value : Q) (l : list Q) :
  filter (fun h => Py.eqb h value) l = filter (equal_to value) l.
Proof.
  apply filter_ext. intros h. unfold equal_to.
  destruct (eqb_reflect h value) as [H | H];
    destruct (Qcompare_spec h value) as [E | E | E];
    try reflexivity; exfalso; lra.
Qed.

(** ** Binary64 rounding: the relative error *)

Lemma round_half_even_error (y : Q) :
  inject_Z (Py.round_half_even y) - (1 # 2) <= y
  /\ y <= inject_Z (Py.round_half_even y) + (1 # 2).
Proof.
  destruct y as [n d]. unfold Py.round_half_even. cbn [Qnum Qden].
  pose proof (Z.div_mod n (Zpos d) ltac:(lia)) as Hdm.
  pose proof (Z.mod_pos_bound n (Zpos d) ltac:(lia)) as Hr.
  set (q := (n / Zpos d)%Z) in *. set (r := (n mod Zpos d)%Z) in *.
  assert (Hq : forall z : Z,
             ((2 * z - 1) * Zpos d <= 2 * n)%Z ->
             (2 * n <= (2 * z + 1) * Zpos d)%Z ->
             inject_Z z - (1 # 2) <= n # d /\ n # d <= inject_Z z + (1 # 2)).
  { intros z H1 H2. unfold Qle, Qminus, Qplus, Qopp, inject_Z.
    cbn [Qnum Qden]. rewrite !Pos2Z.inj_mul. split; nia. }
  destruct (Z.compare_spec (2 * r) (Zpos d)) as [He | Hl | Hg];
    [destruct (Z.even q) | |]; apply Hq; nia.
Qed.

Lemma round_half_even_near (y : Q) (N : Z) :
  inject_Z N - (1 # 2) < y -> y < inject_Z N + (1 # 2) ->
  Py.round_half_even y = N.
Proof.
  intros H1 H2. destruct (round_half_even_error y) as [H3 H4].
  set (m := Py.round_half_even y) in *.
  assert (Hlt : inject_Z m < inject_Z N + 1) by lra.
  assert (Hgt : inject_Z N < inject_Z m + 1) by lra.
  change 1 with (inject_Z 1) in Hlt, Hgt.
  rewrite <- inject_Z_plus in Hlt, Hgt.
  rewrite <- Zlt_Qlt in Hlt, Hgt. lia.
Qed.

Lemma two_power_pos (k : Z) : 0 < 2 ^ k.
Proof. apply Qpower_0_lt. reflexivity. Qed.

Lemma binade_lower (x : Q) : 0 < x -> 2 ^ Py.binade x <= x.
Proof.
  intros Hx. unfold Py.binade.
  set (c := (Z.log2 (Qnum x) - Z.log2 (Zpos (Qden x)))%Z).
  destruct (Qle_bool (2 ^ c) x) eqn:E; [now apply Qle_bool_iff |].
  destruct x as [n d]. cbn [Qnum Qden] in c.
  assert (Hn : (0 < n)%Z) by (unfold Qlt in Hx; cbn in Hx; lia).
  pose proof (Z.log2_spec n Hn) as [Hn1 _].
  pose proof (Z.log2_spec (Zpos d) ltac:(lia)) as [_ Hd2].
  pose proof (Z.log2_nonneg n) as Hln.
  pose proof (Z.log2_nonneg (Zpos d)) as Hld.
  replace (c - 1)%Z
    with (Z.log2 n - Z.succ (Z.log2 (Zpos d)))%Z by (subst c; lia).
  rewrite Qpower_minus by discriminate.
  change 2 with (inject_Z 2).
  rewrite <- !Zpower_Qpower by lia.
  rewrite (Qmake_Qdiv n d).
  set (A := (2 ^ Z.log2 n)%Z) in *.
  set (B := (2 ^ Z.succ (Z.log2 (Zpos d)))%Z) in *.
  assert (HA : (0 < A)%Z) by (subst A; apply Z.pow_pos_nonneg; lia).
  assert (HqA : 0 < inject_Z A) by (change 0 with (inject_Z 0);
                                     now rewrite <- Zlt_Qlt).
  assert (HqAn : inject_Z A <= inject_Z n) by now rewrite <- Zle_Qle.
  assert (HqD : 0 < inject_Z (Zpos d)) by reflexivity.
  assert (HqdB : inject_Z (Zpos d) <= inject_Z B)
    by (rewrite <- Zle_Qle; lia).
  apply Qle_shift_div_r; [lra |].
  apply Qle_trans with (inject_Z n); [assumption |].
  setoid_replace (inject_Z n / inject_Z (Zpos d) * inject_Z B)
    with (inject_Z n * (inject_Z B / inject_Z (Zpos d)))
    by (field; lra).
  assert (H1 : 1 <= inject_Z B / inject_Z (Zpos d))
    by (apply Qle_shift_div_l; lra).
  assert (Hn0 : 0 <= inject_Z n) by lra.
  set (N := inject_Z n) in *. set (R := inject_Z B / inject_Z (Zpos d)) in *.
  clearbody N R. nra.
Qed.

Lemma fl_pos_close (x : Q) :
  0 < x ->
  x * (1 - unit_roundoff) <= Py.fl_pos x
  /\ Py.fl_pos x <= x * (1 + unit_roundoff).
Proof.
  intros Hx. unfold Py.fl_pos.
  set (e := Py.binade x).
  pose proof (binade_lower x Hx) as He. fold e in He.
  pose proof (two_power_pos (e - 52)) as HP.
  assert (HPe : 2 ^ (e - 52) == 2 ^ e * (1 # 4503599627370496)).
  { rewrite Qpower_minus by discriminate.
    change (2 ^ 52) with (4503599627370496 # 1). unfold Qdiv.
    reflexivity. }
  set (P := 2 ^ (e - 52)) in *.
  destruct (round_half_even_error (x / P)) as [H1 H2].
  set (M := inject_Z (Py.round_half_even (x / P))) in *. clearbody M.
  assert (Hy : x == x / P * P) by (field; lra).
  set (y := x / P) in *. clearbody y.
  assert (H1' : (M - (1 # 2)) * P <= y * P)
    by (apply Qmult_le_compat_r; lra).
  assert (H2' : y * P <= (M + (1 # 2)) * P)
    by (apply Qmult_le_compat_r; lra).
  rewrite <- Hy in H1', H2'.
  set (E := 2 ^ e) in *. clearbody E P.
  set (MP := M * P).
  assert (H1'' : MP - (1 # 2) * P <= x)
    by (subst MP; setoid_replace (M * P - (1 # 2) * P)
          with ((M - (1 # 2)) * P) by ring; exact H1').
  assert (H2'' : x <= MP + (1 # 2) * P)
    by (subst MP; setoid_replace (M * P + (1 # 2) * P)
          with ((M + (1 # 2)) * P) by ring; exact H2').
  clearbody MP. unfold unit_roundoff. split; lra.
Qed.

Lemma fl_close (x : Q) :
  0 <= x ->
  x * (1 - unit_roundoff) <= Py.fl x /\ Py.fl x <= x * (1 + unit_roundoff).
Proof.
  intros Hx. unfold Py.fl.
  destruct (Qeq_bool x 0) eqn:E0.
  - apply Qeq_bool_iff in E0. rewrite E0. split; discriminate.
  - apply Qeq_bool_neq in E0.
    destruct (Qle_bool 0 x) eqn:E1.
    + apply fl_pos_close. apply Qle_bool_iff in E1.
      destruct (Qlt_le_dec 0 x) as [H | H]; [exact H |].
      exfalso. apply E0. lra.
    + exfalso. rewrite <- Qle_bool_iff in Hx. congruence.
Qed.

(** The percentile as the code computes it is within eight roundoffs of
    the exact one. *)
Lemma rank_percentile_double_close (value : Q) (sample : list Q) :
  sample <> [] ->
  rank_percentile value sample * (1 - 8 * unit_roundoff)
  <= rank_percentile_double value sample
  /\ rank_percentile_double value sample
     <= rank_percentile value sample * (1 + 8 * unit_roundoff).
Proof.
  intros Hne. unfold rank_percentile, rank_percentile_double,
    Py.float_of_int, Py.fadd, Py.fmul, Py.fdiv.
  set (nb := List.length (filter (strictly_below value) sample)).
  set (ne := List.length (filter (equal_to value) sample)).
  assert (Hn : (0 < List.length sample)%nat)
    by (destruct sample; [congruence | simpl; lia]).
  set (n := List.length sample) in *. clearbody nb ne n.
  assert (HN : inject_Z 1 <= inject_Z (Z.of_nat n))
    by (rewrite <- Zle_Qle; lia).
  assert (HA : inject_Z 0 <= inject_Z (Z.of_nat nb))
    by (rewrite <- Zle_Qle; lia).
  assert (HC : inject_Z 0 <= inject_Z (Z.of_nat ne))
    by (rewrite <- Zle_Qle; lia).
  change (inject_Z 0) with 0 in HA, HC. change (inject_Z 1) with 1 in HN.
  set (N := inject_Z (Z.of_nat n)) in *.
  set (A := inject_Z (Z.of_nat nb)) in *.
  set (C := inject_Z (Z.of_nat ne)) in *. clearbody N A C.
  destruct (fl_close A HA) as [Ha1 Ha2]. set (a := Py.fl A) in *.
  destruct (fl_close C HC) as [Hc1 Hc2]. set (c := Py.fl C) in *.
  clearbody a c.
  assert (Hc0 : 0 <= (1 # 2) * c) by (unfold unit_roundoff in *; lra).
  destruct (fl_close _ Hc0) as [Hh1 Hh2]. set (h := Py.fl ((1 # 2) * c)) in *.
  clearbody h.
  assert (Hs0 : 0 <= a + h) by (unfold unit_roundoff in *; lra).
  destruct (fl_close _ Hs0) as [Hs1 Hs2]. set (s := Py.fl (a + h)) in *.
  clearbody s.
  assert (HN0 : 0 <= N) by lra.
  destruct (fl_close N HN0) as [Hn1 Hn2]. set (nn := Py.fl N) in *.
  clearbody nn.
  assert (Hnnpos : 0 < nn) by (unfold unit_roundoff in *; lra).
  assert (Hspos : 0 <= s) by (unfold unit_roundoff in *; lra).
  assert (Hr0 : 0 <= s / nn) by (apply Qle_shift_div_l; lra).
  destruct (fl_close _ Hr0) as [Hq1 Hq2]. set (q := Py.fl (s / nn)) in *.
  clearbody q.
  assert (Hr : s == s / nn * nn) by (field; lra).
  set (r := s / nn) in *. clearbody r.
  assert (Hq0 : 0 <= q * 100) by (unfold unit_roundoff in *; lra).
  destruct (fl_close _ Hq0) as [Ht1 Ht2]. set (t := Py.fl (q * 100)) in *.
  clearbody t.
  (* the exact quotient *)
  assert (HG : A + (1 # 2) * C == (A + (1 # 2) * C) / N * N) by (field; lra).
  assert (HG0 : 0 <= (A + (1 # 2) * C) / N)
    by (apply Qle_shift_div_l; lra).
  set (G := (A + (1 # 2) * C) / N) in *. clearbody G.
  (* bounds on s in terms of G * N *)
  set (GN := G * N) in *.
  assert (HGN0 : 0 <= GN) by (subst GN; nra).
  assert (Hs_lo : GN * (1 - 3 * unit_roundoff) <= s).
  { clearbody GN. unfold unit_roundoff in *. lra. }
  assert (Hs_hi : s <= GN * (1 + (7 # 2) * unit_roundoff)).
  { clearbody GN. unfold unit_roundoff in *. lra. }
  (* the division *)
  assert (Hr_lo : G * (1 - 5 * unit_roundoff) <= r).
  { subst GN. unfold unit_roundoff in *.
    assert (Hk : nn * (G * (1 - 5 * (1 # 9007199254740992)))
                 <= N * (1 + (1 # 9007199254740992))
                    * (G * (1 - 5 * (1 # 9007199254740992))))
      by (apply Qmult_le_compat_r; [exact Hn2 | lra]).
    assert (Hx : G * (1 - 5 * (1 # 9007199254740992)) * nn <= r * nn)
      by (rewrite <- Hr; nra).
    apply Qmult_le_r in Hx; assumption. }
  assert (Hr_hi : r <= G * (1 + 5 * unit_roundoff)).
  { subst GN. unfold unit_roundoff in *.
    assert (Hk : N * (1 - (1 # 9007199254740992))
                 * (G * (1 + 5 * (1 # 9007199254740992)))
                 <= nn * (G * (1 + 5 * (1 # 9007199254740992))))
      by (apply Qmult_le_compat_r; [exact Hn1 | lra]).
    assert (Hx : r * nn <= G * (1 + 5 * (1 # 9007199254740992)) * nn)
      by (rewrite <- Hr; nra).
    apply Qmult_le_r in Hx; assumption. }
  clear Hr Hs_lo Hs_hi Hs1 Hs2 Hh1 Hh2 Ha1 Ha2 Hc1 Hc2 Hn1 Hn2 HG.
  clearbody GN. unfold unit_roundoff in *. split; lra.
Qed.

(** ** Rounding to two decimals *)

Lemma round2_error (x : Q) :
  Py.round x 2 - (1 # 200) <= x /\ x <= Py.round x 2 + (1 # 200).
Proof.
  unfold Py.round.
  change (Z.to_pos (10 ^ Z.of_nat 2)) with 100%positive.
  destruct (round_half_even_error (x * inject_Z 100)) as [H1 H2].
  set (m := Py.round_half_even (x * inject_Z 100)) in *.
  assert (Hm : m # 100 == inject_Z m * (1 # 100))
    by (unfold Qeq, Qmult, inject_Z; cbn [Qnum Qden]; lia).
  rewrite Hm. change (inject_Z 100) with 100 in H1, H2.
  set (M := inject_Z m) in *. clearbody M. split; lra.
Qed.

Lemma round2_near (x : Q) (N : Z) :
  inject_Z N - (1 # 2) < x * 100 -> x * 100 < inject_Z N + (1 # 2) ->
  Py.round x 2 = N # 100.
Proof.
  intros H1 H2. unfold Py.round.
  change (Z.to_pos (10 ^ Z.of_nat 2)) with 100%positive.
  change (inject_Z 100) with 100.
  now rewrite (round_half_even_near (x * 100) N).
Qed.

Lemma round2_at_most_100 (x : Q) :
  x < 100 + (1 # 200) -> Py.round x 2 <= 100.
Proof.
  intros Hx. unfold Py.round.
  change (Z.to_pos (10 ^ Z.of_nat 2)) with 100%positive.
  destruct (round_half_even_error (x * inject_Z 100)) as [H1 _].
  set (m := Py.round_half_even (x * inject_Z 100)) in *.
  change (inject_Z 100) with 100 in H1.
  assert (Hm : inject_Z m < inject_Z 10001)
    by (change (inject_Z 10001) with 10001; lra).
  rewrite <- Zlt_Qlt in Hm.
  unfold Qle. cbn [Qnum Qden]. lia.
Qed.

(** ** premium.py and auxiliaries.py: the exact percentile *)

Lemma filter_disjoint_length {A : Type} (p q : A -> bool) (l : list A) :
  (forall x, p x = true -> q x = false) ->
  (List.length (filter p l) + List.length (filter q l) <= List.length l)%nat.
Proof.
  intros Hpq. induction l as [| x r IH]; simpl; [lia |].
  destruct (p x) eqn:Ep.
  - rewrite (Hpq x Ep). simpl. lia.
  - destruct (q x); simpl; lia.
Qed.

Lemma rank_percentile_in_range (value : Q) (sample : list Q) :
  sample <> [] ->
  0 <= rank_percentile value sample /\ rank_percentile value sample <= 100.
Proof.
  intros Hne. unfold rank_percentile.
  pose proof (filter_disjoint_length (strictly_below value) (equal_to value)
                sample) as Hlen.
  assert (Hd : forall x, strictly_below value x = true ->
                         equal_to value x = false).
  { intros x. unfold strictly_below, equal_to.
    destruct (x ?= value); intros; try reflexivity; discriminate. }
  specialize (Hlen Hd).
  set (nb := List.length (filter (strictly_below value) sample)) in *.
  set (ne := List.length (filter (equal_to value) sample)) in *.
  assert (Hn : (0 < List.length sample)%nat)
    by (destruct sample; [congruence | simpl; lia]).
  set (n := List.length sample) in *. clearbody nb ne n.
  assert (Hn' : 0 < inject_Z (Z.of_nat n))
    by (unfold Qlt; cbn; lia).
  assert (Hb0 : inject_Z 0 <= inject_Z (Z.of_nat nb))
    by (rewrite <- Zle_Qle; lia).
  assert (He0 : inject_Z 0 <= inject_Z (Z.of_nat ne))
    by (rewrite <- Zle_Qle; lia).
  change (inject_Z 0) with 0 in Hb0, He0.
  assert (Hsum : inject_Z (Z.of_nat nb) + inject_Z (Z.of_nat ne)
                 <= inject_Z (Z.of_nat n)).
  { rewrite <- inject_Z_plus, <- Zle_Qle. lia. }
  set (num := inject_Z (Z.of_nat nb) + (1 # 2) * inject_Z (Z.of_nat ne)) in *.
  assert (Hnum0 : 0 <= num) by (subst num; lra).
  assert (Hnum1 : num <= inject_Z (Z.of_nat n)) by (subst num; lra).
  clearbody num.
  assert (Hq0 : 0 <= num / inject_Z (Z.of_nat n))
    by (apply Qle_shift_div_l; [assumption | lra]).
  assert (Hq1 : num / inject_Z (Z.of_nat n) <= 1)
    by (apply Qle_shift_div_r; [assumption | lra]).
  set (q := num / inject_Z (Z.of_nat n)) in *. clearbody q.
  split; lra.
Qed.

(** ** premium.py and auxiliaries.py: the percentile as computed *)

(** The computed percentile, before its last rounding, lies between 0 and
    a hair above 100. *)
Lemma rank_percentile_double_range (value : Q) (sample : list Q) :
  sample <> [] ->
  0 <= rank_percentile_double value sample
  /\ rank_percentile_double value sample < 100 + (1 # 1000000000000).
Proof.
  intros Hne.
  destruct (rank_percentile_in_range value sample Hne) as [H0 H1].
  destruct (rank_percentile_double_close value sample Hne) as [H2 H3].
  set (E := rank_percentile value sample) in *.
  set (T := rank_percentile_double value sample) in *. clearbody E T.
  unfold unit_roundoff in *. split; lra.
Qed.

(** Rounded to two decimals it lies between 0 and 100. *)
Lemma rank_percentile_double_round_range (value : Q) (sample : list Q) :
  sample <> [] ->
  in_0_100 (Py.round (rank_percentile_double value sample) 2).
Proof.
  intros Hne.
  destruct (rank_percentile_double_range value sample Hne) as [H0 H1].
  split.
  - now apply round_nonneg.
  - apply round2_at_most_100. lra.
Qed.

(** Where the exact percentile is a whole number, the computed one is that
    number. *)
Lemma rank_percentile_double_round_whole
    (value : Q) (sample : list Q) (t : Z) :
  sample <> [] ->
  rank_percentile value sample == inject_Z t ->
  Py.round (rank_percentile_double value sample) 2 == inject_Z t.
Proof.
  intros Hne Ht.
  destruct (rank_percentile_in_range value sample Hne) as [H0 H1].
  destruct (rank_percentile_double_close value sample Hne) as [H2 H3].
  rewrite Ht in H0, H1, H2, H3.
  set (T := rank_percentile_double value sample) in *. clearbody T.
  rewrite (round2_near T (t * 100)).
  - unfold Qeq. cbn [Qnum Qden inject_Z]. lia.
  - rewrite inject_Z_mult. change (inject_Z 100) with 100.
    set (X := inject_Z t) in *. clearbody X.
    unfold unit_roundoff in *. lra.
  - rewrite inject_Z_mult. change (inject_Z 100) with 100.
    set (X := inject_Z t) in *. clearbody X.
    unfold unit_roundoff in *. lra.
Qed.

(** The reported percentile is within [percentile_tolerance] of the exact
    one. *)
Lemma rank_percentile_double_round_close (value : Q) (sample : list Q) :
  sample <> [] ->
  rank_percentile value sample - percentile_tolerance
  <= Py.round (rank_percentile_double value sample) 2
  /\ Py.round (rank_percentile_double value sample) 2
     <= rank_percentile value sample + percentile_tolerance.
Proof.
  intros Hne.
  destruct (rank_percentile_in_range value sample Hne) as [H0 H1].
  destruct (rank_percentile_double_close value sample Hne) as [H2 H3].
  destruct (round2_error (rank_percentile_double value sample)) as [H4 H5].
  set (E := rank_percentile value sample) in *.
  set (T := rank_percentile_double value sample) in *.
  set (R := Py.round T 2) in *. clearbody E T R.
  unfold unit_roundoff, percentile_tolerance in *. split; lra.
Qed.

Lemma premium_calculate_percentile_nonempty (value : Q) (historical : list Q) :
  historical <> [] ->
  Premium.calculate_percentile value historical
  = Py.Ok (Py.round (rank_percentile_double value historical) 2).
Proof.
  destruct historical as [| h r]; [congruence |]. intros _.
  unfold Premium.calculate_percentile, rank_percentile_double, Py.len.
  now rewrite !count_if_filter, ltb_strictly_below, eqb_equal_to.
Qed.

(** At a tie of the exact percentile the rounding of the float decides:
    14.375 is reported as 14.37 and 30.625 as 30.63. *)
Lemma calculate_percentile_ties :
  Premium.calculate_percentile 2 tie_sample_11 = Py.Ok (1437 # 100)
  /\ rank_percentile 2 tie_sample_11 == 14375 # 1000
  /\ Premium.calculate_percentile 2 tie_sample_24 = Py.Ok (3063 # 100)
  /\ rank_percentile 2 tie_sample_24 == 30625 # 1000.
Proof. repeat split; vm_compute; reflexivity. Qed.

(** With no premium at all the normalizer raises before it looks at the
    sample. *)
Lemma normalize_premium_null (dt : Py.date) (historical : list Q) :
  raises (snd (Premium.normalize_premium dt None historical)).
Proof. eexists. reflexivity. Qed.

(** X20: a warning is logged exactly when the sample has fewer than 30
    entries; the result is returned whatever the sample size. *)
Lemma normalize_premium_warning
    (dt : Py.date) (premium : Q) (historical : list Q) :
  fst (Premium.normalize_premium dt (Some premium) historical) <> []
  <-> (Z.of_nat (List.length historical) < 30)%Z.
Proof.
  unfold Premium.normalize_premium, Premium.MIN_HISTORICAL_SAMPLES, Py.len.
  destruct (Z.ltb_spec (Z.of_nat (List.length historical)) 30) as [H | H];
    destruct (Premium.calculate_percentile premium historical); simpl;
    split; intros; try discriminate; try lia; congruence.
Qed.

(** C6, as stated, fails on the percentile: for the premium 1.5 against the
    sample 1, 2, 3 the result holds 33.33, not 100/3. *)
Lemma normalize_premium_unrounded_fails :
  exists r,
    snd (Premium.normalize_premium harvest_day (Some (3 # 2)) [1; 2; 3])
    = Py.Ok r
    /\ ~ Premium.PremiumResult.percentile r
         == rank_percentile (3 # 2) [1; 2; 3].
Proof.
  eexists. split; [reflexivity |].
  vm_compute. discriminate.
Qed.

(** C6 (amended): given a premium, [normalize_premium] raises exactly when
    the historical sample is empty; on every other sample, of fewer than 30
    entries or not, it returns a result whose percentile is the rank
    percentile with tie-splitting as binary64 arithmetic evaluates it,
    rounded to two decimals, which is within [percentile_tolerance] of the
    exact rank percentile. *)
Theorem normalize_premium_percentile
    (dt : Py.date) (premium : Q) (historical : list Q) :
  let out := snd (Premium.normalize_premium dt (Some premium) historical) in
  (raises out <-> historical = [])
  /\ (historical <> [] ->
      exists r,
        out = Py.Ok r
        /\ Premium.PremiumResult.percentile r
           = Py.round (rank_percentile_double premium historical) 2
        /\ rank_percentile premium historical - percentile_tolerance
           <= Premium.PremiumResult.percentile r
        /\ Premium.PremiumResult.percentile r
           <= rank_percentile premium historical + percentile_tolerance
        /\ Premium.PremiumResult.historical_count r
           = Z.of_nat (List.length historical)).
Proof.
  intros out. subst out. unfold Premium.normalize_premium, raises.
  destruct historical as [| h r].
  - split.
    + split; [reflexivity | intros _; eexists; reflexivity].
    + congruence.
  - rewrite premium_calculate_percentile_nonempty by discriminate.
    cbn [snd]. split.
    + split; [intros [e He]; discriminate | discriminate].
    + intros _.
      destruct (rank_percentile_double_round_close premium (h :: r))
        as [Hlo Hhi]; [discriminate |].
      eexists. split; [reflexivity |].
      cbn [Premium.PremiumResult.percentile
             Premium.PremiumResult.historical_count].
      split; [reflexivity |]. split; [exact Hlo |].
      split; [exact Hhi | reflexivity].
Qed.

(** C10: on an empty history the reference-price percentile is the neutral
    50 for every current price, while the premium normalizer's percentile
    raises on an empty sample. *)
Theorem chicago_percentile_empty_history (value : Q) :
  Auxiliaries.calculate_percentile value [] = 50
  /\ raises (Premium.calculate_percentile value []).
Proof.
  split; [reflexivity | eexists; reflexivity].
Qed.

(** ** The theorems at concrete inputs *)

Lemma evaluate_overrides_dominant_witness :
  let ev :=
    evaluate_overrides (Some (-15)) 25 5 true (Some "strike"%string) false
      false strike_physical strike_hedge in
  let trig :=
    triggered_overrides (Some (-15)) 25 5 true (Some "strike"%string) false
      false in
  trig <> []
  /\ exists d,
       OverrideEvaluation.dominant_override ev = Some d
       /\ In d trig
       /\ (forall o, In o trig -> o <> d ->
             (Override.priority d < Override.priority o)%Z)
       /\ OverrideEvaluation.final_physical ev
          = replaced_by (Override.physical_action d) strike_physical
       /\ OverrideEvaluation.final_hedge ev
          = replaced_by (Override.hedge_action d) strike_hedge
       /\ Permutation trig (OverrideEvaluation.active_overrides ev)
       /\ StronglySorted by_priority (OverrideEvaluation.active_overrides ev).
Proof.
  intros ev trig.
  assert (Hne : trig <> []) by (vm_compute; discriminate).
  split; [exact Hne |].
  exact (evaluate_overrides_dominant (Some (-15)) 25 5 true
           (Some "strike"%string) false false strike_physical strike_hedge
           Hne).
Defined.

Lemma hedge_recommendation_bands_witness :
  compute_hedge_recommendation 90 true
  = HedgeResult.mk HedgeRecommendation.AUMENTAR Intensity.MODERADA 10
  /\ compute_hedge_recommendation 90 false
     = HedgeResult.mk HedgeRecommendation.AUMENTAR_FORTE Intensity.FORTE 20.
Proof.
  split.
  - apply (proj1 (hedge_recommendation_bands 90 true)).
    split; [reflexivity | discriminate].
  - apply (proj2 (hedge_recommendation_bands 90 false)).
    + intros [H _]. discriminate H.
    + discriminate.
Defined.


Lemma report_sign_consistency_witness :
  0 < engine_effective_sizing bullish_inputs (Some nearly_full_book)
  /\ 0 <= RecomendacaoFisica.sizing_pct
            (DecisionReport.recomendacao_fisica
               (run_decision_engine bullish_inputs (Some nearly_full_book))).
Proof.
  apply (report_sign_consistency bullish_inputs (Some nearly_full_book)).
  right. reflexivity.
Defined.

Lemma normalize_premium_percentile_witness :
  exists r,
    snd (Premium.normalize_premium harvest_day (Some (3 # 2)) [1; 2; 3])
    = Py.Ok r
    /\ Premium.PremiumResult.percentile r
       = Py.round (rank_percentile_double (3 # 2) [1; 2; 3]) 2
    /\ rank_percentile (3 # 2) [1; 2; 3] - percentile_tolerance
       <= Premium.PremiumResult.percentile r
    /\ Premium.PremiumResult.percentile r
       <= rank_percentile (3 # 2) [1; 2; 3] + percentile_tolerance
    /\ Premium.PremiumResult.historical_count r = 3%Z.
Proof.
  apply (proj2 (normalize_premium_percentile harvest_day (3 # 2) [1; 2; 3])).
  discriminate.
Defined.

Lemma evaluate_overrides_frame_witness :
  OverrideEvaluation.final_hedge (engine_overrides strike_inputs)
  = strike_hedge.
Proof.
  apply (proj1 (evaluate_overrides_frame (Some (-15)) 25 5 true
                  (Some "strike"%string) false false strike_physical
                  strike_hedge) strike_override);
    reflexivity.
Defined.

(** ** The literal scenarios of the specification *)

(** Line-up -15%, premium percentile 25, spread +5, logistics off: the
    joint-drop rule dominates and prescribes a decrease of 20%. *)
Example scenario_joint_drop :
  let ev :=
    evaluate_overrides (Some (-15)) 25 5 false None false false
      (compute_physical_recommendation 30)
      (compute_hedge_recommendation 50 false) in
  option_map Override.type (OverrideEvaluation.dominant_override ev)
  = Some OverrideType.QUEDA_CONJUNTA
  /\ option_map Override.priority (OverrideEvaluation.dominant_override ev)
     = Some 2%Z
  /\ OverrideEvaluation.final_physical ev
     = PhysicalResult.mk PhysicalRecommendation.REDUZIR Intensity.FORTE (-20).
Proof. repeat split; reflexivity. Qed.

(** Premium percentile 88, line-up -12%, logistics off: the premium-trap
    rule dominates and prescribes a strong decrease of 25%. *)
Example scenario_premium_trap :
  let ev :=
    evaluate_overrides (Some (-12)) 88 5 false None false false
      (compute_physical_recommendation 50)
      (compute_hedge_recommendation 50 false) in
  option_map Override.type (OverrideEvaluation.dominant_override ev)
  = Some OverrideType.ARMADILHA_PREMIO
  /\ option_map Override.priority (OverrideEvaluation.dominant_override ev)
     = Some 3%Z
  /\ OverrideEvaluation.final_physical ev
     = PhysicalResult.mk PhysicalRecommendation.REDUZIR_FORTE Intensity.FORTE
         (-25).
Proof. repeat split; reflexivity. Qed.

(** A strike together with the joint-drop conditions: logistics dominates,
    the joint drop stays in the active set, the sizing is -30%. *)
Example scenario_logistics_dominates :
  let ev := engine_overrides strike_inputs in
  OverrideEvaluation.dominant_override ev = Some strike_override
  /\ map Override.type (OverrideEvaluation.active_overrides ev)
     = [OverrideType.LOGISTICA; OverrideType.QUEDA_CONJUNTA]
  /\ PhysicalResult.sizing_pct (OverrideEvaluation.final_physical ev) = -30.
Proof. repeat split; reflexivity. Qed.

(** Score 68.5, percentile 65, exposure at the long limit of 80%: the
    increase is modulated to a hold with no sizing. *)
Example scenario_long_limit :
  let m :=
    modulate_by_book (compute_physical_recommendation (137 # 2))
      (compute_hedge_recommendation 65 false)
      (BookState.mk 80 80 (-50) 0 60) in
  PhysicalResult.recommendation (compute_physical_recommendation (137 # 2))
  = PhysicalRecommendation.AUMENTAR
  /\ ModulatedResult.physical m
     = PhysicalResult.mk PhysicalRecommendation.MANTER Intensity.NEUTRA 0
  /\ ModulatedResult.physical_was_modulated m = true
  /\ calculate_effective_sizing
       (PhysicalResult.sizing_pct (ModulatedResult.physical m))
       (BookState.mk 80 80 (-50) 0 60) = 0.
Proof. repeat split; reflexivity. Qed.

(** A spike without a confirmed narrative at percentile 78: the physical
    side is held at moderate intensity and the hedge is a strong increase
    of 20pp, whatever the baseline hedge was. *)
Example scenario_speculative_spike :
  let ev :=
    evaluate_overrides (Some 0) 50 0 false None true false
      (compute_physical_recommendation 50)
      (compute_hedge_recommendation 78 true) in
  compute_hedge_recommendation 78 true
  = HedgeResult.mk HedgeRecommendation.AUMENTAR Intensity.MODERADA 10
  /\ OverrideEvaluation.final_physical ev
     = PhysicalResult.mk PhysicalRecommendation.MANTER Intensity.MODERADA 0
  /\ OverrideEvaluation.final_hedge ev
     = HedgeResult.mk HedgeRecommendation.AUMENTAR_FORTE Intensity.FORTE 20.
Proof. repeat split; reflexivity. Qed.

(** Without a book the engine works with the permissive default one. *)
Example scenario_default_book :
  engine_book None = BookState.mk 0 80 (-50) 0 60.
Proof. reflexivity. Qed.

(** ** scoring.py: the component maps and the aggregate *)

Ltac no_cmp t :=
  lazymatch t with
  | context [Py.ltb _ _] => fail
  | context [Py.leb _ _] => fail
  | context [Py.eqb _ _] => fail
  | _ => idtac
  end.

(** Case analysis on every float comparison in the goal, innermost
    first. *)
Ltac cmp_inner :=
  unfold Py.gtb, Py.geb in *;
  repeat match goal with
  | |- context [Py.ltb ?a ?b] =>
      no_cmp a; no_cmp b; destruct (ltb_reflect a b)
  | |- context [Py.leb ?a ?b] =>
      no_cmp a; no_cmp b; destruct (leb_reflect a b)
  | |- context [Py.eqb ?a ?b] =>
      no_cmp a; no_cmp b; destruct (eqb_reflect a b)
  end.

(** Replaces the inverse of a constant by its value. *)
Ltac const_inv :=
  unfold Qdiv;
  repeat match goal with
  | |- context [Qinv ?x] =>
      let c := eval vm_compute in (Qinv x) in change (Qinv x) with c
  end.

Ltac open_scores :=
  unfold score_lineup, score_premium, score_competitiveness, score_demand,
    score_cambio, _linear_map, _clamp, Py.min, Py.max,
    LINEUP_TREND_FORTE_QUEDA, LINEUP_TREND_FORTE_ALTA,
    COMPETITIVENESS_MUITO_CARO, COMPETITIVENESS_MUITO_BARATO,
    DEMAND_Z_FORTE, CAMBIO_FORTE_THRESHOLD;
  const_inv.

(** X1: whatever the value and the input domain, [_linear_map] returns a
    number between the smaller and the larger of its two output bounds; on a
    degenerate domain it is their midpoint. *)
Theorem linear_map_range (value in_min in_max out_min out_max : Q) :
  Qmin out_min out_max <= _linear_map value in_min in_max out_min out_max
  /\ _linear_map value in_min in_max out_min out_max <= Qmax out_min out_max
  /\ (in_max == in_min ->
      _linear_map value in_min in_max out_min out_max
      == (out_min + out_max) / 2).
Proof.
  unfold _linear_map.
  destruct (eqb_reflect in_max in_min) as [He | Hne].
  - const_inv.
    destruct (Q.min_spec out_min out_max) as [[H1 H2] | [H1 H2]];
      destruct (Q.max_spec out_min out_max) as [[H3 H4] | [H3 H4]];
      rewrite H2, H4; repeat split; intros; lra.
  - cbv zeta.
    set (result := out_min + _ * _). clearbody result.
    unfold _clamp, Py.min, Py.max. cmp_inner;
      destruct (Q.min_spec out_min out_max) as [[H1 H2] | [H1 H2]];
      destruct (Q.max_spec out_min out_max) as [[H3 H4] | [H3 H4]];
      rewrite H2, H4; repeat split; intros; try lra; contradiction.
Qed.



(** X3: the component scores are monotone: a larger line-up change, demand
    pace or premium percentile never lowers its score, a larger spread or FX
    change never raises its score. *)
Theorem component_scores_monotone (v w : Q) :
  v <= w ->
  score_lineup (Some v) <= score_lineup (Some w)
  /\ score_demand (Some v) <= score_demand (Some w)
  /\ score_premium v <= score_premium w
  /\ score_competitiveness w <= score_competitiveness v
  /\ score_cambio (Some w) <= score_cambio (Some v).
Proof.
  intros Hvw. repeat split; open_scores; cmp_inner; lra.
Qed.

Lemma component_scores_monotone_witness :
  score_lineup (Some (-5)) <= score_lineup (Some 5)
  /\ score_demand (Some (-5)) <= score_demand (Some 5)
  /\ score_premium (-5) <= score_premium 5
  /\ score_competitiveness 5 <= score_competitiveness (-5)
  /\ score_cambio (Some 5) <= score_cambio (Some (-5)).
Proof.
  apply (component_scores_monotone (-5) 5). discriminate.
Defined.



(** X5: the band of the physical score and the baseline physical
    recommendation always agree: very strong goes with a strong increase of
    25%, strong with an increase of 15%, neutral with a hold, weak with a
    decrease of 15% and very weak with a strong decrease of 25%. *)
Theorem classification_matches_recommendation (score : Q) :
  let p := compute_physical_recommendation score in
  PhysicalResult.recommendation p
  = recommendation_of_class (classify_score_fisico score)
  /\ PhysicalResult.sizing_pct p
     = sizing_of_class (classify_score_fisico score).
Proof.
  unfold compute_physical_recommendation, classify_score_fisico.
  cmp_cases; split; reflexivity.
Qed.

(** ** overrides.py: which rules fire and what the first one prescribes *)

Ltac open_checks :=
  unfold triggered_overrides, check_logistica, check_queda_conjunta,
    check_armadilha_premio, check_competitividade_critica,
    check_chicago_especulativo, rule_fires, lineup_drops,
    LINEUP_DROP_OVERRIDE_THRESHOLD, PREMIUM_THRESHOLD_BAIXO,
    PREMIUM_THRESHOLD_ALTO, CRITICAL_SPREAD_THRESHOLD, Py.gtb.

(** Case analysis on the raw truth values of the comparisons. *)
Ltac bool_cases :=
  repeat match goal with
  | |- context [Py.ltb ?a ?b] => destruct (Py.ltb a b)
  end.

Lemma triggered_types
    (var : option Q) (pp spread : Q) (flag : bool) (reason : option string)
    (spike narr : bool) :
  map Override.type (triggered_overrides var pp spread flag reason spike narr)
  = filter (rule_fires var pp spread flag spike narr) all_rules.
Proof.
  open_checks. destruct flag, var as [v |], spike, narr; cbv zeta;
    bool_cases; reflexivity.
Qed.

(** X6: the active set lists, in the order of their priorities, exactly the
    rules whose condition holds: logistics when the flag is set, joint drop
    when the line-up change is below -10 and the premium percentile below
    40, premium trap when the line-up change is below -10 and the percentile
    above 80, critical competitiveness when the spread is above 15, and the
    speculative rule on a spike without confirmed narrative.  All the
    thresholds are strict. *)
Theorem active_overrides_are_firing_rules
    (var : option Q) (pp spread : Q) (flag : bool) (reason : option string)
    (spike narr : bool) (op : PhysicalResult.t) (oh : HedgeResult.t) :
  let ev := evaluate_overrides var pp spread flag reason spike narr op oh in
  let fires := rule_fires var pp spread flag spike narr in
  map Override.type (OverrideEvaluation.active_overrides ev)
  = filter fires all_rules
  /\ (fires OverrideType.QUEDA_CONJUNTA = true
      <-> exists v, var = Some v /\ v < -10 /\ pp < 40)
  /\ (fires OverrideType.ARMADILHA_PREMIO = true
      <-> exists v, var = Some v /\ v < -10 /\ 80 < pp)
  /\ (fires OverrideType.COMPETITIVIDADE_CRITICA = true <-> 15 < spread)
  /\ (fires OverrideType.CHICAGO_ESPECULATIVO = true
      <-> spike = true /\ narr = false)
  /\ (fires OverrideType.LOGISTICA = true <-> flag = true).
Proof.
  intros ev fires. subst ev fires.
  rewrite active_overrides_triggered. split; [apply triggered_types |].
  unfold rule_fires, lineup_drops.
  split; [| split; [| split; [| split]]].
  - split.
    + destruct var as [v |]; [| discriminate]. cmp_cases; simpl;
        try discriminate. intros _. exists v. repeat split; assumption.
    + intros (v & -> & Hv & Hp). cmp_cases; try reflexivity; lra.
  - split.
    + destruct var as [v |]; [| discriminate]. cmp_cases; simpl;
        try discriminate. intros _. exists v. repeat split; assumption.
    + intros (v & -> & Hv & Hp). cmp_cases; try reflexivity; lra.
  - split; cmp_cases; intros; try reflexivity; try assumption;
      try discriminate; contradiction.
  - destruct spike, narr; simpl; split; intros H; try discriminate;
      try (destruct H; discriminate); auto.
  - tauto.
Qed.

(** X7: the joint-drop rule and the premium-trap rule never fire together,
    so the active set never holds both and has at most four overrides. *)
Theorem joint_drop_excludes_premium_trap
    (var : option Q) (pp spread : Q) (flag : bool) (reason : option string)
    (spike narr : bool) (op : PhysicalResult.t) (oh : HedgeResult.t) :
  let active :=
    OverrideEvaluation.active_overrides
      (evaluate_overrides var pp spread flag reason spike narr op oh) in
  ~ (In OverrideType.QUEDA_CONJUNTA (map Override.type active)
     /\ In OverrideType.ARMADILHA_PREMIO (map Override.type active))
  /\ (List.length active <= 4)%nat.
Proof.
  intros active. subst active.
  rewrite <- (length_map Override.type).
  rewrite active_overrides_triggered, triggered_types.
  unfold rule_fires, lineup_drops, all_rules.
  destruct var as [v |]; cbn [filter]; cmp_cases; cbn [andb];
    try (exfalso; lra);
    destruct flag, (spike && negb narr); cbn [In List.length];
    (split; [intros [H1 H2]; intuition discriminate | lia]).
Qed.

(** X8: the outcome of [evaluate_overrides] in closed form: the dominant
    override is the first rule that fires, the final physical
    recommendation is that rule's prescription, whose sizing is never
    positive, and the final hedge recommendation is the original one unless
    the speculative rule is the first, hence the only, rule that fires.
    When none fires both originals are final. *)
Theorem evaluate_overrides_first_firing_rule
    (var : option Q) (pp spread : Q) (flag : bool) (reason : option string)
    (spike narr : bool) (op : PhysicalResult.t) (oh : HedgeResult.t) :
  let ev := evaluate_overrides var pp spread flag reason spike narr op oh in
  let first :=
    hd_error (filter (rule_fires var pp spread flag spike narr) all_rules) in
  option_map Override.type (OverrideEvaluation.dominant_override ev) = first
  /\ OverrideEvaluation.final_physical ev
     = match first with
       | Some rule => prescribed_physical rule
       | None => op
       end
  /\ OverrideEvaluation.final_hedge ev
     = match first with
       | Some OverrideType.CHICAGO_ESPECULATIVO =>
           HedgeResult.mk HedgeRecommendation.AUMENTAR_FORTE
             Intensity.FORTE 20
       | _ => oh
       end
  /\ (first = Some OverrideType.CHICAGO_ESPECULATIVO ->
      List.length (OverrideEvaluation.active_overrides ev) = 1%nat)
  /\ (forall rule, PhysicalResult.sizing_pct (prescribed_physical rule) <= 0).
Proof.
  intros ev first. subst first.
  pose proof (active_overrides_triggered var pp spread flag reason spike narr
                op oh) as Hact.
  fold ev in Hact.
  pose proof (final_from_dominant ev _ _ _ _ _ _ _ _ _ eq_refl)
    as (_ & _ & Hp & Hh).
  pose proof (dominant_is_head ev _ _ _ _ _ _ _ _ _ eq_refl) as Hdom.
  clearbody ev. rewrite Hact in Hdom. rewrite Hp, Hh, Hdom, Hact.
  clear Hp Hh Hdom Hact.
  split; [| split; [| split; [| split]]];
    try (open_checks; unfold all_rules, replaced_by;
         destruct flag, var as [v |], spike, narr; cbv zeta;
         bool_cases; try reflexivity; cbn; intros; discriminate).
  intros []; discriminate.
Qed.

(** ** book.py: headroom, clamp and guards *)

(** X9: the long and short headrooms are never negative, and the book is
    at a limit exactly when the headroom on that side is zero. *)
Theorem headroom_nonnegative (b : BookState.t) :
  0 <= BookState.exposicao_disponivel_long b
  /\ 0 <= BookState.exposicao_disponivel_short b
  /\ (BookState.is_at_long_limit b = true
      <-> BookState.exposicao_disponivel_long b == 0)
  /\ (BookState.is_at_short_limit b = true
      <-> BookState.exposicao_disponivel_short b == 0).
Proof.
  unfold BookState.exposicao_disponivel_long,
    BookState.exposicao_disponivel_short, BookState.is_at_long_limit,
    BookState.is_at_short_limit, Py.max.
  repeat split; cmp_inner; intros; try lra; try reflexivity;
    try discriminate.
Qed.

(** X10: the effective sizing never exceeds the requested sizing in
    magnitude and never changes its sign; when the exposure is within its
    limits, adding the effective sizing keeps it within them. *)
Theorem effective_sizing_within_limits (s : Q) (b : BookState.t) :
  (0 <= s ->
   0 <= calculate_effective_sizing s b
   /\ calculate_effective_sizing s b <= s)
  /\ (s <= 0 ->
      s <= calculate_effective_sizing s b
      /\ calculate_effective_sizing s b <= 0)
  /\ (BookState.limite_short_pct b <= BookState.exposicao_fisica_pct b ->
      BookState.exposicao_fisica_pct b <= BookState.limite_long_pct b ->
      BookState.limite_short_pct b
      <= BookState.exposicao_fisica_pct b + calculate_effective_sizing s b
      /\ BookState.exposicao_fisica_pct b + calculate_effective_sizing s b
         <= BookState.limite_long_pct b).
Proof.
  unfold calculate_effective_sizing, BookState.exposicao_disponivel_long,
    BookState.exposicao_disponivel_short, Py.min, Py.max.
  repeat split; cmp_inner; lra.
Qed.

Lemma effective_sizing_within_limits_witness :
  -50 <= -40 + calculate_effective_sizing (-30) short_book
  /\ -40 + calculate_effective_sizing (-30) short_book <= 80.
Proof.
  apply (proj2 (proj2 (effective_sizing_within_limits (-30) short_book)));
    discriminate.
Defined.

Lemma modulate_by_book_reason
    (physical : PhysicalResult.t) (hedge : HedgeResult.t)
    (book : BookState.t) :
  let m := modulate_by_book physical hedge book in
  ModulatedResult.modulation_reason m = None
  <-> ModulatedResult.physical_was_modulated m = false
      /\ ModulatedResult.hedge_was_modulated m = false.
Proof.
  cbv delta [modulate_by_book] beta.
  destruct (physical_in_aumentar (PhysicalResult.recommendation physical)),
           (physical_in_reduzir (PhysicalResult.recommendation physical)),
           (hedge_in_aumentar (HedgeResult.recommendation hedge)),
           (BookState.is_at_long_limit book),
           (BookState.is_at_short_limit book),
           (BookState.is_overhedged book);
    split; try (intros [H1 H2]); try (intros H);
    try reflexivity; try discriminate; split; reflexivity.
Qed.

(** X11: what [modulate_by_book] returns: each recommendation comes back
    either untouched or replaced by a neutral hold, the flag of a side being
    set exactly when its guard fired; no increase is returned at the long
    limit, no decrease at the short limit, no hedge increase for an
    over-hedged book; a reason is given exactly when a flag is set. *)
Theorem modulate_by_book_outcome
    (physical : PhysicalResult.t) (hedge : HedgeResult.t)
    (book : BookState.t) :
  let m := modulate_by_book physical hedge book in
  (ModulatedResult.physical_was_modulated m = false
   /\ ModulatedResult.physical m = physical
   \/ ModulatedResult.physical_was_modulated m = true
      /\ ModulatedResult.physical m = physical_hold
      /\ PhysicalResult.recommendation physical
         <> PhysicalRecommendation.MANTER)
  /\ (ModulatedResult.hedge_was_modulated m = false
      /\ ModulatedResult.hedge m = hedge
      \/ ModulatedResult.hedge_was_modulated m = true
         /\ ModulatedResult.hedge m = hedge_hold
         /\ hedge_in_aumentar (HedgeResult.recommendation hedge) = true)
  /\ (physical_in_aumentar
        (PhysicalResult.recommendation (ModulatedResult.physical m)) = true ->
      BookState.is_at_long_limit book = false)
  /\ (physical_in_reduzir
        (PhysicalResult.recommendation (ModulatedResult.physical m)) = true ->
      BookState.is_at_short_limit book = false)
  /\ (hedge_in_aumentar
        (HedgeResult.recommendation (ModulatedResult.hedge m)) = true ->
      BookState.is_overhedged book = false)
  /\ (ModulatedResult.modulation_reason m = None
      <-> ModulatedResult.physical_was_modulated m = false
          /\ ModulatedResult.hedge_was_modulated m = false).
Proof.
  intros m.
  destruct (modulate_by_book_guards physical hedge book)
    as (Hp & Hh & Hpm & Hhm & _).
  pose proof (modulate_by_book_reason physical hedge book) as Hr.
  cbv zeta in Hr. fold m in Hp, Hh, Hpm, Hhm, Hr. clearbody m.
  split; [| split; [| split; [| split; [| split; [| exact Hr]]]]];
    rewrite ?Hp, ?Hh, ?Hpm, ?Hhm; clear Hp Hh Hpm Hhm Hr;
    unfold physical_hold, hedge_hold;
    destruct physical as [[] i s], hedge as [[] hi d];
    cbn [PhysicalResult.recommendation HedgeResult.recommendation
         physical_in_aumentar physical_in_reduzir hedge_in_aumentar
         andb orb];
    destruct (BookState.is_at_long_limit book),
             (BookState.is_at_short_limit book),
             (BookState.is_overhedged book);
    cbn; intros; try discriminate; try reflexivity;
    try (left; split; reflexivity);
    try (right; repeat split; try reflexivity; discriminate).
Qed.

(** ** engine.py: the report and the triggers *)

Lemma report_modulacao
    (inputs : MarketInputs.t) (book : option BookState.t) :
  DecisionReport.modulacao_aplicada (run_decision_engine inputs book)
  = (ModulatedResult.physical_was_modulated (engine_modulated inputs book)
     || ModulatedResult.hedge_was_modulated (engine_modulated inputs book))
  /\ DecisionReport.modulacao_razao (run_decision_engine inputs book)
     = ModulatedResult.modulation_reason (engine_modulated inputs book).
Proof. destruct book; split; reflexivity. Qed.

Lemma report_overrides
    (inputs : MarketInputs.t) (book : option BookState.t) :
  DecisionReport.overrides_ativos (run_decision_engine inputs book)
  = map OverrideType.value
      (map Override.type
         (OverrideEvaluation.active_overrides (engine_overrides inputs)))
  /\ DecisionReport.override_dominante (run_decision_engine inputs book)
     = option_map OverrideType.value
         (option_map Override.type
            (OverrideEvaluation.dominant_override (engine_overrides inputs))).
Proof.
  destruct book; split; try (now rewrite map_map);
    unfold run_decision_engine; cbv zeta;
    cbn [DecisionReport.override_dominante]; fold (engine_scoring inputs);
    fold (engine_overrides inputs);
    now destruct (OverrideEvaluation.dominant_override _).
Qed.

Lemma report_score
    (inputs : MarketInputs.t) (book : option BookState.t) :
  DecisionReport.score_fisico (run_decision_engine inputs book)
  = ScoringResult.score_fisico (engine_scoring inputs)
  /\ DecisionReport.classificacao (run_decision_engine inputs book)
     = PhysicalClassification.value
         (classify_score_fisico
            (ScoringResult.score_fisico (engine_scoring inputs))).
Proof. destruct book; split; reflexivity. Qed.

Lemma final_physical_cases
    (var : option Q) (pp spread : Q) (flag : bool) (reason : option string)
    (spike narr : bool) (op : PhysicalResult.t) (oh : HedgeResult.t) :
  let ev := evaluate_overrides var pp spread flag reason spike narr op oh in
  OverrideEvaluation.final_physical ev = op
  \/ exists rule,
       OverrideEvaluation.final_physical ev = prescribed_physical rule.
Proof.
  intros ev.
  pose proof (active_overrides_triggered var pp spread flag reason spike narr
                op oh) as Hact.
  fold ev in Hact.
  pose proof (final_from_dominant ev _ _ _ _ _ _ _ _ _ eq_refl)
    as (_ & _ & Hp & _).
  pose proof (dominant_is_head ev _ _ _ _ _ _ _ _ _ eq_refl) as Hdom.
  clearbody ev. rewrite Hact in Hdom. rewrite Hp, Hdom. clear Hp Hdom Hact.
  open_checks. unfold replaced_by.
  destruct flag, var as [v |], spike, narr; cbv zeta; bool_cases;
    first [ left; reflexivity
          | right; exists OverrideType.LOGISTICA; reflexivity
          | right; exists OverrideType.QUEDA_CONJUNTA; reflexivity
          | right; exists OverrideType.ARMADILHA_PREMIO; reflexivity
          | right; exists OverrideType.COMPETITIVIDADE_CRITICA; reflexivity
          | right; exists OverrideType.CHICAGO_ESPECULATIVO; reflexivity ].
Qed.

(** The sizings a recommendation can carry before modulation. *)
Lemma engine_final_physical_sizing (inputs : MarketInputs.t) :
  In (PhysicalResult.sizing_pct
        (OverrideEvaluation.final_physical (engine_overrides inputs)))
     [25; 15; 0; -15; -25; -20; -30].
Proof.
  unfold engine_overrides.
  destruct (final_physical_cases
              (MarketInputs.var_semanal_lineup inputs)
              (MarketInputs.percentil_premium inputs)
              (MarketInputs.spread_adjusted inputs)
              (MarketInputs.logistics_flag_active inputs)
              (MarketInputs.logistics_reason inputs)
              (MarketInputs.chicago_is_spike inputs)
              (MarketInputs.narrativa_confirmada inputs)
              (ScoringResult.physical (engine_scoring inputs))
              (ScoringResult.hedge (engine_scoring inputs)))
    as [-> | [rule ->]].
  - unfold engine_scoring, compute_scoring. cbv zeta.
    cbn [ScoringResult.physical].
    unfold compute_physical_recommendation. cmp_cases; cbn; tauto.
  - destruct rule; cbn; tauto.
Qed.

Lemma default_book_never_modulates
    (physical : PhysicalResult.t) (hedge : HedgeResult.t) :
  let m := modulate_by_book physical hedge default_book in
  ModulatedResult.physical m = physical
  /\ ModulatedResult.hedge m = hedge
  /\ ModulatedResult.physical_was_modulated m = false
  /\ ModulatedResult.hedge_was_modulated m = false
  /\ ModulatedResult.modulation_reason m = None.
Proof.
  intros m.
  destruct (modulate_by_book_guards physical hedge default_book)
    as (Hp & Hh & Hpm & Hhm & Hr).
  fold m in Hp, Hh, Hpm, Hhm, Hr. clearbody m.
  change (BookState.is_at_long_limit default_book) with false in *.
  change (BookState.is_at_short_limit default_book) with false in *.
  change (BookState.is_overhedged default_book) with false in *.
  rewrite !andb_false_r in *. cbn [orb] in *.
  repeat split; auto.
Qed.

(** X12: without a book the engine neither modulates nor clamps: the
    report says that no modulation was applied, gives no reason, and carries
    the action and the sizing of the recommendation that came out of the
    overrides, and its hedge action and delta, as they are. *)
Theorem default_book_passes_recommendations (inputs : MarketInputs.t) :
  let report := run_decision_engine inputs None in
  let ev := engine_overrides inputs in
  DecisionReport.modulacao_aplicada report = false
  /\ DecisionReport.modulacao_razao report = None
  /\ RecomendacaoFisica.acao (DecisionReport.recomendacao_fisica report)
     = PhysicalRecommendation.value
         (PhysicalResult.recommendation (OverrideEvaluation.final_physical ev))
  /\ RecomendacaoFisica.sizing_pct (DecisionReport.recomendacao_fisica report)
     == PhysicalResult.sizing_pct (OverrideEvaluation.final_physical ev)
  /\ RecomendacaoHedge.acao (DecisionReport.recomendacao_hedge report)
     = HedgeRecommendation.value
         (HedgeResult.recommendation (OverrideEvaluation.final_hedge ev))
  /\ RecomendacaoHedge.delta_pp (DecisionReport.recomendacao_hedge report)
     == HedgeResult.delta_pp (OverrideEvaluation.final_hedge ev).
Proof.
  intros report ev. subst report ev.
  destruct (report_modulacao inputs None) as [-> ->].
  rewrite report_recomendacao_fisica, report_recomendacao_hedge.
  cbn [RecomendacaoFisica.sizing_pct RecomendacaoFisica.acao
       RecomendacaoHedge.delta_pp RecomendacaoHedge.acao].
  unfold engine_effective_sizing, engine_modulated.
  change (engine_book None) with default_book.
  destruct (default_book_never_modulates
              (OverrideEvaluation.final_physical (engine_overrides inputs))
              (OverrideEvaluation.final_hedge (engine_overrides inputs)))
    as (-> & -> & -> & -> & ->).
  split; [reflexivity |]. split; [reflexivity |]. split; [reflexivity |].
  split; [| split; [reflexivity |]].
  - pose proof (engine_final_physical_sizing inputs) as Hs.
    cbn [In] in Hs.
    destruct Hs as [<- | [<- | [<- | [<- | [<- | [<- | [<- | []]]]]]]];
      reflexivity.
  - destruct (engine_modulated_sign inputs None) as (_ & Hh & _).
    unfold engine_modulated in Hh.
    change (engine_book None) with default_book in Hh.
    destruct (default_book_never_modulates
                (OverrideEvaluation.final_physical (engine_overrides inputs))
                (OverrideEvaluation.final_hedge (engine_overrides inputs)))
      as (_ & Hh' & _).
    rewrite Hh' in Hh. unfold hedge_sign_ok in Hh. rewrite Hh.
    destruct (HedgeResult.recommendation _); reflexivity.
Qed.

(** X13: the audit fields of the report are consistent: the active
    overrides are the names of the rules that fire, in priority order, and
    the dominant one is the first of them (none when the list is empty);
    modulation is flagged exactly when a reason is given; the score lies
    between 0 and 100 and the classification is the band of that score. *)
Theorem report_audit_fields
    (inputs : MarketInputs.t) (book : option BookState.t) :
  let report := run_decision_engine inputs book in
  DecisionReport.overrides_ativos report
  = map OverrideType.value
      (filter
         (rule_fires (MarketInputs.var_semanal_lineup inputs)
            (MarketInputs.percentil_premium inputs)
            (MarketInputs.spread_adjusted inputs)
            (MarketInputs.logistics_flag_active inputs)
            (MarketInputs.chicago_is_spike inputs)
            (MarketInputs.narrativa_confirmada inputs))
         all_rules)
  /\ DecisionReport.override_dominante report
     = hd_error (DecisionReport.overrides_ativos report)
  /\ (DecisionReport.modulacao_aplicada report = true
      <-> DecisionReport.modulacao_razao report <> None)
  /\ in_0_100 (DecisionReport.score_fisico report)
  /\ DecisionReport.classificacao report
     = PhysicalClassification.value
         (classify_score_fisico (DecisionReport.score_fisico report)).
Proof.
  intros report. subst report.
  destruct (report_overrides inputs book) as [Ha Hd].
  destruct (report_modulacao inputs book) as [Hm Hr].
  destruct (report_score inputs book) as [Hs Hc].
  rewrite Ha, Hd, Hm, Hr, Hs, Hc. clear Ha Hd Hm Hr Hs Hc.
  split; [| split; [| split; [| split; [| reflexivity]]]].
  - unfold engine_overrides.
    now rewrite active_overrides_triggered, triggered_types.
  - rewrite (dominant_is_head (engine_overrides inputs)
               _ _ _ _ _ _ _ _ _ eq_refl).
    now destruct (OverrideEvaluation.active_overrides _).
  - pose proof (modulate_by_book_reason
                  (OverrideEvaluation.final_physical (engine_overrides inputs))
                  (OverrideEvaluation.final_hedge (engine_overrides inputs))
                  (engine_book book)) as Hr.
    cbv zeta in Hr. fold (engine_modulated inputs book) in Hr.
    destruct (ModulatedResult.physical_was_modulated _),
             (ModulatedResult.hedge_was_modulated _),
             (ModulatedResult.modulation_reason _);
      cbn [orb]; split; intros H; try reflexivity; try discriminate;
      try (exfalso; apply H; tauto);
      try (destruct (proj1 Hr eq_refl); discriminate).
  - unfold engine_scoring, compute_scoring. cbv zeta.
    cbn [ScoringResult.score_fisico].
    unfold compute_score_fisico, in_0_100.
    set (score := _ + _). clearbody score.
    unfold _clamp, Py.min, Py.max. cmp_inner; lra.
Qed.

(** X14: a trigger check reports a trigger exactly when it lists a reason,
    and it lists one reason per flag that is set. *)
Theorem trigger_reasons_match_flags (c : TriggerCheck.t) :
  (TriggerCheck.any_triggered c = true
   <-> TriggerCheck.triggered_reasons c <> [])
  /\ List.length (TriggerCheck.triggered_reasons c)
     = count_true
         [TriggerCheck.lineup_triggered c; TriggerCheck.premium_triggered c;
          TriggerCheck.logistics_triggered c;
          TriggerCheck.chicago_triggered c].
Proof.
  destruct c as [[] [] [] []]; cbn; split; try reflexivity;
    split; intros H; try reflexivity; try discriminate; congruence.
Qed.

(** X15: [check_triggers] raises the line-up trigger exactly when both
    weekly changes are known and differ by more than 20 points, the premium
    trigger when the z-score move is known and beyond 2 in absolute value,
    the reference-price trigger when the weekly change is known and beyond
    5% in absolute value, and the logistics trigger with the flag; a missing
    input never triggers. *)
Theorem check_triggers_conditions
    (atual anterior move : option Q) (flag : bool) (chicago : option Q) :
  let c := check_triggers atual anterior move flag chicago in
  (TriggerCheck.lineup_triggered c = true
   <-> exists x y,
         atual = Some x /\ anterior = Some y
         /\ (20 < x - y \/ 20 < y - x))
  /\ (TriggerCheck.premium_triggered c = true
      <-> exists z, move = Some z /\ (2 < z \/ z < -2))
  /\ TriggerCheck.logistics_triggered c = flag
  /\ (TriggerCheck.chicago_triggered c = true
      <-> exists v, chicago = Some v /\ (5 < v \/ v < -5)).
Proof.
  unfold check_triggers, Py.abs, TRIGGER_LINEUP_CHANGE_PCT,
    TRIGGER_PREMIUM_STD, TRIGGER_CHICAGO_CHANGE_PCT.
  cbv zeta. cbn [TriggerCheck.lineup_triggered TriggerCheck.premium_triggered
                 TriggerCheck.logistics_triggered
                 TriggerCheck.chicago_triggered].
  split; [| split; [| split; [reflexivity |]]].
  - destruct atual as [x |], anterior as [y |]; split;
      try discriminate; try (intros (x' & y' & H1 & H2 & _); discriminate).
    + cmp_inner; intros H; try discriminate; exists x, y;
        repeat split; lra.
    + intros (x' & y' & H1 & H2 & H3). inversion H1; inversion H2; subst.
      cmp_inner; try reflexivity; lra.
  - destruct move as [z |]; split;
      try discriminate; try (intros (z' & H1 & _); discriminate).
    + cmp_inner; intros H; try discriminate; exists z; split;
        try reflexivity; lra.
    + intros (z' & H1 & H3). inversion H1; subst.
      cmp_inner; try reflexivity; lra.
  - destruct chicago as [v |]; split;
      try discriminate; try (intros (z' & H1 & _); discriminate).
    + cmp_inner; intros H; try discriminate; exists v; split;
        try reflexivity; lra.
    + intros (z' & H1 & H3). inversion H1; subst.
      cmp_inner; try reflexivity; lra.
Qed.

(** ** Rounding stays within integer bounds *)

Lemma round_half_even_lower (y : Q) (N : Z) :
  inject_Z N <= y -> (N <= Py.round_half_even y)%Z.
Proof.
  destruct y as [n d]. unfold Qle, Py.round_half_even.
  cbn [Qnum Qden inject_Z]. intros Hn.
  assert (Hfl : (N <= n / Zpos d)%Z)
    by (apply Z.div_le_lower_bound; lia).
  destruct (2 * (n mod Zpos d) ?= Zpos d)%Z; [destruct (Z.even _) | |]; lia.
Qed.

Lemma round_half_even_upper (y : Q) (N : Z) :
  y <= inject_Z N -> (Py.round_half_even y <= N)%Z.
Proof.
  destruct y as [n d]. unfold Qle, Py.round_half_even.
  cbn [Qnum Qden inject_Z]. intros Hn.
  pose proof (Z.div_mod n (Zpos d) ltac:(lia)) as Hdm.
  pose proof (Z.mod_pos_bound n (Zpos d) ltac:(lia)) as Hr.
  destruct (Z.compare_spec (2 * (n mod Zpos d)) (Zpos d)) as [He | Hl | Hg];
    [destruct (Z.even _) | |]; nia.
Qed.

Lemma round_within (x : Q) (k : nat) (a b : Z) :
  inject_Z a <= x -> x <= inject_Z b ->
  inject_Z a <= Py.round x k /\ Py.round x k <= inject_Z b.
Proof.
  intros Ha Hb. unfold Py.round.
  set (p := Z.to_pos (10 ^ Z.of_nat k)).
  assert (Hp : 0 <= inject_Z (Zpos p)) by (unfold Qle; cbn; lia).
  assert (Hl : (a * Zpos p <= Py.round_half_even (x * inject_Z (Zpos p)))%Z).
  { apply round_half_even_lower. rewrite inject_Z_mult.
    now apply Qmult_le_compat_r. }
  assert (Hu : (Py.round_half_even (x * inject_Z (Zpos p)) <= b * Zpos p)%Z).
  { apply round_half_even_upper. rewrite inject_Z_mult.
    now apply Qmult_le_compat_r. }
  unfold Qle. cbn [Qnum Qden inject_Z]. split; lia.
Qed.

(** ** premium.py and auxiliaries.py: more on percentiles *)

Lemma auxiliaries_calculate_percentile_nonempty
    (value : Q) (historical : list Q) :
  historical <> [] ->
  Auxiliaries.calculate_percentile value historical
  = Py.round (rank_percentile_double value historical) 2.
Proof.
  destruct historical as [| h r]; [congruence |]. intros _.
  unfold Auxiliaries.calculate_percentile, rank_percentile_double, Py.len.
  now rewrite !count_if_filter, ltb_strictly_below, eqb_equal_to.
Qed.

(** X16: on every non-empty sample the premium percentile and the
    reference-price percentile are the same number, and it lies between 0
    and 100; so does the reference-price percentile of an empty history. *)
Theorem percentiles_agree_in_range (value : Q) (historical : list Q) :
  in_0_100 (Auxiliaries.calculate_percentile value historical)
  /\ (historical <> [] ->
      Premium.calculate_percentile value historical
      = Py.Ok (Auxiliaries.calculate_percentile value historical)).
Proof.
  split.
  - destruct historical as [| h r].
    + split; discriminate.
    + rewrite auxiliaries_calculate_percentile_nonempty by discriminate.
      apply rank_percentile_double_round_range. discriminate.
  - intros Hne.
    rewrite premium_calculate_percentile_nonempty,
      auxiliaries_calculate_percentile_nonempty by assumption.
    reflexivity.
Qed.

Lemma percentiles_agree_in_range_witness :
  Premium.calculate_percentile (3 # 2) [1; 2; 3]
  = Py.Ok (Auxiliaries.calculate_percentile (3 # 2) [1; 2; 3]).
Proof.
  apply (proj2 (percentiles_agree_in_range (3 # 2) [1; 2; 3])).
  discriminate.
Defined.

Lemma filter_all {A : Type} (p : A -> bool) (l : list A) :
  Forall (fun x => p x = true) l -> filter p l = l.
Proof.
  induction 1 as [| x r Hx _ IH]; simpl; [reflexivity |].
  now rewrite Hx, IH.
Qed.

Lemma filter_none {A : Type} (p : A -> bool) (l : list A) :
  Forall (fun x => p x = false) l -> filter p l = [].
Proof.
  induction 1 as [| x r Hx _ IH]; simpl; [reflexivity |].
  now rewrite Hx, IH.
Qed.

Lemma rank_percentile_value
    (value : Q) (sample : list Q) (below equal : bool) (target : Z) :
  sample <> [] ->
  Forall (fun h => strictly_below value h = below) sample ->
  Forall (fun h => equal_to value h = equal) sample ->
  inject_Z target
  == (if below then 1 else 0) * 100 + (if equal then 1 else 0) * 50 ->
  rank_percentile value sample == inject_Z target.
Proof.
  intros Hne Hb He Ht. unfold rank_percentile.
  assert (Hn : ~ inject_Z (Z.of_nat (List.length sample)) == 0).
  { destruct sample; [congruence |]. unfold Qeq. cbn. lia. }
  destruct below, equal;
    rewrite ?(filter_all _ _ Hb), ?(filter_none _ _ Hb),
      ?(filter_all _ _ He), ?(filter_none _ _ He);
    cbn [List.length Z.of_nat]; rewrite Ht; field; exact Hn.
Qed.

(** X17: on a non-empty history a price above every sample is at
    percentile 100, a price below every sample at percentile 0, and a price
    equal to every sample at percentile 50. *)
Theorem percentile_extremes (value : Q) (historical : list Q) :
  historical <> [] ->
  (Forall (fun h => h < value) historical ->
   Auxiliaries.calculate_percentile value historical == 100)
  /\ (Forall (fun h => value < h) historical ->
      Auxiliaries.calculate_percentile value historical == 0)
  /\ (Forall (fun h => h == value) historical ->
      Auxiliaries.calculate_percentile value historical == 50).
Proof.
  intros Hne.
  rewrite auxiliaries_calculate_percentile_nonempty by assumption.
  assert (Hround : forall t : Z,
             rank_percentile value historical == inject_Z t ->
             Py.round (rank_percentile_double value historical) 2
             == inject_Z t).
  { intros t Ht. now apply rank_percentile_double_round_whole. }
  split; [| split]; intros Hall.
  - apply (Hround 100%Z).
    apply (rank_percentile_value value historical true false);
      try assumption; try reflexivity;
      refine (Forall_impl _ _ Hall); intros h Hh;
      unfold strictly_below, equal_to;
      destruct (Qcompare_spec h value); try reflexivity; lra.
  - apply (Hround 0%Z).
    apply (rank_percentile_value value historical false false);
      try assumption; try reflexivity;
      refine (Forall_impl _ _ Hall); intros h Hh;
      unfold strictly_below, equal_to;
      destruct (Qcompare_spec h value); try reflexivity; lra.
  - apply (Hround 50%Z).
    apply (rank_percentile_value value historical false true);
      try assumption; try reflexivity;
      refine (Forall_impl _ _ Hall); intros h Hh;
      unfold strictly_below, equal_to;
      destruct (Qcompare_spec h value); try reflexivity; lra.
Qed.

Lemma percentile_extremes_witness :
  Auxiliaries.calculate_percentile 5 [1; 2; 3] == 100.
Proof.
  apply (proj1 (percentile_extremes 5 [1; 2; 3] ltac:(discriminate))).
  repeat constructor.
Defined.

(** X18: the harvest regime is that of the months March to July; every
    month of the year belongs to the months of exactly one regime, and the
    regime of a date is the one whose months hold the date's month. *)
Theorem regime_months_partition (dt : Py.date) :
  (Premium.get_regime dt = Premium.safra <-> (3 <= Py.month dt <= 7)%Z)
  /\ ((1 <= Py.month dt <= 12)%Z ->
      In (Py.month dt) (Premium.get_regime_months (Premium.get_regime dt))
      /\ ~ (In (Py.month dt) (Premium.get_regime_months Premium.safra)
            /\ In (Py.month dt)
                 (Premium.get_regime_months Premium.entressafra))).
Proof.
  destruct dt as [y m d]. unfold Premium.get_regime. cbn [Py.month].
  unfold SAFRA_MONTHS. cbn [existsb Premium.get_regime_months].
  unfold SAFRA_MONTHS, ENTRESSAFRA_MONTHS.
  destruct (Z.eqb_spec m 3), (Z.eqb_spec m 4), (Z.eqb_spec m 5),
    (Z.eqb_spec m 6), (Z.eqb_spec m 7); cbn [orb];
    (split; [split; intros; try reflexivity; try discriminate; lia |]);
    intros Hm; cbn [Premium.get_regime_months];
    unfold SAFRA_MONTHS, ENTRESSAFRA_MONTHS; cbn [In]; split; lia.
Qed.

Lemma regime_months_partition_witness :
  In 3%Z (Premium.get_regime_months (Premium.get_regime harvest_day)).
Proof.
  apply (proj2 (regime_months_partition harvest_day)). cbn. lia.
Defined.

(** X19: the premium percentile and the reference-price percentile are
    classified alike: very low on [0, 20), low on [20, 40), neutral on
    [40, 60), high on [60, 80) and very high from 80 on; a negative
    percentile, which no band holds, falls to very high as well. *)
Theorem percentile_bands (p : Q) :
  let c := Premium.classify_premium p in
  let s := Auxiliaries.classify_chicago_signal p in
  (c = Premium.PremiumClassification.MUITO_BAIXO <-> 0 <= p < 20)
  /\ (c = Premium.PremiumClassification.BAIXO <-> 20 <= p < 40)
  /\ (c = Premium.PremiumClassification.NEUTRO <-> 40 <= p < 60)
  /\ (c = Premium.PremiumClassification.ALTO <-> 60 <= p < 80)
  /\ (c = Premium.PremiumClassification.MUITO_ALTO <-> 80 <= p \/ p < 0)
  /\ (s = Auxiliaries.ChicagoSignal.MUITO_BAIXO <-> 0 <= p < 20)
  /\ (s = Auxiliaries.ChicagoSignal.BAIXO <-> 20 <= p < 40)
  /\ (s = Auxiliaries.ChicagoSignal.NEUTRO <-> 40 <= p < 60)
  /\ (s = Auxiliaries.ChicagoSignal.ALTO <-> 60 <= p < 80)
  /\ (s = Auxiliaries.ChicagoSignal.MUITO_ALTO <-> 80 <= p \/ p < 0).
Proof.
  unfold Premium.classify_premium, Premium.CLASSIFICATION_THRESHOLDS,
    Premium.classify_in, Auxiliaries.classify_chicago_signal,
    Auxiliaries.CHICAGO_PERCENTILE_THRESHOLDS, Py.first_band, Py.in_band,
    Py.xleb, Py.xltb.
  cbv zeta. cmp_inner; cbn [andb];
    repeat split; intros; try discriminate; try reflexivity; try lra;
    try (exfalso; lra); intuition lra.
Qed.

(** ** auxiliaries.py: FX, demand, logistics and reference-price metrics *)

Ltac open_bands :=
  unfold Py.first_band, Py.in_band, Py.xleb, Py.xltb; cbv zeta.

(** X21: the FX metrics: without a usable price five days ago (missing or
    zero) there is no 5-day change, no signal and the modulation is 1;
    otherwise the modulation follows the 5-day change: 0.8 below -3%, 0.9
    from -3% to below -1%, 1 from -1% to below 1%, 1.1 from 1% to below 3%,
    1.2 from 3% on.  It always lies between 0.8 and 1.2. *)
Theorem cambio_metrics_modulation
    (dt : Py.date) (usd_brl : Q) (ago5 ago20 : option Q) :
  let m := Auxiliaries.compute_cambio_metrics dt usd_brl ago5 ago20 in
  let modulation := Auxiliaries.CambioMetrics.modulation m in
  (8 # 10) <= modulation /\ modulation <= (12 # 10)
  /\ (Auxiliaries.CambioMetrics.var_5d m = None
      <-> ago5 = None \/ exists p, ago5 = Some p /\ p == 0)
  /\ (Auxiliaries.CambioMetrics.var_5d m = None ->
      Auxiliaries.CambioMetrics.signal m = None /\ modulation = 1)
  /\ (forall v,
        Auxiliaries.CambioMetrics.var_5d m = Some v ->
        (v < -3 -> modulation = 8 # 10)
        /\ (-3 <= v < -1 -> modulation = 9 # 10)
        /\ (-1 <= v < 1 -> modulation = 1)
        /\ (1 <= v < 3 -> modulation = 11 # 10)
        /\ (3 <= v -> modulation = 12 # 10)).
Proof.
  intros m modulation. subst m modulation.
  unfold Auxiliaries.compute_cambio_metrics. cbv zeta.
  cbn [Auxiliaries.CambioMetrics.modulation Auxiliaries.CambioMetrics.var_5d
       Auxiliaries.CambioMetrics.signal].
  assert (Hvar : Auxiliaries.calculate_var_percent usd_brl ago5 = None
                 <-> ago5 = None \/ exists p, ago5 = Some p /\ p == 0).
  { unfold Auxiliaries.calculate_var_percent.
    destruct ago5 as [p |]; [| tauto].
    destruct (eqb_reflect p 0) as [Hp | Hp]; split; intros H;
      try discriminate; try reflexivity.
    - right. exists p. now split.
    - destruct H as [H | (p' & H & Hp')]; [discriminate |].
      inversion H; subst. contradiction. }
  destruct (Auxiliaries.calculate_var_percent usd_brl ago5) as [v |].
  - unfold Auxiliaries.classify_cambio_signal, Auxiliaries.CAMBIO_THRESHOLDS.
    open_bands.
    split; [| split; [| split; [exact Hvar | split; [discriminate |]]]];
      try (cmp_inner; cbn; discriminate).
    intros v' Hv'. inversion Hv'; subst v'. clear Hv'.
    cmp_inner; cbn; repeat split; intros; try reflexivity; lra.
  - cbn. repeat split; try discriminate; try tauto.
Qed.

(** X22: the band classifiers over the whole line leave no gap and never
    reach their fallback: the demand signal is cut at -1.5, -0.5, 0.5 and
    1.5, the line-up trend at -15, -5, 5 and 15, the competitiveness class
    at -20, -10, 10 and 20, each band holding its lower cut point; a missing
    input has no signal or trend. *)
Theorem unbounded_bands (x : Q) :
  (Auxiliaries.classify_demand_signal None = None
   /\ Lineup.classify_trend None = None)
  /\ ((x < -(3 # 2) ->
       Auxiliaries.classify_demand_signal (Some x)
       = Some Auxiliaries.DemandSignal.MUITO_FRACA)
      /\ (-(3 # 2) <= x < -(1 # 2) ->
          Auxiliaries.classify_demand_signal (Some x)
          = Some Auxiliaries.DemandSignal.FRACA)
      /\ (-(1 # 2) <= x < 1 # 2 ->
          Auxiliaries.classify_demand_signal (Some x)
          = Some Auxiliaries.DemandSignal.NORMAL)
      /\ (1 # 2 <= x < 3 # 2 ->
          Auxiliaries.classify_demand_signal (Some x)
          = Some Auxiliaries.DemandSignal.FORTE)
      /\ (3 # 2 <= x ->
          Auxiliaries.classify_demand_signal (Some x)
          = Some Auxiliaries.DemandSignal.MUITO_FORTE))
  /\ ((x < -15 ->
       Lineup.classify_trend (Some x) = Some Lineup.LineupTrend.FORTE_QUEDA)
      /\ (-15 <= x < -5 ->
          Lineup.classify_trend (Some x) = Some Lineup.LineupTrend.QUEDA)
      /\ (-5 <= x < 5 ->
          Lineup.classify_trend (Some x) = Some Lineup.LineupTrend.ESTAVEL)
      /\ (5 <= x < 15 ->
          Lineup.classify_trend (Some x) = Some Lineup.LineupTrend.ALTA)
      /\ (15 <= x ->
          Lineup.classify_trend (Some x)
          = Some Lineup.LineupTrend.FORTE_ALTA))
  /\ ((x < -20 ->
       Competitiveness.classify_competitiveness x
       = Competitiveness.CompetitivenessClass.BRASIL_MUITO_BARATO)
      /\ (-20 <= x < -10 ->
          Competitiveness.classify_competitiveness x
          = Competitiveness.CompetitivenessClass.BRASIL_BARATO)
      /\ (-10 <= x < 10 ->
          Competitiveness.classify_competitiveness x
          = Competitiveness.CompetitivenessClass.NEUTRO)
      /\ (10 <= x < 20 ->
          Competitiveness.classify_competitiveness x
          = Competitiveness.CompetitivenessClass.BRASIL_CARO)
      /\ (20 <= x ->
          Competitiveness.classify_competitiveness x
          = Competitiveness.CompetitivenessClass.BRASIL_MUITO_CARO)).
Proof.
  unfold Auxiliaries.classify_demand_signal, Auxiliaries.DEMAND_Z_THRESHOLDS,
    Lineup.classify_trend, Lineup.TREND_THRESHOLDS,
    Competitiveness.classify_competitiveness,
    Competitiveness.COMPETITIVENESS_THRESHOLDS.
  open_bands.
  repeat split; intros; cmp_inner; cbn; try reflexivity; lra.
Qed.

Lemma unbounded_bands_witness :
  Lineup.classify_trend (Some (-12)) = Some Lineup.LineupTrend.QUEDA
  /\ Competitiveness.classify_competitiveness 17
     = Competitiveness.CompetitivenessClass.BRASIL_CARO.
Proof.
  split.
  - apply (unbounded_bands (-12)). split; [discriminate | reflexivity].
  - apply (unbounded_bands 17). split; [discriminate | reflexivity].
Defined.

(** X23: the logistics flag is active exactly when at least one of its
    three triggers fires: a wait above 15 days sustained for at least 2
    weeks, a loading rate below 70%, or a non-empty manual event; it carries
    a reason exactly when it is active, and hands the manual event back
    unchanged. *)
Theorem logistics_flag_triggers
    (wait : option Q) (weeks : Z) (rate : option Q) (event : option string) :
  let f := Auxiliaries.compute_logistics_flag wait weeks rate event in
  (Auxiliaries.LogisticsFlag.is_active f = true
   <-> (exists d, wait = Some d /\ 15 < d /\ (2 <= weeks)%Z)
       \/ (exists r, rate = Some r /\ r < 70 # 100)
       \/ Auxiliaries.truthy event = true)
  /\ (Auxiliaries.LogisticsFlag.reason f = None
      <-> Auxiliaries.LogisticsFlag.is_active f = false)
  /\ Auxiliaries.LogisticsFlag.manual_event f = event.
Proof.
  cbv delta [Auxiliaries.compute_logistics_flag] beta.
  unfold Auxiliaries.WAIT_TIME_THRESHOLD_DAYS,
    Auxiliaries.WAIT_TIME_CONSECUTIVE_WEEKS,
    Auxiliaries.LOADING_RATE_THRESHOLD.
  change (inject_Z 15) with 15.
  destruct wait as [d |], rate as [r |];
    destruct (Auxiliaries.truthy event) eqn:Et;
    try destruct (Z.leb_spec 2 weeks) as [Hw | Hw];
    cmp_inner; cbn;
    (split; [| split; [| reflexivity]]);
    split; intros Hx; try reflexivity; try discriminate;
    try (left; eexists; repeat split; try reflexivity; assumption);
    try (right; left; eexists; split; [reflexivity | assumption]);
    try (right; right; reflexivity);
    try (destruct Hx as [(d' & Hd & Hd1 & Hd2) | [(r' & Hr & Hr1) | Hev]];
         try discriminate;
         try (inversion Hd; subst; try lra; lia);
         try (inversion Hr; subst; lra)).
Qed.

Lemma auxiliaries_percentile_range (value : Q) (historical : list Q) :
  in_0_100 (Auxiliaries.calculate_percentile value historical).
Proof.
  destruct historical as [| h r].
  - split; discriminate.
  - rewrite auxiliaries_calculate_percentile_nonempty by discriminate.
    apply rank_percentile_double_round_range. discriminate.
Qed.

(** X24: the reference-price metrics: the percentile lies between 0 and
    100 and is the neutral 50, with a neutral signal, on an empty history;
    the speculative-spike flag is set exactly when the 5-day change is known
    and above 5%, which is also exactly when a warning is logged; the 5-day
    change is unknown exactly when the price five days ago is missing or
    zero. *)
Theorem chicago_metrics_spike
    (dt : Py.date) (price : Q) (historical : list Q) (ago : option Q) :
  let out := Auxiliaries.compute_chicago_metrics dt price historical ago in
  let m := snd out in
  in_0_100 (Auxiliaries.ChicagoMetrics.percentile m)
  /\ (historical = [] ->
      Auxiliaries.ChicagoMetrics.percentile m = 50
      /\ Auxiliaries.ChicagoMetrics.signal m
         = Auxiliaries.ChicagoSignal.NEUTRO)
  /\ (Auxiliaries.ChicagoMetrics.is_speculative_spike m = true
      <-> exists v, Auxiliaries.ChicagoMetrics.var_5d m = Some v /\ 5 < v)
  /\ (fst out <> []
      <-> Auxiliaries.ChicagoMetrics.is_speculative_spike m = true)
  /\ (Auxiliaries.ChicagoMetrics.var_5d m = None
      <-> ago = None \/ exists p, ago = Some p /\ p == 0).
Proof.
  intros out m. subst out m.
  unfold Auxiliaries.compute_chicago_metrics. cbv zeta.
  cbn [fst snd Auxiliaries.ChicagoMetrics.percentile
       Auxiliaries.ChicagoMetrics.signal Auxiliaries.ChicagoMetrics.var_5d
       Auxiliaries.ChicagoMetrics.is_speculative_spike].
  split; [apply auxiliaries_percentile_range |].
  split; [intros ->; split; reflexivity |].
  assert (Hvar : Auxiliaries.calculate_var_percent price ago = None
                 <-> ago = None \/ exists p, ago = Some p /\ p == 0).
  { unfold Auxiliaries.calculate_var_percent.
    destruct ago as [p |]; [| tauto].
    destruct (eqb_reflect p 0) as [Hp | Hp]; split; intros H;
      try discriminate; try reflexivity.
    - right. exists p. now split.
    - destruct H as [H | (p' & H & Hp')]; [discriminate |].
      inversion H; subst. contradiction. }
  split; [| split; [| exact Hvar]];
    unfold Auxiliaries.CHICAGO_SPECULATIVE_SPIKE_THRESHOLD;
    destruct (Auxiliaries.calculate_var_percent price ago) as [v |];
    try (cmp_inner; split; intros H; try reflexivity; try discriminate;
         try congruence;
         try (exists v; split; [reflexivity | assumption]);
         try (destruct H as (v' & Hv' & Hlt); inversion Hv'; subst; lra));
    split; intros H; try discriminate; try congruence;
    destruct H as (v' & Hv' & _); discriminate.
Qed.

(** ** lineup.py and competitiveness.py *)

(** X25: the net line-up is never negative; with a gross line-up and
    counts of cancelled and postponed vessels that are not negative it never
    exceeds the gross line-up, so the pair passes [validate_lineup]. *)
Theorem lineup_liquido_is_valid (bruto cancelados adiados : Z) :
  (0 <= Lineup.calculate_lineup_liquido bruto cancelados adiados)%Z
  /\ ((0 <= bruto)%Z -> (0 <= cancelados)%Z -> (0 <= adiados)%Z ->
      (Lineup.calculate_lineup_liquido bruto cancelados adiados <= bruto)%Z
      /\ Lineup.validate_lineup bruto
           (Lineup.calculate_lineup_liquido bruto cancelados adiados) = []).
Proof.
  unfold Lineup.calculate_lineup_liquido, Py.zmax.
  destruct (Z.ltb_spec 0 (bruto - cancelados - adiados)) as [Hl | Hl].
  - split; [lia |]. intros Hb Hc Ha. split; [lia |].
    unfold Lineup.validate_lineup. cbv zeta.
    destruct (Z.ltb_spec bruto (bruto - cancelados - adiados)); [lia |].
    destruct (Z.ltb_spec bruto 0); [lia |].
    destruct (Z.ltb_spec (bruto - cancelados - adiados) 0); [lia |].
    reflexivity.
  - split; [lia |]. intros Hb Hc Ha. split; [lia |].
    unfold Lineup.validate_lineup. cbv zeta.
    destruct (Z.ltb_spec bruto 0); [lia |]. reflexivity.
Qed.

Lemma lineup_liquido_is_valid_witness :
  (Lineup.calculate_lineup_liquido 40 5 3 <= 40)%Z
  /\ Lineup.validate_lineup 40 (Lineup.calculate_lineup_liquido 40 5 3) = [].
Proof.
  apply (proj2 (lineup_liquido_is_valid 40 5 3)); lia.
Defined.

Lemma taxa_cancelamento_range (cancelados adiados atras : Z) :
  in_0_100 (Lineup.calculate_taxa_cancelamento cancelados adiados atras).
Proof.
  unfold Lineup.calculate_taxa_cancelamento.
  destruct (atras <=? 0)%Z; [split; discriminate |].
  cbv zeta. set (taxa := _ / _ * 100). clearbody taxa.
  apply (round_within _ 2 0 100); unfold Py.min, Py.max; cmp_inner;
    change (inject_Z 0) with 0; change (inject_Z 100) with 100; lra.
Qed.

(** X26: the line-up metrics: the cancellation rate lies between 0 and
    100, so the metrics are valid exactly when the net line-up lies between
    0 and the gross line-up; the weekly change, and with it the trend, is
    unknown exactly when the net line-up of the week before is missing or
    not positive. *)
Theorem lineup_metrics_validity
    (dt : Py.date) (bruto liquido cancelamentos : Z)
    (bruto_atras liquido_atras : option Z) (adiados : Z) :
  let m :=
    Lineup.compute_lineup_metrics dt bruto liquido cancelamentos bruto_atras
      liquido_atras adiados in
  in_0_100 (Lineup.LineupMetrics.taxa_cancelamento m)
  /\ (Lineup.LineupMetrics.is_valid m = true
      <-> (0 <= liquido <= bruto)%Z)
  /\ (Lineup.LineupMetrics.is_valid m = true
      <-> Lineup.LineupMetrics.validation_errors m = [])
  /\ (Lineup.LineupMetrics.var_semanal m = None
      <-> liquido_atras = None
          \/ exists p, liquido_atras = Some p /\ (p <= 0)%Z)
  /\ (Lineup.LineupMetrics.trend m = None
      <-> Lineup.LineupMetrics.var_semanal m = None).
Proof.
  intros m. subst m.
  assert (Hvalid : (Py.len (Lineup.validate_lineup bruto liquido) =? 0)%Z
                   = true <-> (0 <= liquido <= bruto)%Z).
  { unfold Lineup.validate_lineup, Py.len. cbv zeta.
    destruct (Z.ltb_spec bruto liquido), (Z.ltb_spec bruto 0),
      (Z.ltb_spec liquido 0); cbn; split; intros; try discriminate;
      try reflexivity; lia. }
  assert (Hempty : (Py.len (Lineup.validate_lineup bruto liquido) =? 0)%Z
                   = true <-> Lineup.validate_lineup bruto liquido = []).
  { unfold Py.len.
    destruct (Lineup.validate_lineup bruto liquido); cbn; split; intros;
      try reflexivity; discriminate. }
  assert (Hvar : Lineup.calculate_var_semanal liquido liquido_atras = None
                 <-> liquido_atras = None
                     \/ exists p, liquido_atras = Some p /\ (p <= 0)%Z).
  { unfold Lineup.calculate_var_semanal.
    destruct liquido_atras as [p |]; [| tauto].
    destruct (Z.leb_spec p 0); split; intros Hx; try reflexivity;
      try discriminate.
    - right. exists p. now split.
    - destruct Hx as [Hx | (p' & Hx & Hp')]; [discriminate |].
      inversion Hx; subst. lia. }
  assert (Htrend : Lineup.classify_trend
                     (Lineup.calculate_var_semanal liquido liquido_atras)
                   = None
                   <-> Lineup.calculate_var_semanal liquido liquido_atras
                       = None).
  { unfold Lineup.classify_trend.
    destruct (Lineup.calculate_var_semanal liquido liquido_atras); split;
      intros; try reflexivity; discriminate. }
  unfold Lineup.compute_lineup_metrics.
  destruct bruto_atras as [atras |]; cbv zeta;
    cbn [Lineup.LineupMetrics.taxa_cancelamento Lineup.LineupMetrics.is_valid
         Lineup.LineupMetrics.validation_errors
         Lineup.LineupMetrics.var_semanal Lineup.LineupMetrics.trend].
  - pose proof (taxa_cancelamento_range cancelamentos adiados atras)
      as [H0 H100].
    set (taxa := Lineup.calculate_taxa_cancelamento _ _ _) in *.
    clearbody taxa.
    destruct (leb_reflect 0 taxa); [| contradiction].
    destruct (leb_reflect taxa 100); [| contradiction].
    cbn [andb negb].
    split; [split; assumption |]. tauto.
  - split; [split; discriminate |]. tauto.
Qed.

(** X27: the line-up helper and the override rules agree on what a
    dropping line-up is: the joint-drop and premium-trap rules fire only on
    a weekly change that [is_lineup_dropping] accepts, and such a change is
    always classified as a drop or a strong drop. *)
Theorem lineup_dropping_agrees_with_rules (var : option Q) (pp : Q) :
  (check_queda_conjunta var pp <> None -> Lineup.is_lineup_dropping var = true)
  /\ (check_armadilha_premio var pp <> None ->
      Lineup.is_lineup_dropping var = true)
  /\ (Lineup.is_lineup_dropping var = true ->
      Lineup.classify_trend var = Some Lineup.LineupTrend.FORTE_QUEDA
      \/ Lineup.classify_trend var = Some Lineup.LineupTrend.QUEDA)
  /\ (Lineup.is_lineup_dropping var = false ->
      check_queda_conjunta var pp = None
      /\ check_armadilha_premio var pp = None).
Proof.
  unfold check_queda_conjunta, check_armadilha_premio,
    Lineup.is_lineup_dropping, Lineup.LINEUP_DROP_OVERRIDE_THRESHOLD,
    LINEUP_DROP_OVERRIDE_THRESHOLD, Lineup.classify_trend,
    Lineup.TREND_THRESHOLDS.
  open_bands.
  destruct var as [v |]; cbv zeta;
    (split; [| split; [| split]]); intros Hx; try discriminate;
    try reflexivity; try congruence; try (split; reflexivity);
    revert Hx; cmp_inner; cbn; intros Hx;
    try reflexivity; try discriminate; try congruence; try tauto;
    try (split; reflexivity); try lra.
Qed.

Lemma lineup_dropping_agrees_with_rules_witness :
  Lineup.is_lineup_dropping (Some (-15)) = true.
Proof.
  apply (proj1 (lineup_dropping_agrees_with_rules (Some (-15)) 25)).
  discriminate.
Defined.

(** X28: [is_brazil_not_competitive] holds exactly when the
    critical-competitiveness rule fires, that is above a spread of 15; the
    spread is then classified as expensive or very expensive and the
    competitiveness score is below 12.5. *)
Theorem not_competitive_agrees_with_rule (spread : Q) :
  (Competitiveness.is_brazil_not_competitive spread = true
   <-> check_competitividade_critica spread <> None)
  /\ (Competitiveness.is_brazil_not_competitive spread = true
      <-> 15 < spread)
  /\ (Competitiveness.is_brazil_not_competitive spread = true ->
      (Competitiveness.classify_competitiveness spread
       = Competitiveness.CompetitivenessClass.BRASIL_CARO
       \/ Competitiveness.classify_competitiveness spread
          = Competitiveness.CompetitivenessClass.BRASIL_MUITO_CARO)
      /\ score_competitiveness spread < 25 # 2).
Proof.
  unfold Competitiveness.is_brazil_not_competitive,
    Competitiveness.CRITICAL_SPREAD_THRESHOLD, check_competitividade_critica,
    CRITICAL_SPREAD_THRESHOLD,
    Competitiveness.classify_competitiveness,
    Competitiveness.COMPETITIVENESS_THRESHOLDS.
  open_bands.
  split; [| split].
  - cmp_inner; split; intros H; try reflexivity; try discriminate;
      congruence.
  - cmp_inner; split; intros H; try reflexivity; try discriminate;
      try assumption; contradiction.
  - intros H. split.
    + revert H. cmp_inner; cbn; intros H; try discriminate; try tauto; lra.
    + revert H. open_scores. cmp_inner; intros H; try discriminate; lra.
Qed.

Lemma not_competitive_agrees_with_rule_witness :
  score_competitiveness 17 < 25 # 2.
Proof.
  apply (proj2 (proj2 (not_competitive_agrees_with_rule 17))). reflexivity.
Defined.

(** ** More theorems at concrete inputs *)


Lemma evaluate_overrides_first_firing_rule_witness :
  List.length
    (OverrideEvaluation.active_overrides
       (evaluate_overrides None 50 0 false None true false strike_physical
          strike_hedge)) = 1%nat.
Proof.
  destruct (evaluate_overrides_first_firing_rule None 50 0 false None true
              false strike_physical strike_hedge) as (_ & _ & _ & H & _).
  exact (H eq_refl).
Defined.

Lemma modulate_by_book_outcome_witness :
  BookState.is_at_long_limit short_book = false.
Proof.
  destruct (modulate_by_book_outcome
              (PhysicalResult.mk PhysicalRecommendation.AUMENTAR
                 Intensity.MODERADA 15)
              hedge_hold short_book) as (_ & _ & H & _).
  exact (H eq_refl).
Defined.

Lemma cambio_metrics_modulation_witness :
  Auxiliaries.CambioMetrics.modulation
    (Auxiliaries.compute_cambio_metrics harvest_day 5 None None) = 1.
Proof.
  destruct (cambio_metrics_modulation harvest_day 5 None None)
    as (_ & _ & _ & H & _).
  exact (proj2 (H eq_refl)).
Defined.

Lemma chicago_metrics_spike_witness :
  Auxiliaries.ChicagoMetrics.percentile
    (snd (Auxiliaries.compute_chicago_metrics harvest_day 1000 [] None)) = 50.
Proof.
  destruct (chicago_metrics_spike harvest_day 1000 [] None)
    as (_ & H & _).
  exact (proj1 (H eq_refl)).
Defined.
